(** * Jetpack project-management client: project modals and pagination link

    A shallow embedding of the TypeScript sources

    - [src/components/projects/ProjectModal.tsx]  (the hand-validated modal,
      module [LegacyProjectModal] below),
    - the react-hook-form / react-query project modal (module [ProjectModal]),
    - [src/components/ui/pagination.tsx]          (module [Pagination]),

    followed by the properties established about them.

    Conventions.  Data whose TypeScript type is [any] (backend responses,
    rejected errors, request bodies) is a [jsval]; data with a declared
    interface is a record.  Handlers run in the monad [Eff S]: React state of
    type [S] is threaded explicitly, every observable effect (console output,
    toast, HTTP request, callback invocation) is appended to a trace, and a
    JavaScript exception is the outcome [Thrown].  [await] is sequencing: the
    answer of the backend to a request is read from a [Backend] oracle. *)

From stdpp Require Import gmap strings list fin_maps.
From Stdlib Require Import ZArith.

Set Warnings "-register-all".

Local Open Scope string_scope.
Local Open Scope list_scope.

(* ===================================================================== *)
(** ** JavaScript values *)
(* ===================================================================== *)

Module JS.

(** Values of type [any].  A [Date] carries its time value, [None] being the
    Invalid Date.  An object is the finite map of its own properties. *)
Inductive jsval : Type :=
| JUndefined
| JNull
| JBool (b : bool)
| JNum (n : Z)
| JStr (s : string)
| JDate (t : option Z)
| JArr (l : list jsval)
| JObj (o : gmap string jsval).

(** ToBoolean. *)
Definition truthy (v : jsval) : bool :=
  match v with
  | JUndefined | JNull => false
  | JBool b => b
  | JNum n => negb (n =? 0)%Z
  | JStr s => negb (String.eqb s "")
  | JDate _ | JArr _ | JObj _ => true
  end.

(** [a || b] *)
Definition js_or (a b : jsval) : jsval := if truthy a then a else b.

(** [o.k] on an object known to be one: an own property, else [undefined]. *)
Definition field (o : gmap string jsval) (k : string) : jsval :=
  default JUndefined (o !! k).

(** [v.k] for a value that is neither [null] nor [undefined].  The property
    names read by this program ([data], [response], [message], [_id], [id])
    are not properties of strings, numbers, booleans, dates or arrays, so
    only objects answer with something else than [undefined]. *)
Definition prop (v : jsval) (k : string) : jsval :=
  match v with
  | JObj o => field o k
  | _ => JUndefined
  end.

Definition nullish (v : jsval) : bool :=
  match v with JUndefined | JNull => true | _ => false end.

(** [v?.k] *)
Definition opt_prop (v : jsval) (k : string) : jsval :=
  if nullish v then JUndefined else prop v k.

(** [Array.isArray(v)] *)
Definition Array_isArray (v : jsval) : bool :=
  match v with JArr _ => true | _ => false end.

(** [v === s] for a string literal [s]. *)
Definition strict_eq_str (v : jsval) (s : string) : bool :=
  match v with JStr s' => String.eqb s' s | _ => false end.

(** The error raised by a property read on [null] or [undefined]. *)
Definition TypeError : jsval :=
  JObj {[ "name" := JStr "TypeError" ]}.

(** Truthiness and [||] at the declared types [string] and [string | undefined]. *)
Definition truthy_str (s : string) : bool := negb (String.eqb s "").

Definition str_or (a b : string) : string := if truthy_str a then a else b.

Definition truthy_ostr (a : option string) : bool :=
  match a with Some s => truthy_str s | None => false end.

Definition ostr_or (a : option string) (b : string) : string :=
  match a with
  | Some s => if truthy_str s then s else b
  | None => b
  end.

Definition ostr_oor (a b : option string) : option string :=
  if truthy_ostr a then a else b.

(** *** Strings

    A JavaScript string is held as the bytes of its UTF-8 encoding.  The
    operations used by the program ([=== ""], [||], [+], a length of at
    least one) do not depend on the encoding; [trim] does, and decodes. *)

(** The code points that [String.prototype.trim] strips: WhiteSpace (TAB,
    VT, FF, SPACE, NO-BREAK SPACE, the byte order mark U+FEFF and the other
    space separators: U+1680, U+2000 to U+200A, U+202F, U+205F, U+3000) and
    LineTerminator (LF, CR, U+2028, U+2029). *)
Definition is_whitespace (cp : N) : bool :=
  (((9 <=? cp) && (cp <=? 13)) || (cp =? 32) || (cp =? 160) || (cp =? 5760)
   || ((8192 <=? cp) && (cp <=? 8202)) || (cp =? 8232) || (cp =? 8233)
   || (cp =? 8239) || (cp =? 8287) || (cp =? 12288) || (cp =? 65279))%N.

(** UTF-8: the code point written by one, two or three bytes ([None] when
    the bytes are no such sequence).  No white space needs four bytes. *)
Definition is_continuation (b : N) : bool := ((128 <=? b) && (b <=? 191))%N.

Definition utf8_1 (b0 : N) : option N :=
  if (b0 <? 128)%N then Some b0 else None.

Definition utf8_2 (b0 b1 : N) : option N :=
  if ((194 <=? b0) && (b0 <=? 223))%N && is_continuation b1
  then Some ((b0 - 192) * 64 + (b1 - 128))%N else None.

Definition utf8_3 (b0 b1 b2 : N) : option N :=
  let cp := ((b0 - 224) * 4096 + (b1 - 128) * 64 + (b2 - 128))%N in
  if ((224 <=? b0) && (b0 <=? 239))%N && is_continuation b1 && is_continuation b2
     && (2048 <=? cp)%N
  then Some cp else None.

Definition encodes_whitespace (cp : option N) : bool :=
  match cp with Some c => is_whitespace c | None => false end.

(** Dropping from the front of [s] every character, of one, two or three
    bytes, that the given tests accept. *)
Fixpoint strip (w1 : N → bool) (w2 : N → N → bool) (w3 : N → N → N → bool)
    (s : string) : string :=
  match s with
  | EmptyString => EmptyString
  | String c0 s1 =>
      let b0 := Ascii.N_of_ascii c0 in
      if w1 b0 then strip w1 w2 w3 s1
      else
        match s1 with
        | EmptyString => s
        | String c1 s2 =>
            let b1 := Ascii.N_of_ascii c1 in
            if w2 b0 b1 then strip w1 w2 w3 s2
            else
              match s2 with
              | EmptyString => s
              | String c2 s3 =>
                  if w3 b0 b1 (Ascii.N_of_ascii c2) then strip w1 w2 w3 s3 else s
              end
        end
  end.

(** [String.prototype.trimStart] *)
Definition trimStart (s : string) : string :=
  strip (λ b0, encodes_whitespace (utf8_1 b0))
        (λ b0 b1, encodes_whitespace (utf8_2 b0 b1))
        (λ b0 b1 b2, encodes_whitespace (utf8_3 b0 b1 b2)) s.

(** [String.prototype.trimEnd]: the same from the back, where the bytes of a
    character are met last byte first. *)
Definition trimEnd (s : string) : string :=
  String.rev
    (strip (λ b0, encodes_whitespace (utf8_1 b0))
           (λ b1 b0, encodes_whitespace (utf8_2 b0 b1))
           (λ b2 b1 b0, encodes_whitespace (utf8_3 b0 b1 b2))
           (String.rev s)).

(** [String.prototype.trim] *)
Definition trim (s : string) : string := trimEnd (trimStart s).

End JS.
Export JS.

(* ===================================================================== *)
(** ** Effects *)
(* ===================================================================== *)

Module Effects.

(** A function handed in by the caller of a component (a React prop).  It is
    opaque: invoking it is recorded with its arguments, and it returns. *)
Definition Callback := string.

Inductive Event : Type :=
| console_log_ev (label : string) (v : jsval)
| console_error_ev (label : string) (v : jsval)
| toast_success_ev (message : jsval)
| toast_error_ev (message : jsval)
| api_get_ev (url : string)
| api_post_ev (url : string) (body : jsval)
| api_patch_ev (url : string) (body : jsval)
| createProject_ev (project : jsval)
| callback_ev (f : Callback) (args : list jsval)
| preventDefault_ev.

(** The requests sent to the backend. *)
Definition is_network_call (e : Event) : bool :=
  match e with
  | api_get_ev _ | api_post_ev _ _ | api_patch_ev _ _ | createProject_ev _ => true
  | _ => false
  end.

Definition is_toast_error (e : Event) : bool :=
  match e with toast_error_ev _ => true | _ => false end.

Definition is_callback (e : Event) : bool :=
  match e with callback_ev _ _ => true | _ => false end.

Inductive Outcome (A : Type) : Type :=
| Ok (a : A)
| Thrown (e : jsval).
Arguments Ok {A} a.
Arguments Thrown {A} e.

(** How the backend answers: a promise either resolves with the axios
    response object or rejects with an error. *)
Record Backend : Type := {
  get_answer : string → Outcome jsval;
  post_answer : string → jsval → Outcome jsval;
  patch_answer : string → jsval → Outcome jsval;
  createProject_answer : jsval → Outcome jsval
}.

Definition Eff (S A : Type) : Type := S → Outcome A * S * list Event.

Definition ret {S A} (a : A) : Eff S A := λ s, (Ok a, s, []).

Definition bind {S A B} (k : A → Eff S B) (m : Eff S A) : Eff S B :=
  λ s,
    match m s with
    | (Ok a, s1, t1) =>
        match k a s1 with
        | (r, s2, t2) => (r, s2, t1 ++ t2)
        end
    | (Thrown e, s1, t1) => (Thrown e, s1, t1)
    end.

#[export] Instance eff_ret {S} : MRet (Eff S) := λ A, ret.
#[export] Instance eff_bind {S} : MBind (Eff S) := λ A B, bind.

Definition throw {S A} (e : jsval) : Eff S A := λ s, (Thrown e, s, []).

Definition emit {S} (ev : Event) : Eff S unit := λ s, (Ok tt, s, [ev]).

Definition get_state {S} : Eff S S := λ s, (Ok s, s, []).

Definition modify {S} (f : S → S) : Eff S unit := λ s, (Ok tt, f s, []).

(** An awaited promise whose settlement is already known. *)
Definition settle {S A} (o : Outcome A) : Eff S A := λ s, (o, s, []).

(** [try { body } catch (error) { handler }] *)
Definition try_catch {S A} (body : Eff S A) (handler : jsval → Eff S A) : Eff S A :=
  λ s,
    match body s with
    | (Ok a, s1, t1) => (Ok a, s1, t1)
    | (Thrown e, s1, t1) =>
        match handler e s1 with
        | (r, s2, t2) => (r, s2, t1 ++ t2)
        end
    end.

(** [try { body } finally { cleanup }]: the outcome of [body] stands unless
    [cleanup] throws. *)
Definition try_finally {S A} (body : Eff S A) (cleanup : Eff S unit) : Eff S A :=
  λ s,
    match body s with
    | (r, s1, t1) =>
        match cleanup s1 with
        | (Ok _, s2, t2) => (r, s2, t1 ++ t2)
        | (Thrown e, s2, t2) => (Thrown e, s2, t1 ++ t2)
        end
    end.

(** [v.k], throwing on [null] and [undefined]. *)
Definition get_prop {S} (v : jsval) (k : string) : Eff S jsval :=
  if nullish v then throw TypeError else ret (prop v k).

Definition console_log {S} (label : string) (v : jsval) : Eff S unit :=
  emit (console_log_ev label v).
Definition console_error {S} (label : string) (v : jsval) : Eff S unit :=
  emit (console_error_ev label v).
Definition toast_success {S} (message : jsval) : Eff S unit :=
  emit (toast_success_ev message).
Definition toast_error {S} (message : jsval) : Eff S unit :=
  emit (toast_error_ev message).

(** [f(args)] for a caller-supplied function. *)
Definition call {S} (f : Callback) (args : list jsval) : Eff S unit :=
  emit (callback_ev f args).

(** [if (f) f(args)] *)
Definition call_if_defined {S} (f : option Callback) (args : list jsval) : Eff S unit :=
  match f with
  | Some g => call g args
  | None => ret tt
  end.

(** The axios instance [api], and the service function [createProject] of
    [@/services/api] (not part of the sources at hand): the request is
    recorded, the oracle settles the promise. *)
Definition api_get {S} (backend : Backend) (url : string) : Eff S jsval :=
  emit (api_get_ev url);; settle (get_answer backend url).
Definition api_post {S} (backend : Backend) (url : string) (body : jsval) : Eff S jsval :=
  emit (api_post_ev url body);; settle (post_answer backend url body).
Definition api_patch {S} (backend : Backend) (url : string) (body : jsval) : Eff S jsval :=
  emit (api_patch_ev url body);; settle (patch_answer backend url body).
Definition createProject {S} (backend : Backend) (project : jsval) : Eff S jsval :=
  emit (createProject_ev project);; settle (createProject_answer backend project).

(** Projections of a run. *)
Definition outcome {S A} (r : Outcome A * S * list Event) : Outcome A := r.1.1.
Definition final_state {S A} (r : Outcome A * S * list Event) : S := r.1.2.
Definition trace {S A} (r : Outcome A * S * list Event) : list Event := r.2.

End Effects.
Export Effects.

(* ===================================================================== *)
(** ** The project modal built on react-hook-form, zod and react-query *)
(* ===================================================================== *)

Module ProjectModal.

(** ["Not Started" | "In Progress" | "Complete"] *)
Inductive Status : Type := NotStarted | InProgress | Complete.

#[export] Instance Status_eq_dec : EqDecision Status.
Proof. solve_decision. Defined.

Definition status_string (s : Status) : string :=
  match s with
  | NotStarted => "Not Started"
  | InProgress => "In Progress"
  | Complete => "Complete"
  end.

(** A [Date] object is its time value in milliseconds, [None] for the
    Invalid Date. *)
Definition Date : Type := option Z.

(** [string | Date] *)
Inductive DateInput : Type :=
| DateString (s : string)
| DateObject (d : Date).

(** Truthiness at [string | Date]: every object is truthy. *)
Definition truthy_date_input (v : DateInput) : bool :=
  match v with
  | DateString s => truthy_str s
  | DateObject _ => true
  end.

(** [interface Project] *)
Module Project.
Record t : Type := {
  id : option string;
  _id : option string;
  name : string;
  description : option string;
  clientId : string;
  status : option Status;
  dueDate : option DateInput;
  startDate : option DateInput;
  assigneeId : option string;
  teamMemberIds : option (list string);
  repeating : option bool;
  isRecurring : option bool;
  templateId : option string
}.
End Project.

(** [ProjectFormValues = z.infer<typeof projectSchema>]: what validation
    hands to [onSubmit]. *)
Module ProjectFormValues.
Record t : Type := {
  name : string;
  description : option string;
  clientId : string;
  assigneeId : option string;
  teamMemberIds : list string;
  isRecurring : bool;
  startDate : Date;
  templateId : option string;
  status : Status
}.
End ProjectFormValues.

(** What the form holds before validation ([z.input<typeof projectSchema>]):
    the keys with a [.default(...)] may be [undefined], and so may the date. *)
Module ProjectFormInput.
Record t : Type := {
  name : string;
  description : option string;
  clientId : string;
  assigneeId : option string;
  teamMemberIds : option (list string);
  isRecurring : option bool;
  startDate : option Date;
  templateId : option string;
  status : option Status
}.
End ProjectFormInput.

(** The form is initialised and reset with values of the validated shape. *)
Definition as_input (v : ProjectFormValues.t) : ProjectFormInput.t :=
  {| ProjectFormInput.name := ProjectFormValues.name v;
     ProjectFormInput.description := ProjectFormValues.description v;
     ProjectFormInput.clientId := ProjectFormValues.clientId v;
     ProjectFormInput.assigneeId := ProjectFormValues.assigneeId v;
     ProjectFormInput.teamMemberIds := Some (ProjectFormValues.teamMemberIds v);
     ProjectFormInput.isRecurring := Some (ProjectFormValues.isRecurring v);
     ProjectFormInput.startDate := Some (ProjectFormValues.startDate v);
     ProjectFormInput.templateId := ProjectFormValues.templateId v;
     ProjectFormInput.status := Some (ProjectFormValues.status v) |}.

(** *** zod *)

Record ZodIssue : Type := { path : string; message : string }.

Definition ZodResult (A : Type) : Type := (list string + A)%type.

Definition ZodType (I O : Type) : Type := I → ZodResult O.

(** [z.string()] *)
Definition z_string : ZodType string string := λ s, inr s.

(** [.min(n, message)] on a string schema: at least [n] characters. *)
Definition z_min {I} (n : nat) (msg : string) (inner : ZodType I string) : ZodType I string :=
  λ i,
    match inner i with
    | inr s => if (String.length s <? n)%nat then inl [msg] else inr s
    | inl issues => inl issues
    end.

(** [.optional()] *)
Definition z_optional {I O} (inner : ZodType I O) : ZodType (option I) (option O) :=
  λ i,
    match i with
    | None => inr None
    | Some x => match inner x with inr y => inr (Some y) | inl issues => inl issues end
    end.

(** [.default(d)]: an [undefined] input is replaced by [d] before the inner
    schema runs. *)
Definition z_default {I O} (inner : ZodType I O) (d : I) : ZodType (option I) O :=
  λ i, inner (default d i).

(** [z.array(inner)] *)
Fixpoint z_array {I O} (inner : ZodType I O) (l : list I) : ZodResult (list O) :=
  match l with
  | [] => inr []
  | x :: l' =>
      match inner x, z_array inner l' with
      | inr y, inr ys => inr (y :: ys)
      | inl a, inl b => inl (a ++ b)
      | inl a, inr _ => inl a
      | inr _, inl b => inl b
      end
  end.

(** [z.boolean()] *)
Definition z_boolean : ZodType bool bool := λ b, inr b.

(** [z.date({ required_error })]: a missing value is reported with
    [required_error], the Invalid Date with zod's own message. *)
Definition z_date (required_error : string) : ZodType (option Date) Date :=
  λ i,
    match i with
    | None => inl [required_error]
    | Some None => inl ["Invalid date"]
    | Some (Some t) => inr (Some t)
    end.

(** [z.enum([...])] *)
Definition z_enum (options : list Status) : ZodType Status Status :=
  λ s, if bool_decide (s ∈ options) then inr s else inl ["Invalid enum value"].

(** The issues of one key of a [z.object], located at that key. *)
Definition issues_at {A} (key : string) (r : ZodResult A) : list ZodIssue :=
  match r with
  | inl msgs => (λ m, {| path := key; message := m |}) <$> msgs
  | inr _ => []
  end.

(** [const projectSchema = z.object({ ... })].  Every key is parsed and all
    issues are collected; the parse succeeds when there is none. *)
Definition projectSchema (input : ProjectFormInput.t) : list ZodIssue + ProjectFormValues.t :=
  let name := z_min 1 "Project name is required" z_string (ProjectFormInput.name input) in
  let description := z_optional z_string (ProjectFormInput.description input) in
  let clientId := z_min 1 "Client is required" z_string (ProjectFormInput.clientId input) in
  let assigneeId := z_optional z_string (ProjectFormInput.assigneeId input) in
  let teamMemberIds := z_default (z_array z_string) [] (ProjectFormInput.teamMemberIds input) in
  let isRecurring := z_default z_boolean false (ProjectFormInput.isRecurring input) in
  let startDate := z_date "Start date is required" (ProjectFormInput.startDate input) in
  let templateId := z_optional z_string (ProjectFormInput.templateId input) in
  let status :=
    z_default (z_enum [NotStarted; InProgress; Complete]) NotStarted
      (ProjectFormInput.status input) in
  match name, description, clientId, assigneeId, teamMemberIds, isRecurring,
        startDate, templateId, status with
  | inr n, inr d, inr c, inr a, inr tm, inr r, inr sd, inr tp, inr st =>
      inr {| ProjectFormValues.name := n;
             ProjectFormValues.description := d;
             ProjectFormValues.clientId := c;
             ProjectFormValues.assigneeId := a;
             ProjectFormValues.teamMemberIds := tm;
             ProjectFormValues.isRecurring := r;
             ProjectFormValues.startDate := sd;
             ProjectFormValues.templateId := tp;
             ProjectFormValues.status := st |}
  | _, _, _, _, _, _, _, _, _ =>
      inl (issues_at "name" name ++ issues_at "description" description
           ++ issues_at "clientId" clientId ++ issues_at "assigneeId" assigneeId
           ++ issues_at "teamMemberIds" teamMemberIds
           ++ issues_at "isRecurring" isRecurring
           ++ issues_at "startDate" startDate ++ issues_at "templateId" templateId
           ++ issues_at "status" status)
  end.

(** The validated values as the JavaScript object they are at run time; a
    key holding [undefined] is left out. *)
Definition set_optional (k : string) (v : option string)
    (o : gmap string jsval) : gmap string jsval :=
  match v with
  | Some s => <[k := JStr s]> o
  | None => o
  end.

Definition values_object (v : ProjectFormValues.t) : gmap string jsval :=
  set_optional "description" (ProjectFormValues.description v)
    (set_optional "assigneeId" (ProjectFormValues.assigneeId v)
      (set_optional "templateId" (ProjectFormValues.templateId v)
        (<["name" := JStr (ProjectFormValues.name v)]>
          (<["clientId" := JStr (ProjectFormValues.clientId v)]>
            (<["teamMemberIds" := JArr (JStr <$> ProjectFormValues.teamMemberIds v)]>
              (<["isRecurring" := JBool (ProjectFormValues.isRecurring v)]>
                (<["startDate" := JDate (ProjectFormValues.startDate v)]>
                  (<["status" := JStr (status_string (ProjectFormValues.status v))]>
                    ∅)))))))).

(** [interface ProjectModalProps]; [project] and the callbacks are optional. *)
Record ProjectModalProps : Type := {
  project : option Project.t;
  isEditing : bool;
  onClose : Callback;
  onCreated : option Callback;
  onUpdated : option Callback
}.

(** The state of the component: the two [useState] cells and the form. *)
Record ModalState : Type := {
  open : bool;
  openTemplates : bool;
  formValues : ProjectFormInput.t;
  formErrors : list ZodIssue
}.

Definition set_formErrors (errs : list ZodIssue) (st : ModalState) : ModalState :=
  {| open := open st; openTemplates := openTemplates st;
     formValues := formValues st; formErrors := errs |}.


Section Component.

Variable backend : Backend.
Variable props : ProjectModalProps.

(** [new Date(string)] is the host's date parser, kept abstract. *)
Variable Date_parse : string → Date.

(** [new Date(v)] for [v : string | Date]. *)
Definition new_Date (v : DateInput) : Date :=
  match v with
  | DateString s => Date_parse s
  | DateObject d => d
  end.

(** [v ? new Date(v) : otherwise] *)
Definition date_or_else (v : option DateInput) (otherwise : Date) : Date :=
  match v with
  | Some d => if truthy_date_input d then new_Date d else otherwise
  | None => otherwise
  end.

(** *** Read fetches: the three [queryFn]s *)

Definition clients_queryFn {S} : Eff S jsval :=
  try_catch
    (response ← api_get backend "/clients";
     data ← get_prop response "data";
     mret (js_or data (JArr [])))
    (λ error,
       console_error "Error fetching clients:" error;;
       mret (JArr [])).

Definition teamMembers_queryFn {S} : Eff S jsval :=
  try_catch
    (response ← api_get backend "/team-members";
     data ← get_prop response "data";
     mret (js_or data (JArr [])))
    (λ error,
       console_error "Error fetching team members:" error;;
       mret (JArr [])).

Definition templates_queryFn {S} : Eff S jsval :=
  try_catch
    (response ← api_get backend "/templates";
     data ← get_prop response "data";
     mret (js_or data (JArr [])))
    (λ error,
       console_error "Error fetching templates:" error;;
       mret (JArr [])).

(** [Array.isArray(xData) ? xData : []] *)
Definition ensure_array (data : jsval) : jsval :=
  if Array_isArray data then data else JArr [].

(** *** Mutations *)

(** [{ ...data, assigneeId: ..., teamMemberIds: ... }] *)
Definition formattedData (data : gmap string jsval) : gmap string jsval :=
  <["teamMemberIds" :=
      if Array_isArray (field data "teamMemberIds")
      then field data "teamMemberIds" else JArr []]>
    (<["assigneeId" :=
        if strict_eq_str (field data "assigneeId") "none"
        then JNull else field data "assigneeId"]>
      data).

Definition createMutation_mutationFn {S} (data : gmap string jsval) : Eff S jsval :=
  try_catch
    (let formattedData := formattedData data in
     console_log "Sending project data:" (JObj formattedData);;
     response ← api_post backend "/projects" (JObj formattedData);
     get_prop response "data")
    (λ error,
       console_error "Error creating project:" error;;
       throw error).

Definition createMutation_onSuccess {S} (data : jsval) : Eff S unit :=
  toast_success (JStr "Project created successfully");;
  match onCreated props with
  | Some onCreated =>
      _id ← get_prop data "_id";
      if truthy _id then call onCreated [_id]
      else
        id ← get_prop data "id";
        call onCreated [id]
  | None => mret tt
  end.

Definition createMutation_onError {S} (error : jsval) : Eff S unit :=
  let errorMessage :=
    js_or (opt_prop (opt_prop (opt_prop error "response") "data") "message")
          (JStr "Failed to create project") in
  toast_error errorMessage.

Definition updateMutation_mutationFn {S} (id : string) (data : gmap string jsval)
    : Eff S jsval :=
  try_catch
    (let formattedData := formattedData data in
     console_log "Updating project data:" (JObj formattedData);;
     response ← api_patch backend ("/projects/" +:+ id) (JObj formattedData);
     get_prop response "data")
    (λ error,
       console_error "Error updating project:" error;;
       throw error).

Definition updateMutation_onSuccess {S} (data : jsval) : Eff S unit :=
  toast_success (JStr "Project updated successfully");;
  call_if_defined (onUpdated props) [].

Definition updateMutation_onError {S} (error : jsval) : Eff S unit :=
  let errorMessage :=
    js_or (opt_prop (opt_prop (opt_prop error "response") "data") "message")
          (JStr "Failed to update project") in
  toast_error errorMessage.

(** [mutation.mutate(variables)] of react-query: the mutation function runs,
    then [onSuccess] with its result; a rejection (of either) goes to
    [onError]; [mutate] itself never throws. *)
Definition mutate {S V} (mutationFn : V → Eff S jsval)
    (onSuccess : jsval → Eff S unit) (onError : jsval → Eff S unit)
    (variables : V) : Eff S unit :=
  try_catch
    (try_catch (data ← mutationFn variables; onSuccess data) onError)
    (λ _, mret tt).

Definition createMutation_mutate {S} (data : gmap string jsval) : Eff S unit :=
  mutate createMutation_mutationFn createMutation_onSuccess createMutation_onError data.

Definition updateMutation_mutate {S} (id : string) (data : gmap string jsval)
    : Eff S unit :=
  mutate (λ v : string * gmap string jsval, updateMutation_mutationFn v.1 v.2)
    updateMutation_onSuccess updateMutation_onError (id, data).

(** *** Default values *)

(** [a || b || c] at [boolean | undefined]. *)
Definition truthy_obool (b : option bool) : bool := default false b.

Definition getDefaultValues (now : Z) : ProjectFormValues.t :=
  let defaultValues :=
    {| ProjectFormValues.name := "";
       ProjectFormValues.description := Some "";
       ProjectFormValues.clientId := "";
       ProjectFormValues.assigneeId := Some "none";
       ProjectFormValues.teamMemberIds := [];
       ProjectFormValues.isRecurring := false;
       ProjectFormValues.startDate := Some now;
       ProjectFormValues.templateId := Some "";
       ProjectFormValues.status := NotStarted |} in
  match project props with
  | Some project =>
      if isEditing props then
        {| ProjectFormValues.name :=
             str_or (Project.name project) (ProjectFormValues.name defaultValues);
           ProjectFormValues.description :=
             ostr_oor (Project.description project)
               (ProjectFormValues.description defaultValues);
           ProjectFormValues.clientId :=
             str_or (Project.clientId project) (ProjectFormValues.clientId defaultValues);
           ProjectFormValues.assigneeId :=
             Some (ostr_or (Project.assigneeId project) "none");
           ProjectFormValues.teamMemberIds :=
             match Project.teamMemberIds project with
             | Some ids => ids
             | None => []
             end;
           ProjectFormValues.isRecurring :=
             if truthy_obool (Project.repeating project) then true
             else if truthy_obool (Project.isRecurring project) then true
             else ProjectFormValues.isRecurring defaultValues;
           ProjectFormValues.startDate :=
             date_or_else (Project.startDate project)
               (date_or_else (Project.dueDate project)
                  (ProjectFormValues.startDate defaultValues));
           ProjectFormValues.templateId :=
             ostr_oor (Project.templateId project)
               (ProjectFormValues.templateId defaultValues);
           ProjectFormValues.status :=
             match Project.status project with
             | Some s => s
             | None => ProjectFormValues.status defaultValues
             end |}
      else defaultValues
  | None => defaultValues
  end.

(** *** Submission *)

Definition onSubmit (values : ProjectFormValues.t) : Eff ModalState unit :=
  console_log "Submitting form with values:" (JObj (values_object values));;
  match project props with
  | Some project =>
      if isEditing props then
        let projectId := ostr_oor (Project.id project) (Project._id project) in
        match projectId with
        | Some id =>
            if truthy_str id
            then updateMutation_mutate id (values_object values)
            else toast_error (JStr "Cannot update project: Missing project ID")
        | None => toast_error (JStr "Cannot update project: Missing project ID")
        end
      else createMutation_mutate (values_object values)
  | None => createMutation_mutate (values_object values)
  end.

(** [form.handleSubmit(onSubmit)] of react-hook-form with the zod resolver:
    the current values are validated; [onSubmit] runs with the parsed values
    only when validation reports no issue, otherwise the issues are stored
    for the inline field messages. *)
Definition form_handleSubmit : Eff ModalState unit :=
  emit preventDefault_ev;;
  st ← get_state;
  match projectSchema (formValues st) with
  | inr values => modify (set_formErrors []);; onSubmit values
  | inl issues => modify (set_formErrors issues)
  end.

End Component.

(** The three read fetches, by name. *)
Inductive ReadFetch : Type := Clients | TeamMembers | Templates.

Definition endpoint (q : ReadFetch) : string :=
  match q with
  | Clients => "/clients"
  | TeamMembers => "/team-members"
  | Templates => "/templates"
  end.

Definition error_label (q : ReadFetch) : string :=
  match q with
  | Clients => "Error fetching clients:"
  | TeamMembers => "Error fetching team members:"
  | Templates => "Error fetching templates:"
  end.

Definition queryFn (q : ReadFetch) (backend : Backend) {S} : Eff S jsval :=
  match q with
  | Clients => clients_queryFn backend
  | TeamMembers => teamMembers_queryFn backend
  | Templates => templates_queryFn backend
  end.

#[export] Instance ReadFetch_eq_dec : EqDecision ReadFetch.
Proof. solve_decision. Defined.

(** A query function runs to its [await api.get(...)], which sends the
    request; this is the rest of it, run when the request has settled:
    [response.data || []], and the [catch] block. *)
Definition queryFn_resume {S} (q : ReadFetch) (answer : Outcome jsval) : Eff S jsval :=
  try_catch
    (response ← settle answer;
     data ← get_prop response "data";
     mret (js_or data (JArr [])))
    (λ error,
       console_error (error_label q) error;;
       mret (JArr [])).

(** The [data] of the three [useQuery] results, [undefined] as long as the
    query has not settled. *)
Definition QueryData : Type := ReadFetch → jsval.

Definition set_data (q : ReadFetch) (v : jsval) (data : QueryData) : QueryData :=
  λ q', if bool_decide (q' = q) then v else data q'.

(** The answers are handled as they come in, [arrival] being their order. *)
Fixpoint settle_queries {S} (backend : Backend) (arrival : list ReadFetch)
    (data : QueryData) : Eff S QueryData :=
  match arrival with
  | [] => mret data
  | q :: rest =>
      v ← queryFn_resume q (get_answer backend (endpoint q));
      settle_queries backend rest (set_data q v data)
  end.

(** The three queries of the component.  None waits for another: the three
    requests go out, in the order of the hooks, before any answer is
    handled; the answers are handled in the order in which they arrive.  The
    component renders with [Array.isArray(xData) ? xData : []]; for data
    that is still [undefined] the default of the destructuring,
    [data: xData = []], gives the same empty array. *)
Definition load_reference_data_in (arrival : list ReadFetch) (backend : Backend) {S}
    : Eff S (jsval * jsval * jsval) :=
  emit (api_get_ev (endpoint Clients));;
  emit (api_get_ev (endpoint TeamMembers));;
  emit (api_get_ev (endpoint Templates));;
  data ← settle_queries backend arrival (λ _, JUndefined);
  mret (ensure_array (data Clients), ensure_array (data TeamMembers),
        ensure_array (data Templates)).

(** The answers arriving in the order of the requests. *)
Definition load_reference_data (backend : Backend) {S} : Eff S (jsval * jsval * jsval) :=
  load_reference_data_in [Clients; TeamMembers; Templates] backend.

(** What a mutation function has logged and sent by the time the backend
    answers. *)
Definition create_log (data : gmap string jsval) : list Event :=
  [ console_log_ev "Sending project data:" (JObj (formattedData data));
    api_post_ev "/projects" (JObj (formattedData data)) ].

Definition update_log (id : string) (data : gmap string jsval) : list Event :=
  [ console_log_ev "Updating project data:" (JObj (formattedData data));
    api_patch_ev ("/projects/" +:+ id) (JObj (formattedData data)) ].

(** *** Team-member check boxes *)

(** Modelled from the spec: the fetched team members are untyped in this
    modal; the spec gives them an identifier and a display name, and the
    check boxes read [_id], [id] and [name]. *)
Module TeamMember.
Record t : Type := {
  _id : option string;
  id : option string;
  name : string
}.
End TeamMember.

(** [const id = member._id || member.id || ''] *)
Definition member_id (member : TeamMember.t) : string :=
  ostr_or (TeamMember._id member) (ostr_or (TeamMember.id member) "").

(** [Array.isArray(field.value) ? field.value : []] *)
Definition fieldValue (value : option (list string)) : list string :=
  match value with Some l => l | None => [] end.

(** [fieldValue.includes(id)] *)
Definition includes (l : list string) (id : string) : bool :=
  existsb (String.eqb id) l.

Definition isSelected (id : string) (value : option (list string)) : bool :=
  if truthy_str id then includes (fieldValue value) id else false.

(** The [onChange] of the check box of the member with identifier [id]:
    the value of the [teamMemberIds] field after the event ([field.onChange]
    replaces it; when neither branch runs it stays as it is). *)
Definition checkbox_onChange (id : string) (checked : bool)
    (value : option (list string)) : option (list string) :=
  let currentValues := fieldValue value in
  if checked && truthy_str id then Some (currentValues ++ [id])
  else if truthy_str id
       then Some (List.filter (λ v, negb (String.eqb v id)) currentValues)
       else value.

(** Ticking, in the given order, the boxes of the members [ids]. *)
Definition tick_all (ids : list string) (value : option (list string))
    : option (list string) :=
  foldl (λ v id, checkbox_onChange id true v) value ids.

(** *** The request interceptor *)

(** The part of an axios request configuration that this file sets. *)
Record RequestConfig : Type := {
  baseURL : string;
  headers : gmap string string;
  timeout : Z;
  withCredentials : bool
}.

(** [axios.create({ ... })] *)
Definition api_defaults : RequestConfig :=
  {| baseURL := "http://localhost:5000/api";
     headers := {[ "Content-Type" := "application/json" ]};
     timeout := 30000;
     withCredentials := true |}.

(** The request interceptor; [token] is [localStorage.getItem('token')],
    [None] standing for [null]. *)
Definition request_interceptor (token : option string) (config : RequestConfig)
    : RequestConfig :=
  match token with
  | Some t =>
      if truthy_str t then
        {| baseURL := baseURL config;
           headers := <["Authorization" := "Bearer " +:+ t]> (headers config);
           timeout := timeout config;
           withCredentials := withCredentials config |}
      else config
  | None => config
  end.

(** *** The options of the selectors *)

(** [item._id || item.id || ''] for an element of a fetched list; the
    property read throws on [null] and [undefined]. *)
Definition item_value (item : jsval) : Outcome jsval :=
  if nullish item then Thrown TypeError
  else Ok (js_or (prop item "_id") (js_or (prop item "id") (JStr ""))).

(** [items.map(f)], stopping at the first element on which [f] throws. *)
Fixpoint map_outcome {A B} (f : A → Outcome B) (items : list A) : Outcome (list B) :=
  match items with
  | [] => Ok []
  | x :: rest =>
      match f x with
      | Ok y =>
          match map_outcome f rest with
          | Ok ys => Ok (y :: ys)
          | Thrown e => Thrown e
          end
      | Thrown e => Thrown e
      end
  end.

(** The elements of a value that [Array.isArray] has let through. *)
Definition array_items (v : jsval) : list jsval :=
  match v with JArr l => l | _ => [] end.

(** The [value]s of the items of the client select: one per client, or the
    single item ["no-clients"] when there is no client. *)
Definition client_options (clients : list jsval) : Outcome (list jsval) :=
  if (0 <? length clients)%nat then map_outcome item_value clients
  else Ok [JStr "no-clients"].

(** The [value]s of the items of the assignee select: ["none"], then one per
    team member. *)
Definition assignee_options (teamMembers : list jsval) : Outcome (list jsval) :=
  match (if (0 <? length teamMembers)%nat
         then map_outcome item_value teamMembers else Ok []) with
  | Ok values => Ok (JStr "none" :: values)
  | Thrown e => Thrown e
  end.

(** *** The template selector *)

(** Modelled from the spec: the fetched templates are untyped in this modal;
    the spec gives them an identifier and a display name, and the selector
    reads [id], [_id] and [name]. *)
Module Template.
Record t : Type := {
  id : option string;
  _id : option string;
  name : string
}.
End Template.

(** [template.id || template._id || ""], the value stored on selection. *)
Definition template_value (template : Template.t) : string :=
  ostr_or (Template.id template) (ostr_or (Template._id template) "").

(** [(template.id || template._id) === value] for a string [value]. *)
Definition template_matches (value : string) (template : Template.t) : bool :=
  match ostr_oor (Template.id template) (Template._id template) with
  | Some key => String.eqb key value
  | None => false
  end.

(** The text of the selector button:
    [field.value ? templates.find(...)?.name || "Don't use a template"
                 : "Don't use a template"]. *)
Definition template_label (templates : list Template.t) (value : option string)
    : string :=
  match value with
  | Some v =>
      if truthy_str v then
        match List.find (template_matches v) templates with
        | Some template => str_or (Template.name template) "Don't use a template"
        | None => "Don't use a template"
        end
      else "Don't use a template"
  | None => "Don't use a template"
  end.

(** *** The controls of the form *)

Definition set_values (f : ProjectFormInput.t → ProjectFormInput.t) (st : ModalState)
    : ModalState :=
  {| open := open st; openTemplates := openTemplates st;
     formValues := f (formValues st); formErrors := formErrors st |}.

Definition setOpenTemplates (b : bool) (st : ModalState) : ModalState :=
  {| open := open st; openTemplates := b;
     formValues := formValues st; formErrors := formErrors st |}.

(** What the user can do to the form.  [ClickMember] is a click on the check
    box of a team member; [PickDate] carries the day handed over by the
    calendar ([None] when the selected day is clicked again) and the time of
    the click. *)
Inductive FormEvent : Type :=
| TypeName (value : string)
| TypeDescription (value : string)
| ChooseClient (value : string)
| ChooseAssignee (value : string)
| ToggleTemplates (isOpen : bool)
| ChooseTemplate (template : Template.t)
| ClearTemplate
| ClickMember (member : TeamMember.t)
| SetRecurring (value : bool)
| PickDate (date : option Z) (now : Z).

Definition handle_event (ev : FormEvent) (st : ModalState) : ModalState :=
  match ev with
  | TypeName value =>
      set_values (λ v,
        {| ProjectFormInput.name := value;
           ProjectFormInput.description := ProjectFormInput.description v;
           ProjectFormInput.clientId := ProjectFormInput.clientId v;
           ProjectFormInput.assigneeId := ProjectFormInput.assigneeId v;
           ProjectFormInput.teamMemberIds := ProjectFormInput.teamMemberIds v;
           ProjectFormInput.isRecurring := ProjectFormInput.isRecurring v;
           ProjectFormInput.startDate := ProjectFormInput.startDate v;
           ProjectFormInput.templateId := ProjectFormInput.templateId v;
           ProjectFormInput.status := ProjectFormInput.status v |}) st
  | TypeDescription value =>
      set_values (λ v,
        {| ProjectFormInput.name := ProjectFormInput.name v;
           ProjectFormInput.description := Some value;
           ProjectFormInput.clientId := ProjectFormInput.clientId v;
           ProjectFormInput.assigneeId := ProjectFormInput.assigneeId v;
           ProjectFormInput.teamMemberIds := ProjectFormInput.teamMemberIds v;
           ProjectFormInput.isRecurring := ProjectFormInput.isRecurring v;
           ProjectFormInput.startDate := ProjectFormInput.startDate v;
           ProjectFormInput.templateId := ProjectFormInput.templateId v;
           ProjectFormInput.status := ProjectFormInput.status v |}) st
  | ChooseClient value =>
      set_values (λ v,
        {| ProjectFormInput.name := ProjectFormInput.name v;
           ProjectFormInput.description := ProjectFormInput.description v;
           ProjectFormInput.clientId := value;
           ProjectFormInput.assigneeId := ProjectFormInput.assigneeId v;
           ProjectFormInput.teamMemberIds := ProjectFormInput.teamMemberIds v;
           ProjectFormInput.isRecurring := ProjectFormInput.isRecurring v;
           ProjectFormInput.startDate := ProjectFormInput.startDate v;
           ProjectFormInput.templateId := ProjectFormInput.templateId v;
           ProjectFormInput.status := ProjectFormInput.status v |}) st
  | ChooseAssignee value =>
      set_values (λ v,
        {| ProjectFormInput.name := ProjectFormInput.name v;
           ProjectFormInput.description := ProjectFormInput.description v;
           ProjectFormInput.clientId := ProjectFormInput.clientId v;
           ProjectFormInput.assigneeId := Some value;
           ProjectFormInput.teamMemberIds := ProjectFormInput.teamMemberIds v;
           ProjectFormInput.isRecurring := ProjectFormInput.isRecurring v;
           ProjectFormInput.startDate := ProjectFormInput.startDate v;
           ProjectFormInput.templateId := ProjectFormInput.templateId v;
           ProjectFormInput.status := ProjectFormInput.status v |}) st
  | ToggleTemplates isOpen => setOpenTemplates isOpen st
  | ChooseTemplate template =>
      setOpenTemplates false
        (set_values (λ v,
           {| ProjectFormInput.name := ProjectFormInput.name v;
              ProjectFormInput.description := ProjectFormInput.description v;
              ProjectFormInput.clientId := ProjectFormInput.clientId v;
              ProjectFormInput.assigneeId := ProjectFormInput.assigneeId v;
              ProjectFormInput.teamMemberIds := ProjectFormInput.teamMemberIds v;
              ProjectFormInput.isRecurring := ProjectFormInput.isRecurring v;
              ProjectFormInput.startDate := ProjectFormInput.startDate v;
              ProjectFormInput.templateId := Some (template_value template);
              ProjectFormInput.status := ProjectFormInput.status v |}) st)
  | ClearTemplate =>
      setOpenTemplates false
        (set_values (λ v,
           {| ProjectFormInput.name := ProjectFormInput.name v;
              ProjectFormInput.description := ProjectFormInput.description v;
              ProjectFormInput.clientId := ProjectFormInput.clientId v;
              ProjectFormInput.assigneeId := ProjectFormInput.assigneeId v;
              ProjectFormInput.teamMemberIds := ProjectFormInput.teamMemberIds v;
              ProjectFormInput.isRecurring := ProjectFormInput.isRecurring v;
              ProjectFormInput.startDate := ProjectFormInput.startDate v;
              ProjectFormInput.templateId := Some "";
              ProjectFormInput.status := ProjectFormInput.status v |}) st)
  | ClickMember member =>
      set_values (λ v,
        let id := member_id member in
        let checked := negb (isSelected id (ProjectFormInput.teamMemberIds v)) in
        {| ProjectFormInput.name := ProjectFormInput.name v;
           ProjectFormInput.description := ProjectFormInput.description v;
           ProjectFormInput.clientId := ProjectFormInput.clientId v;
           ProjectFormInput.assigneeId := ProjectFormInput.assigneeId v;
           ProjectFormInput.teamMemberIds :=
             checkbox_onChange id checked (ProjectFormInput.teamMemberIds v);
           ProjectFormInput.isRecurring := ProjectFormInput.isRecurring v;
           ProjectFormInput.startDate := ProjectFormInput.startDate v;
           ProjectFormInput.templateId := ProjectFormInput.templateId v;
           ProjectFormInput.status := ProjectFormInput.status v |}) st
  | SetRecurring value =>
      set_values (λ v,
        {| ProjectFormInput.name := ProjectFormInput.name v;
           ProjectFormInput.description := ProjectFormInput.description v;
           ProjectFormInput.clientId := ProjectFormInput.clientId v;
           ProjectFormInput.assigneeId := ProjectFormInput.assigneeId v;
           ProjectFormInput.teamMemberIds := ProjectFormInput.teamMemberIds v;
           ProjectFormInput.isRecurring := Some value;
           ProjectFormInput.startDate := ProjectFormInput.startDate v;
           ProjectFormInput.templateId := ProjectFormInput.templateId v;
           ProjectFormInput.status := ProjectFormInput.status v |}) st
  | PickDate date now =>
      set_values (λ v,
        {| ProjectFormInput.name := ProjectFormInput.name v;
           ProjectFormInput.description := ProjectFormInput.description v;
           ProjectFormInput.clientId := ProjectFormInput.clientId v;
           ProjectFormInput.assigneeId := ProjectFormInput.assigneeId v;
           ProjectFormInput.teamMemberIds := ProjectFormInput.teamMemberIds v;
           ProjectFormInput.isRecurring := ProjectFormInput.isRecurring v;
           ProjectFormInput.startDate :=
             Some (Some (match date with Some d => d | None => now end));
           ProjectFormInput.templateId := ProjectFormInput.templateId v;
           ProjectFormInput.status := ProjectFormInput.status v |}) st
  end.

Definition handle_events (evs : list FormEvent) (st : ModalState) : ModalState :=
  foldl (λ s ev, handle_event ev s) st evs.

(** The component as mounted: both [useState] cells are [false] and the
    form holds the default values. *)
Definition mount (props : ProjectModalProps) (Date_parse : string → Date) (now : Z)
    : ModalState :=
  {| open := false; openTemplates := false;
     formValues := as_input (getDefaultValues props Date_parse now);
     formErrors := [] |}.

End ProjectModal.

(* ===================================================================== *)
(** ** The hand-validated project modal ([ProjectModal.tsx]) *)
(* ===================================================================== *)

Module LegacyProjectModal.

(** Modelled from the spec: the types [Client] and [TeamMember] of
    [@/types] are not part of the sources at hand; the spec gives them an
    identifier and a display name, and the modal reads [.id] and [.name]. *)
Record Named : Type := { id : string; name : string }.

(** Modelled from the spec: [CreateProjectFormData] of [@/types] is not part
    of the sources at hand; its keys are those of the initial [useState]
    value, together with the optional [frequency] that the modal reads. *)
Module CreateProjectFormData.
Record t : Type := {
  name : string;
  description : string;
  clientId : string;
  assigneeId : string;
  teamMemberIds : list string;
  repeating : bool;
  dueDate : string;
  frequency : option string
}.
End CreateProjectFormData.
Import CreateProjectFormData.

(** The [useState] cells of the component; [date] is the time value of the
    chosen day, if any. *)
Record ModalState : Type := {
  clients : list Named;
  teamMembers : list Named;
  loading : bool;
  submitting : bool;
  date : option Z;
  formData : CreateProjectFormData.t
}.

Definition setSubmitting (b : bool) (st : ModalState) : ModalState :=
  {| clients := clients st; teamMembers := teamMembers st; loading := loading st;
     submitting := b; date := date st; formData := formData st |}.

Definition setFormData (f : CreateProjectFormData.t → CreateProjectFormData.t)
    (st : ModalState) : ModalState :=
  {| clients := clients st; teamMembers := teamMembers st; loading := loading st;
     submitting := submitting st; date := date st; formData := f (formData st) |}.

(** [{ ...prev, [name]: value }] for the [name] attributes that occur in the
    form. *)
Definition handleInputChange (target_name target_value : string)
    (st : ModalState) : ModalState :=
  setFormData
    (λ prev,
       {| CreateProjectFormData.name :=
            if String.eqb target_name "name" then target_value
            else CreateProjectFormData.name prev;
          description :=
            if String.eqb target_name "description" then target_value
            else description prev;
          clientId :=
            if String.eqb target_name "clientId" then target_value else clientId prev;
          assigneeId :=
            if String.eqb target_name "assigneeId" then target_value
            else assigneeId prev;
          teamMemberIds := teamMemberIds prev;
          repeating := repeating prev;
          dueDate := dueDate prev;
          frequency :=
            if String.eqb target_name "frequency" then Some target_value
            else frequency prev |})
    st.

Definition handleRepeatingChange (isRepeating : bool) (st : ModalState) : ModalState :=
  setFormData
    (λ prev,
       {| CreateProjectFormData.name := CreateProjectFormData.name prev;
          description := description prev; clientId := clientId prev;
          assigneeId := assigneeId prev; teamMemberIds := teamMemberIds prev;
          repeating := isRepeating; dueDate := dueDate prev;
          frequency := frequency prev |})
    st.

(** [selectedOptions] is what [Array.from(e.target.selectedOptions, option =>
    option.value)] evaluates to. *)
Definition handleTeamMemberSelection (selectedOptions : list string)
    (st : ModalState) : ModalState :=
  setFormData
    (λ prev,
       {| CreateProjectFormData.name := CreateProjectFormData.name prev;
          description := description prev; clientId := clientId prev;
          assigneeId := assigneeId prev; teamMemberIds := selectedOptions;
          repeating := repeating prev; dueDate := dueDate prev;
          frequency := frequency prev |})
    st.

(** The form data as the JavaScript object it is at run time. *)
Definition formData_object (fd : CreateProjectFormData.t) : gmap string jsval :=
  let o : gmap string jsval :=
    <["name" := JStr (CreateProjectFormData.name fd)]>
      (<["description" := JStr (description fd)]>
        (<["clientId" := JStr (clientId fd)]>
          (<["assigneeId" := JStr (assigneeId fd)]>
            (<["teamMemberIds" := JArr (JStr <$> teamMemberIds fd)]>
              (<["repeating" := JBool (repeating fd)]>
                (<["dueDate" := JStr (dueDate fd)]> ∅)))))) in
  match frequency fd with
  | Some f => <["frequency" := JStr f]> o
  | None => o
  end.

(** [{ ...formData, frequency: formData.frequency, status: 'Not Started' }] *)
Definition newProject (formData : CreateProjectFormData.t) : gmap string jsval :=
  <["status" := JStr "Not Started"]>
    (<["frequency" :=
         match frequency formData with
         | Some f => JStr f
         | None => JUndefined
         end]>
       (formData_object formData)).

Section Component.

Variable backend : Backend.
Variable onClose : Callback.

Definition handleSubmit : Eff ModalState unit :=
  emit preventDefault_ev;;
  st ← get_state;
  let formData := formData st in
  if negb (truthy_str (trim (CreateProjectFormData.name formData))) then
    toast_error (JStr "Project name is required")
  else if negb (truthy_str (clientId formData)) then
    toast_error (JStr "Client selection is required")
  else
    try_finally
      (try_catch
         (modify (setSubmitting true);;
          let newProject := newProject formData in
          createProject backend (JObj newProject);;
          toast_success (JStr "Project created successfully");;
          call onClose [])
         (λ error,
            console_error "Error creating project:" error;;
            toast_error (JStr "Failed to create project")))
      (modify (setSubmitting false)).

(** *** The rendered form controls and the browser's submission step *)

Inductive Control : Type :=
| TextControl (name value : string) (required : bool)
| SelectControl (name : string) (options : list string) (value : string) (required : bool)
| SelectMultipleControl (name : string) (options : list string) (values : list string).

(** The [Input], [Textarea] and [select] elements of the form, with the
    [required] attribute as written in the JSX; the frequency select is only
    rendered for a repeating project. *)
Definition render_controls (st : ModalState) : list Control :=
  let fd := formData st in
  [ TextControl "name" (CreateProjectFormData.name fd) true;
    TextControl "description" (description fd) false;
    SelectControl "clientId" ("" :: (id <$> clients st)) (clientId fd) true;
    SelectControl "assigneeId" ("" :: (id <$> teamMembers st)) (assigneeId fd) false;
    SelectMultipleControl "teamMemberIds" (id <$> teamMembers st) (teamMemberIds fd) ]
  ++ (if repeating fd
      then [ SelectControl "frequency"
               [""; "Daily"; "Weekly"; "Monthly"; "Quarterly"; "Yearly"; "Custom"]
               (default "" (frequency fd)) (repeating fd) ]
      else []).

(** The value a single [select] submits: the option matching the [value]
    prop, and the first option when none matches (or [value] is undefined). *)
Definition select_value (options : list string) (value : string) : string :=
  if existsb (String.eqb value) options then value else hd "" options.

(** HTML constraint validation: a [required] control must have a non-empty
    value. *)
Definition control_valid (c : Control) : bool :=
  match c with
  | TextControl _ value required => negb required || truthy_str value
  | SelectControl _ options value required =>
      negb required || truthy_str (select_value options value)
  | SelectMultipleControl _ _ _ => true
  end.

(** A click on the submit button, as the browser handles it: the form is not
    there while the reference data loads, the button is disabled while a
    request is in flight, and the [submit] event reaches [handleSubmit] only
    when every control passes constraint validation. *)
Definition click_submit : Eff ModalState unit :=
  st ← get_state;
  if loading st then mret tt
  else if submitting st then mret tt
  else if forallb control_valid (render_controls st) then handleSubmit
  else mret tt.

End Component.

(** *** The multiple select of team members *)

(** [HTMLSelectElement.selectedOptions]: the selected options in document
    order. *)
Definition selectedOptions (options selected : list string) : list string :=
  List.filter (λ o, existsb (String.eqb o) selected) options.

(** Ctrl-click on the option of member [member]: the browser toggles that
    option and fires [change], which runs [handleTeamMemberSelection]. *)
Definition ctrl_click_option (member : string) (st : ModalState) : ModalState :=
  let options := id <$> teamMembers st in
  let before := teamMemberIds (formData st) in
  let after :=
    if existsb (String.eqb member) before
    then List.filter (λ v, negb (String.eqb v member)) before
    else before ++ [member] in
  handleTeamMemberSelection (selectedOptions options after) st.

(** The [name] attribute of a control. *)
Definition control_name (c : Control) : string :=
  match c with
  | TextControl n _ _ | SelectControl n _ _ _ | SelectMultipleControl n _ _ => n
  end.

(** *** Loading the reference data, and the day picker *)

Definition setClients (l : list Named) (st : ModalState) : ModalState :=
  {| clients := l; teamMembers := teamMembers st; loading := loading st;
     submitting := submitting st; date := date st; formData := formData st |}.

Definition setTeamMembers (l : list Named) (st : ModalState) : ModalState :=
  {| clients := clients st; teamMembers := l; loading := loading st;
     submitting := submitting st; date := date st; formData := formData st |}.

Definition setLoading (b : bool) (st : ModalState) : ModalState :=
  {| clients := clients st; teamMembers := teamMembers st; loading := b;
     submitting := submitting st; date := date st; formData := formData st |}.

Definition setDate (d : option Z) (st : ModalState) : ModalState :=
  {| clients := clients st; teamMembers := teamMembers st; loading := loading st;
     submitting := submitting st; date := d; formData := formData st |}.

(** [Promise.all([a, b])]: the pair of the results when both promises
    resolve; otherwise it rejects with the reason of the promise that
    rejects first, which [b_first] tells when both do. *)
Definition Promise_all {A B} (a : Outcome A) (b : Outcome B) (b_first : bool)
    : Outcome (A * B) :=
  match a, b with
  | Ok x, Ok y => Ok (x, y)
  | Thrown e, Ok _ => Thrown e
  | Ok _, Thrown e => Thrown e
  | Thrown e1, Thrown e2 => Thrown (if b_first then e2 else e1)
  end.

Section Loading.

(** How the service functions [fetchClients] and [fetchTeamMembers] of
    [@/services/api] (not part of the sources at hand) settle. *)
Variable fetchClients : Outcome (list Named).
Variable fetchTeamMembers : Outcome (list Named).
Variable teamMembers_first : bool.

(** [format(date, pattern)] of [date-fns]. *)
Variable format : Z → string → string.

(** [loadData], the body of the mount effect. *)
Definition loadData : Eff ModalState unit :=
  try_finally
    (try_catch
       (modify (setLoading true);;
        data ← settle (Promise_all fetchClients fetchTeamMembers teamMembers_first);
        modify (setClients data.1);;
        modify (setTeamMembers data.2))
       (λ error, console_error "Failed to load data:" error))
    (modify (setLoading false)).

Definition handleDateChange (newDate : option Z) (st : ModalState) : ModalState :=
  match newDate with
  | Some d =>
      setFormData
        (λ prev,
           {| CreateProjectFormData.name := CreateProjectFormData.name prev;
              description := description prev; clientId := clientId prev;
              assigneeId := assigneeId prev; teamMemberIds := teamMemberIds prev;
              repeating := repeating prev; dueDate := format d "yyyy-MM-dd";
              frequency := frequency prev |})
        (setDate (Some d) st)
  | None => st
  end.

(** The component as mounted at time [now]. *)
Definition mount (now : Z) : ModalState :=
  {| clients := []; teamMembers := []; loading := true; submitting := false;
     date := Some now;
     formData :=
       {| CreateProjectFormData.name := ""; description := ""; clientId := "";
          assigneeId := ""; teamMemberIds := []; repeating := false;
          dueDate := format now "yyyy-MM-dd"; frequency := None |} |}.

(** What the user can do to the form: type into or choose from a control
    with a [name] attribute, press one of the two recurrence buttons,
    ctrl-click a team member, pick a day. *)
Inductive FormEvent : Type :=
| InputChange (target_name target_value : string)
| RepeatingChange (isRepeating : bool)
| CtrlClickMember (member : string)
| DateChange (newDate : option Z).

Definition handle_event (ev : FormEvent) (st : ModalState) : ModalState :=
  match ev with
  | InputChange target_name target_value => handleInputChange target_name target_value st
  | RepeatingChange isRepeating => handleRepeatingChange isRepeating st
  | CtrlClickMember member => ctrl_click_option member st
  | DateChange newDate => handleDateChange newDate st
  end.

Definition handle_events (evs : list FormEvent) (st : ModalState) : ModalState :=
  foldl (λ s ev, handle_event ev s) st evs.

End Loading.

(** The day shown by the picker after the events [evs], [now] being the day
    shown at first: the last day picked; clearing the day is ignored. *)
Definition last_picked (now : Z) (evs : list FormEvent) : Z :=
  foldl (λ d ev, match ev with DateChange (Some x) => x | _ => d end) now evs.

End LegacyProjectModal.

(* ===================================================================== *)
(** ** The pagination link ([pagination.tsx]) *)
(* ===================================================================== *)

Module Pagination.

(** The value of a JSX attribute handed in by the caller. *)
Inductive AttrValue : Type :=
| AUndefined
| AStr (s : string)
| ABool (b : bool)
| AHandler (h : Callback).

(** [PaginationLinkProps], destructured as in the component: the four named
    props and the rest, an object of anchor attributes (the destructuring
    leaves none of the four names in it). *)
Record PaginationLinkProps : Type := {
  className : option string;
  isActive : option bool;
  disabled : option bool;
  size : option string;
  props : gmap string AttrValue
}.

(** An attribute of the rendered anchor: a value passed through, or the
    arrow function written at [onClick], a closure over [disabled] and
    [props.onClick]. *)
Inductive ElemAttr : Type :=
| Passed (v : AttrValue)
| LinkOnClick (disabled : option bool) (props_onClick : AttrValue).

Definition truthy_obool (b : option bool) : bool := default false b.

Section Component.

(** [buttonVariants({ variant, size })] of [@/components/ui/button] and
    [cn(...)] of [@/lib/utils], which joins class values ([None] standing
    for a falsy one); neither is part of the sources at hand. *)
Variable buttonVariants : string → string → string.
Variable cn : list (option string) → string.

(** [<a ref aria-current aria-disabled className onClick {...props} />]:
    [props] is spread last, so its keys replace the ones written before. *)
Definition PaginationLink (p : PaginationLinkProps) : gmap string ElemAttr :=
  let size := default "icon" (size p) in
  (Passed <$> props p)
  ∪ <["aria-current" :=
        Passed (if truthy_obool (isActive p) then AStr "page" else AUndefined)]>
     (<["aria-disabled" :=
         Passed (match disabled p with Some b => ABool b | None => AUndefined end)]>
       (<["className" :=
           Passed (AStr (cn
             [ Some (buttonVariants
                       (if truthy_obool (isActive p) then "outline" else "ghost") size);
               if truthy_obool (disabled p)
               then Some "pointer-events-none opacity-50" else None;
               className p ]))]>
         (<["onClick" :=
             LinkOnClick (disabled p) (default AUndefined (props p !! "onClick"))]>
           ∅))).

End Component.

(** What a click event delivered to the anchor sets off. *)
Inductive ClickEffect : Type :=
| PreventDefault
| Invoke (h : Callback).

(** [f?.(e)] at an event-handler prop. *)
Definition call_handler (f : AttrValue) : list ClickEffect :=
  match f with
  | AHandler h => [Invoke h]
  | _ => []
  end.

Definition run_onClick (a : ElemAttr) : list ClickEffect :=
  match a with
  | LinkOnClick disabled props_onClick =>
      (if truthy_obool disabled then [PreventDefault] else [])
      ++ call_handler props_onClick
  | Passed f => call_handler f
  end.

(** A click event delivered to the rendered anchor runs its [onClick]
    attribute.  (Styling may keep pointer clicks from a disabled link, whose
    class list holds [pointer-events-none]; activation from the keyboard and
    [element.click()] deliver the event all the same.) *)
Definition click (a : gmap string ElemAttr) : list ClickEffect :=
  match a !! "onClick" with
  | Some h => run_onClick h
  | None => []
  end.


(** *** The previous and next links *)

Section Parts.

Variable buttonVariants : string → string → string.
Variable cn : list (option string) → string.

(** [<PaginationLink aria-label="Go to previous page" size="default"
    className={cn("gap-1 pl-2.5", className)} {...props}>]: the props of the
    caller, [className] apart, are spread last; the children written in the
    JSX (the chevron and the text) replace any the caller passes. *)
Definition PaginationPrevious (p : PaginationLinkProps) : gmap string ElemAttr :=
  PaginationLink buttonVariants cn
    {| className := Some (cn [Some "gap-1 pl-2.5"; className p]);
       isActive := isActive p;
       disabled := disabled p;
       size := Some (default "default" (size p));
       props :=
         <["children" := AStr "Previous"]>
           (props p ∪ {[ "aria-label" := AStr "Go to previous page" ]}) |}.

Definition PaginationNext (p : PaginationLinkProps) : gmap string ElemAttr :=
  PaginationLink buttonVariants cn
    {| className := Some (cn [Some "gap-1 pr-2.5"; className p]);
       isActive := isActive p;
       disabled := disabled p;
       size := Some (default "default" (size p));
       props :=
         <["children" := AStr "Next"]>
           (props p ∪ {[ "aria-label" := AStr "Go to next page" ]}) |}.

End Parts.

End Pagination.

(* ===================================================================== *)
(** ** Submitting the project form *)
(* ===================================================================== *)

(** The project form exists twice.  A submission is the [submit] event of the
    react-hook-form modal, the [submit] event of the hand-validated modal, or
    a click on the submit button of the latter. *)
Inductive Submission : Type :=
| HookFormSubmit (props : ProjectModal.ProjectModalProps) (st : ProjectModal.ModalState)
| LegacySubmit (onClose : Callback) (st : LegacyProjectModal.ModalState)
| LegacyButtonClick (onClose : Callback) (st : LegacyProjectModal.ModalState).

Definition submitted_name (sub : Submission) : string :=
  match sub with
  | HookFormSubmit _ st =>
      ProjectModal.ProjectFormInput.name (ProjectModal.formValues st)
  | LegacySubmit _ st | LegacyButtonClick _ st =>
      LegacyProjectModal.CreateProjectFormData.name (LegacyProjectModal.formData st)
  end.

Definition submitted_clientId (sub : Submission) : string :=
  match sub with
  | HookFormSubmit _ st =>
      ProjectModal.ProjectFormInput.clientId (ProjectModal.formValues st)
  | LegacySubmit _ st | LegacyButtonClick _ st =>
      LegacyProjectModal.CreateProjectFormData.clientId (LegacyProjectModal.formData st)
  end.

(** The outcome and the trace of the submit handler. *)
Definition submit (backend : Backend) (sub : Submission) : Outcome unit * list Event :=
  match sub with
  | HookFormSubmit props st =>
      let r := ProjectModal.form_handleSubmit backend props st in (outcome r, trace r)
  | LegacySubmit onClose st =>
      let r := LegacyProjectModal.handleSubmit backend onClose st in (outcome r, trace r)
  | LegacyButtonClick onClose st =>
      let r := LegacyProjectModal.click_submit backend onClose st in (outcome r, trace r)
  end.

(* ===================================================================== *)
(** ** Concrete instances *)
(* ===================================================================== *)

(** Backends, props and form contents at which the properties below are
    evaluated. *)
Module Samples.
Import ProjectModal.

Definition conflict_error : jsval :=
  JObj {[ "response" :=
            JObj {[ "data" := JObj {[ "message" := JStr "Project name already exists" ]} ]} ]}.

Definition network_error : jsval :=
  JObj {[ "message" := JStr "Network Error" ]}.

Definition created_response : jsval :=
  JObj {[ "data" := JObj {[ "_id" := JStr "p1" ]} ]}.

Definition list_response (ids : list string) : jsval :=
  JObj {[ "data" := JArr ((λ i, JObj {[ "_id" := JStr i ]}) <$> ids) ]}.

Definition healthy_backend : Backend :=
  {| get_answer := λ _, Ok (list_response ["A"; "B"; "C"]);
     post_answer := λ _ _, Ok created_response;
     patch_answer := λ _ _, Ok created_response;
     createProject_answer := λ _, Ok created_response |}.

Definition rejecting_backend (error : jsval) : Backend :=
  {| get_answer := λ _, Thrown error;
     post_answer := λ _ _, Thrown error;
     patch_answer := λ _ _, Thrown error;
     createProject_answer := λ _, Thrown error |}.

(** Only the team-member endpoint is down. *)
Definition team_members_down : Backend :=
  {| get_answer := λ url,
       if String.eqb url "/team-members" then Thrown network_error
       else Ok (list_response ["A"; "B"; "C"]);
     post_answer := λ _ _, Ok created_response;
     patch_answer := λ _ _, Ok created_response;
     createProject_answer := λ _, Ok created_response |}.

Definition create_props : ProjectModalProps :=
  {| project := None; isEditing := false; onClose := "onClose";
     onCreated := Some "onCreated"; onUpdated := Some "onUpdated" |}.

Definition edit_props (p : Project.t) : ProjectModalProps :=
  {| project := Some p; isEditing := true; onClose := "onClose";
     onCreated := Some "onCreated"; onUpdated := Some "onUpdated" |}.

(** A record as the backend may return it: only the mandatory keys. *)
Definition bare_project : Project.t :=
  {| Project.id := None; Project._id := None; Project.name := "Website";
     Project.description := None; Project.clientId := "c1";
     Project.status := None; Project.dueDate := None; Project.startDate := None;
     Project.assigneeId := None; Project.teamMemberIds := None;
     Project.repeating := None; Project.isRecurring := None;
     Project.templateId := None |}.

(** The same record with an empty assignee, as the hand-validated modal
    creates it when no assignee is chosen. *)
Definition unassigned_project : Project.t :=
  {| Project.id := Some "p7"; Project._id := None; Project.name := "Website";
     Project.description := None; Project.clientId := "c1";
     Project.status := Some InProgress; Project.dueDate := None;
     Project.startDate := None;
     Project.assigneeId := Some ""; Project.teamMemberIds := Some ["A"];
     Project.repeating := None; Project.isRecurring := None;
     Project.templateId := None |}.

Definition no_date : string → Date := λ _, None.

Definition valid_values : ProjectFormValues.t :=
  {| ProjectFormValues.name := "Website";
     ProjectFormValues.description := Some "";
     ProjectFormValues.clientId := "c1";
     ProjectFormValues.assigneeId := Some "none";
     ProjectFormValues.teamMemberIds := ["A"; "C"];
     ProjectFormValues.isRecurring := false;
     ProjectFormValues.startDate := Some 0%Z;
     ProjectFormValues.templateId := Some "";
     ProjectFormValues.status := NotStarted |}.

(** The form of a fresh modal: nothing typed, nothing chosen. *)
Definition blank_modal : ModalState :=
  {| open := false; openTemplates := false;
     formValues := as_input (getDefaultValues create_props no_date 0);
     formErrors := [] |}.

Definition legacy_formData (name clientId : string) (repeating : bool)
    : LegacyProjectModal.CreateProjectFormData.t :=
  {| LegacyProjectModal.CreateProjectFormData.name := name;
     LegacyProjectModal.CreateProjectFormData.description := "";
     LegacyProjectModal.CreateProjectFormData.clientId := clientId;
     LegacyProjectModal.CreateProjectFormData.assigneeId := "";
     LegacyProjectModal.CreateProjectFormData.teamMemberIds := [];
     LegacyProjectModal.CreateProjectFormData.repeating := repeating;
     LegacyProjectModal.CreateProjectFormData.dueDate := "2025-01-01";
     LegacyProjectModal.CreateProjectFormData.frequency := None |}.

Definition legacy_modal (name clientId : string) (repeating : bool)
    : LegacyProjectModal.ModalState :=
  {| LegacyProjectModal.clients := [ {| LegacyProjectModal.id := "c1";
                                        LegacyProjectModal.name := "Acme" |} ];
     LegacyProjectModal.teamMembers :=
       [ {| LegacyProjectModal.id := "A"; LegacyProjectModal.name := "Ann" |};
         {| LegacyProjectModal.id := "B"; LegacyProjectModal.name := "Bob" |};
         {| LegacyProjectModal.id := "C"; LegacyProjectModal.name := "Cy" |} ];
     LegacyProjectModal.loading := false;
     LegacyProjectModal.submitting := false;
     LegacyProjectModal.date := Some 0%Z;
     LegacyProjectModal.formData := legacy_formData name clientId repeating |}.

(** U+00A0 NO-BREAK SPACE and U+2028 LINE SEPARATOR, in UTF-8. *)
Definition no_break_space : string :=
  String (Ascii.ascii_of_N 194) (String (Ascii.ascii_of_N 160) "").

Definition line_separator : string :=
  String (Ascii.ascii_of_N 226)
    (String (Ascii.ascii_of_N 128) (String (Ascii.ascii_of_N 168) "")).






(** A form that has been filled in. *)
Definition filled_modal : ModalState :=
  {| open := false; openTemplates := false;
     formValues := as_input valid_values; formErrors := [] |}.

(** What a user does to a fresh form before submitting it. *)
Definition filling_in : list FormEvent :=
  [ TypeName "Website"; ChooseClient "c1";
    ClickMember {| TeamMember._id := Some "A"; TeamMember.id := None;
                   TeamMember.name := "Ann" |};
    SetRecurring true; PickDate None 7 ].

(** The values that validation makes of the fresh form after [filling_in]. *)
Definition filled_in_values : ProjectFormValues.t :=
  {| ProjectFormValues.name := "Website";
     ProjectFormValues.description := Some "";
     ProjectFormValues.clientId := "c1";
     ProjectFormValues.assigneeId := Some "none";
     ProjectFormValues.teamMemberIds := ["A"];
     ProjectFormValues.isRecurring := true;
     ProjectFormValues.startDate := Some 7%Z;
     ProjectFormValues.templateId := Some "";
     ProjectFormValues.status := NotStarted |}.

Definition onboarding_template : Template.t :=
  {| Template.id := Some "t1"; Template._id := None; Template.name := "Onboarding" |}.

Definition audit_template : Template.t :=
  {| Template.id := None; Template._id := Some "t2"; Template.name := "Audit" |}.

(** A team member as a backend may return it: the name only. *)
Definition nameless_member : TeamMember.t :=
  {| TeamMember._id := None; TeamMember.id := Some ""; TeamMember.name := "Ghost" |}.

(** Only the client endpoint is down. *)
Definition clients_down : Backend :=
  {| get_answer := λ url,
       if String.eqb url "/clients" then Thrown network_error
       else Ok (list_response ["A"; "B"; "C"]);
     post_answer := λ _ _, Ok created_response;
     patch_answer := λ _ _, Ok created_response;
     createProject_answer := λ _, Ok created_response |}.

Definition sample_format (d : Z) (pattern : string) : string :=
  if (d =? 0)%Z then "1970-01-01" else "1970-01-02".

Definition acme : LegacyProjectModal.Named :=
  {| LegacyProjectModal.id := "c1"; LegacyProjectModal.name := "Acme" |}.

End Samples.

(* ===================================================================== *)
(** ** Properties *)
(* ===================================================================== *)

Import ProjectModal Samples.

(** *** Running the monad *)

Lemma run_get_state {S A} (k : S → Eff S A) (s : S) :
  (get_state ≫= k) s = k s s.
Proof.
  unfold mbind, eff_bind, bind, get_state.
  destruct (k s s) as [[r s2] t2]. reflexivity.
Qed.

Lemma run_emit {S A} (ev : Event) (k : unit → Eff S A) (s : S) :
  (emit ev ≫= k) s = (outcome (k tt s), final_state (k tt s), ev :: trace (k tt s)).
Proof.
  unfold mbind, eff_bind, bind, emit.
  destruct (k tt s) as [[r s2] t2]. reflexivity.
Qed.

Lemma run_modify {S A} (f : S → S) (k : unit → Eff S A) (s : S) :
  (modify f ≫= k) s = k tt (f s).
Proof.
  unfold mbind, eff_bind, bind, modify.
  destruct (k tt (f s)) as [[r s2] t2]. reflexivity.
Qed.

Lemma run_eta {S A} (r : Outcome A * S * list Event) :
  (outcome r, final_state r, trace r) = r.
Proof. by destruct r as [[? ?] ?]. Qed.

(** *** Validation before submission *)

Lemma projectSchema_rejects_empty_name (input : ProjectFormInput.t) :
  ProjectFormInput.name input = "" →
  ∃ issues, projectSchema input = inl issues.
Proof.
  intros Hname. unfold projectSchema. rewrite Hname. cbn. eauto.
Qed.

Lemma projectSchema_rejects_empty_clientId (input : ProjectFormInput.t) :
  ProjectFormInput.clientId input = "" →
  ∃ issues, projectSchema input = inl issues.
Proof.
  intros Hclient. unfold projectSchema. rewrite Hclient.
  destruct (z_min 1 "Project name is required" z_string (ProjectFormInput.name input));
    [cbn; eauto|].
  destruct (z_optional z_string (ProjectFormInput.description input)); cbn; eauto.
Qed.

Lemma form_handleSubmit_invalid backend props st issues :
  projectSchema (formValues st) = inl issues →
  form_handleSubmit backend props st
  = (Ok tt, set_formErrors issues st, [preventDefault_ev]).
Proof.
  intros Hparse. unfold form_handleSubmit.
  unfold mbind, eff_bind, bind, emit, get_state. cbn. rewrite Hparse. reflexivity.
Qed.

Lemma legacy_handleSubmit_blank_name backend onClose st :
  trim (LegacyProjectModal.CreateProjectFormData.name (LegacyProjectModal.formData st)) = "" →
  LegacyProjectModal.handleSubmit backend onClose st
  = (Ok tt, st, [preventDefault_ev; toast_error_ev (JStr "Project name is required")]).
Proof.
  intros Hname. unfold LegacyProjectModal.handleSubmit.
  unfold mbind, eff_bind, bind, emit, get_state. cbn. rewrite Hname. reflexivity.
Qed.

Lemma legacy_handleSubmit_no_client backend onClose st :
  trim (LegacyProjectModal.CreateProjectFormData.name (LegacyProjectModal.formData st)) ≠ "" →
  LegacyProjectModal.CreateProjectFormData.clientId (LegacyProjectModal.formData st) = "" →
  LegacyProjectModal.handleSubmit backend onClose st
  = (Ok tt, st, [preventDefault_ev; toast_error_ev (JStr "Client selection is required")]).
Proof.
  intros Hname Hclient. unfold LegacyProjectModal.handleSubmit.
  unfold mbind, eff_bind, bind, emit, get_state. cbn.
  apply String.eqb_neq in Hname. unfold truthy_str. rewrite Hname, Hclient.
  reflexivity.
Qed.

Lemma legacy_handleSubmit_rejects backend onClose st :
  LegacyProjectModal.CreateProjectFormData.name (LegacyProjectModal.formData st) = ""
  ∨ LegacyProjectModal.CreateProjectFormData.clientId (LegacyProjectModal.formData st) = "" →
  outcome (LegacyProjectModal.handleSubmit backend onClose st) = Ok tt
  ∧ List.filter is_network_call
      (trace (LegacyProjectModal.handleSubmit backend onClose st)) = [].
Proof.
  intros H.
  destruct (decide (trim (LegacyProjectModal.CreateProjectFormData.name
                            (LegacyProjectModal.formData st)) = "")) as [Hb|Hb].
  - rewrite legacy_handleSubmit_blank_name by done. done.
  - destruct H as [H|H].
    + rewrite H in Hb. done.
    + rewrite legacy_handleSubmit_no_client by done. done.
Qed.

(** C1.  A submission with an empty name or an empty client reference issues
    no request to the backend, in either modal: the submit handler returns,
    the zod schema having stopped the values before [onSubmit] in the
    react-hook-form modal, and [handleSubmit] having returned after its own
    checks in the hand-validated one. *)
Theorem empty_name_or_client_issues_no_network_call
    (backend : Backend) (sub : Submission) :
  submitted_name sub = "" ∨ submitted_clientId sub = "" →
  (submit backend sub).1 = Ok tt
  ∧ List.filter is_network_call (submit backend sub).2 = [].
Proof.
  intros Hempty. destruct sub as [props st|onClose lst|onClose lst]; cbn in Hempty |- *.
  - assert (∃ issues, projectSchema (formValues st) = inl issues) as [issues Hi].
    { destruct Hempty as [H|H];
        eauto using projectSchema_rejects_empty_name, projectSchema_rejects_empty_clientId. }
    rewrite (form_handleSubmit_invalid _ _ _ _ Hi). done.
  - by apply legacy_handleSubmit_rejects.
  - pose proof (legacy_handleSubmit_rejects backend onClose lst Hempty) as [Ho Ht].
    unfold LegacyProjectModal.click_submit. rewrite run_get_state.
    destruct (LegacyProjectModal.loading lst); [done|].
    destruct (LegacyProjectModal.submitting lst); [done|].
    destruct (forallb _ _); done.
Qed.

Lemma empty_name_or_client_witness :
  submitted_name (HookFormSubmit create_props blank_modal) = ""
  ∧ List.filter is_network_call
      (trace (form_handleSubmit healthy_backend create_props blank_modal)) = []
  ∧ submitted_clientId (LegacySubmit "onClose" (legacy_modal "Website" "" false)) = ""
  ∧ List.filter is_network_call
      (trace (LegacyProjectModal.handleSubmit healthy_backend "onClose"
                (legacy_modal "Website" "" false))) = [].
Proof.
  split; [reflexivity|]. split.
  - exact (proj2 (empty_name_or_client_issues_no_network_call healthy_backend
                    (HookFormSubmit create_props blank_modal) (or_introl eq_refl))).
  - split; [reflexivity|].
    exact (proj2 (empty_name_or_client_issues_no_network_call healthy_backend
                    (LegacySubmit "onClose" (legacy_modal "Website" "" false))
                    (or_intror eq_refl))).
Defined.

(** *** Selecting team members *)

Ltac case_eqb :=
  repeat match goal with
         | |- context [String.eqb ?x ?y] =>
             destruct (String.eqb_spec x y); try congruence; cbn
         end.

Lemma checkbox_tick (id : string) (value : option (list string)) :
  id ≠ "" → checkbox_onChange id true value = Some (fieldValue value ++ [id]).
Proof.
  intros Hid. unfold checkbox_onChange, truthy_str.
  apply String.eqb_neq in Hid. by rewrite Hid.
Qed.

(** Ticking boxes appends: from the empty selection the field lists the
    members in the order in which they were ticked. *)
Lemma tick_all_from (ids l : list string) :
  Forall (λ id, id ≠ "") ids →
  tick_all ids (Some l) = Some (l ++ ids).
Proof.
  intros Hids. revert l.
  induction Hids as [|id ids Hid _ IH]; intros l; cbn.
  - by rewrite app_nil_r.
  - rewrite checkbox_tick by done. cbn.
    unfold tick_all in IH. rewrite IH. by rewrite <- app_assoc.
Qed.

(** C2 (as amended).  With team members [a], [b], [c] and nothing selected,
    selecting [a] and [c] yields a list holding exactly these two.  The
    check boxes list them in the order of selection; the multiple select
    lists them in the order of its options, whatever the order of selection. *)
Theorem selecting_two_team_members
    (a b c : string) (lst : LegacyProjectModal.ModalState) :
  a ≠ "" → c ≠ "" → a ≠ b → a ≠ c → b ≠ c →
  LegacyProjectModal.id <$> LegacyProjectModal.teamMembers lst = [a; b; c] →
  LegacyProjectModal.CreateProjectFormData.teamMemberIds
    (LegacyProjectModal.formData lst) = [] →
  (tick_all [a; c] (Some []) = Some [a; c]
   ∧ tick_all [c; a] (Some []) = Some [c; a])
  ∧ (LegacyProjectModal.CreateProjectFormData.teamMemberIds
       (LegacyProjectModal.formData
          (LegacyProjectModal.ctrl_click_option c
             (LegacyProjectModal.ctrl_click_option a lst))) = [a; c]
     ∧ LegacyProjectModal.CreateProjectFormData.teamMemberIds
         (LegacyProjectModal.formData
            (LegacyProjectModal.ctrl_click_option a
               (LegacyProjectModal.ctrl_click_option c lst))) = [a; c]).
Proof.
  intros Ha Hc Hab Hac Hbc Hopts Hsel. split.
  - split; apply (tick_all_from _ []); repeat constructor; done.
  - unfold LegacyProjectModal.ctrl_click_option. cbn.
    rewrite Hopts, Hsel. cbn.
    unfold LegacyProjectModal.selectedOptions. cbn.
    split; case_eqb; reflexivity.
Qed.

(** C2, the claim as written fails for the check boxes: ticking C and then
    A leaves the list [C, A]. *)
Lemma checkbox_selection_keeps_click_order :
  let A := {| TeamMember._id := Some "A"; TeamMember.id := None; TeamMember.name := "Ann" |} in
  let C := {| TeamMember._id := Some "C"; TeamMember.id := None; TeamMember.name := "Cy" |} in
  tick_all (member_id <$> [A; C]) (Some []) = Some ["A"; "C"]
  ∧ tick_all (member_id <$> [C; A]) (Some []) = Some ["C"; "A"]
  ∧ tick_all (member_id <$> [C; A]) (Some []) ≠ Some ["A"; "C"].
Proof. cbn. split_and!; done. Qed.

(** *** Recurrence without a frequency *)

(** C3.  In the modal that marks the frequency select [required] (the
    hand-validated one), a repeating project with no frequency chosen is
    stopped by validation: the submit button sets off nothing, so no request
    is issued and the form is as it was. *)
Theorem recurring_without_frequency_is_rejected
    (backend : Backend) (onClose : Callback) (st : LegacyProjectModal.ModalState) :
  LegacyProjectModal.CreateProjectFormData.repeating (LegacyProjectModal.formData st) = true →
  LegacyProjectModal.CreateProjectFormData.frequency (LegacyProjectModal.formData st) = None
  ∨ LegacyProjectModal.CreateProjectFormData.frequency (LegacyProjectModal.formData st)
    = Some "" →
  LegacyProjectModal.click_submit backend onClose st = (Ok tt, st, []).
Proof.
  intros Hrep Hfreq. unfold LegacyProjectModal.click_submit. rewrite run_get_state.
  destruct (LegacyProjectModal.loading st); [done|].
  destruct (LegacyProjectModal.submitting st); [done|].
  unfold LegacyProjectModal.render_controls. rewrite Hrep.
  rewrite forallb_app.
  replace (default "" (LegacyProjectModal.CreateProjectFormData.frequency
                         (LegacyProjectModal.formData st))) with ""
    by (destruct Hfreq as [-> | ->]; done).
  match goal with
  | |- context [forallb ?f [?c]] => change (forallb f [c]) with false
  end.
  rewrite andb_false_r. done.
Qed.

(** The check lives in the [required] attribute alone: [handleSubmit],
    once reached, sends a repeating project that has no frequency. *)
Lemma legacy_handleSubmit_has_no_frequency_check
    (backend : Backend) (onClose : Callback) (st : LegacyProjectModal.ModalState) :
  trim (LegacyProjectModal.CreateProjectFormData.name (LegacyProjectModal.formData st)) ≠ "" →
  LegacyProjectModal.CreateProjectFormData.clientId (LegacyProjectModal.formData st) ≠ "" →
  ∃ body,
    List.filter is_network_call (trace (LegacyProjectModal.handleSubmit backend onClose st))
    = [createProject_ev body].
Proof.
  intros Hname Hclient. unfold LegacyProjectModal.handleSubmit.
  rewrite run_emit, run_get_state.
  apply String.eqb_neq in Hname, Hclient. unfold truthy_str. rewrite Hname, Hclient.
  cbn [negb]. eexists.
  unfold try_finally, try_catch. rewrite run_modify.
  unfold createProject. unfold mbind, eff_bind, bind, emit, settle, modify.
  destruct (createProject_answer backend _); cbn; reflexivity.
Qed.

(** *** The request body *)

Lemma formattedData_assigneeId_none (data : gmap string jsval) :
  field data "assigneeId" = JStr "none" →
  field (formattedData data) "assigneeId" = JNull.
Proof.
  intros Hnone. unfold formattedData, field.
  rewrite lookup_insert_ne by done. rewrite lookup_insert_eq.
  fold (field data "assigneeId"). rewrite Hnone. reflexivity.
Qed.

Lemma formattedData_assigneeId_other (data : gmap string jsval) :
  strict_eq_str (field data "assigneeId") "none" = false →
  field (formattedData data) "assigneeId" = field data "assigneeId".
Proof.
  intros Hother. unfold formattedData, field at 1.
  rewrite lookup_insert_ne by done. rewrite lookup_insert_eq.
  rewrite Hother. reflexivity.
Qed.

Lemma formattedData_teamMemberIds_array (data : gmap string jsval) :
  ∃ l, field (formattedData data) "teamMemberIds" = JArr l.
Proof.
  unfold formattedData, field at 1. rewrite lookup_insert_eq. cbn.
  destruct (field data "teamMemberIds") as [| | | | | |l|]; cbn; eauto.
Qed.

Lemma formattedData_other_key (data : gmap string jsval) (k : string) :
  k ≠ "assigneeId" → k ≠ "teamMemberIds" →
  field (formattedData data) k = field data k.
Proof.
  intros H1 H2. unfold formattedData, field.
  by rewrite !lookup_insert_ne.
Qed.

(** *** Runs of the two mutation functions *)

Lemma createMutation_mutationFn_run {S} backend data (s : S) :
  createMutation_mutationFn backend data s
  = match post_answer backend "/projects" (JObj (formattedData data)) with
    | Ok response =>
        if nullish response
        then (Thrown TypeError, s,
              create_log data ++ [console_error_ev "Error creating project:" TypeError])
        else (Ok (prop response "data"), s, create_log data)
    | Thrown e =>
        (Thrown e, s, create_log data ++ [console_error_ev "Error creating project:" e])
    end.
Proof.
  unfold createMutation_mutationFn, try_catch, api_post, console_log, console_error,
    get_prop, create_log.
  unfold mbind, eff_bind, bind, emit, settle, throw. cbv zeta.
  destruct (post_answer backend "/projects" (JObj (formattedData data))) as [response|e];
    [destruct (nullish response)|]; reflexivity.
Qed.

Lemma updateMutation_mutationFn_run {S} backend id data (s : S) :
  updateMutation_mutationFn backend id data s
  = match patch_answer backend ("/projects/" +:+ id) (JObj (formattedData data)) with
    | Ok response =>
        if nullish response
        then (Thrown TypeError, s,
              update_log id data ++ [console_error_ev "Error updating project:" TypeError])
        else (Ok (prop response "data"), s, update_log id data)
    | Thrown e =>
        (Thrown e, s, update_log id data ++ [console_error_ev "Error updating project:" e])
    end.
Proof.
  unfold updateMutation_mutationFn, try_catch, api_patch, console_log, console_error,
    get_prop, update_log.
  unfold mbind, eff_bind, bind, emit, settle, throw. cbv zeta.
  destruct (patch_answer backend ("/projects/" +:+ id) (JObj (formattedData data)))
    as [response|e]; [destruct (nullish response)|]; reflexivity.
Qed.

Lemma createMutation_onSuccess_quiet {S} props data (s : S) :
  List.filter is_network_call (trace (createMutation_onSuccess props data s)) = [].
Proof.
  unfold createMutation_onSuccess, toast_success, call, get_prop.
  unfold mbind, eff_bind, bind, emit, throw, mret, eff_ret, ret.
  destruct (onCreated props); [|reflexivity].
  destruct (nullish data); [reflexivity|].
  destruct (truthy (prop data "_id")); reflexivity.
Qed.

(** [createMutation.mutate] sends one request, with the formatted object as
    its body, however the backend answers. *)
Lemma createMutation_mutate_network {S} backend props data (s : S) :
  List.filter is_network_call (trace (createMutation_mutate backend props data s))
  = [api_post_ev "/projects" (JObj (formattedData data))].
Proof.
  unfold createMutation_mutate, mutate, try_catch.
  unfold mbind at 1, eff_bind, bind.
  rewrite createMutation_mutationFn_run.
  destruct (post_answer _ _ _) as [response|e]; [destruct (nullish response)|];
    [reflexivity| |reflexivity].
  pose proof (createMutation_onSuccess_quiet props (prop response "data") s) as Hq.
  destruct (createMutation_onSuccess props (prop response "data") s) as [[[|err] s1] t1];
    cbn in Hq |- *.
  - by rewrite Hq.
  - unfold createMutation_onError, toast_error, emit. cbn.
    rewrite List.filter_app, Hq. reflexivity.
Qed.

(** [updateMutation.mutate] likewise. *)
Lemma updateMutation_mutate_network {S} backend props id data (s : S) :
  List.filter is_network_call (trace (updateMutation_mutate backend props id data s))
  = [api_patch_ev ("/projects/" +:+ id) (JObj (formattedData data))].
Proof.
  unfold updateMutation_mutate, mutate, try_catch.
  unfold mbind at 1, eff_bind, bind. cbn [fst snd].
  rewrite updateMutation_mutationFn_run.
  destruct (patch_answer _ _ _) as [response|e]; [destruct (nullish response)|];
    [reflexivity| |reflexivity].
  unfold updateMutation_onSuccess, call_if_defined, toast_success, call.
  unfold mbind, eff_bind, bind, emit, mret, eff_ret, ret.
  by destruct (onUpdated props).
Qed.

(** Whatever a submission of the form sends, it is the formatted values. *)
Lemma onSubmit_requests backend props values st (e : Event) :
  In e (List.filter is_network_call (trace (onSubmit backend props values st))) →
  e = api_post_ev "/projects" (JObj (formattedData (values_object values)))
  ∨ ∃ i, e = api_patch_ev ("/projects/" +:+ i)
                 (JObj (formattedData (values_object values))).
Proof.
  unfold onSubmit, console_log. rewrite run_emit.
  cbn [trace snd List.filter is_network_call].
  destruct (project props) as [p|];
    [destruct (isEditing props);
     [destruct (ostr_oor (Project.id p) (Project._id p)) as [i|];
      [destruct (truthy_str i)|]|]|].
  - rewrite updateMutation_mutate_network. intros [<-|[]]. right. by exists i.
  - intros [].
  - intros [].
  - rewrite createMutation_mutate_network. intros [<-|[]]. by left.
  - rewrite createMutation_mutate_network. intros [<-|[]]. by left.
Qed.

(** C4.  When the assignee of the submitted values is the sentinel ["none"],
    the create request and the update request carry the same body, built
    from the submitted values: its [assigneeId] is [null]; its
    [teamMemberIds] is the submitted selection when that is an array, and
    the empty array otherwise; every other key is as submitted.  Each
    mutation function sends exactly that one request, and a submission of a
    form holding these values sends nothing but such a request. *)
Theorem none_assignee_is_sent_as_null
    {S} (backend : Backend) (data : gmap string jsval) (id : string) (s : S) :
  field data "assigneeId" = JStr "none" →
  ∃ body,
    List.filter is_network_call (trace (createMutation_mutationFn backend data s))
    = [api_post_ev "/projects" (JObj body)]
    ∧ List.filter is_network_call (trace (updateMutation_mutationFn backend id data s))
      = [api_patch_ev ("/projects/" +:+ id) (JObj body)]
    ∧ body !! "assigneeId" = Some JNull
    ∧ body !! "teamMemberIds"
      = Some (match field data "teamMemberIds" with
              | JArr selection => JArr selection
              | _ => JArr []
              end)
    ∧ (∀ k, k ≠ "assigneeId" → k ≠ "teamMemberIds" → body !! k = data !! k)
    ∧ ∀ (props : ProjectModalProps) (values : ProjectFormValues.t)
        (st : ProjectModal.ModalState) (e : Event),
        values_object values = data →
        In e (List.filter is_network_call (trace (onSubmit backend props values st))) →
        e = api_post_ev "/projects" (JObj body)
        ∨ ∃ i, e = api_patch_ev ("/projects/" +:+ i) (JObj body).
Proof.
  intros Hnone. exists (formattedData data). split_and!.
  - rewrite createMutation_mutationFn_run.
    destruct (post_answer _ _ _) as [response|e]; [destruct (nullish response)|];
      reflexivity.
  - rewrite updateMutation_mutationFn_run.
    destruct (patch_answer _ _ _) as [response|e]; [destruct (nullish response)|];
      reflexivity.
  - unfold formattedData. rewrite lookup_insert_ne by done. rewrite lookup_insert_eq.
    by rewrite Hnone.
  - unfold formattedData. rewrite lookup_insert_eq.
    by destruct (field data "teamMemberIds").
  - intros k Hk1 Hk2. unfold formattedData. by rewrite !lookup_insert_ne.
  - intros props values st e <-. apply onSubmit_requests.
Qed.

(** *** Runs of [mutate] *)

Lemma opt_prop_prop (v : jsval) (k : string) : opt_prop v k = prop v k.
Proof. unfold opt_prop. by destruct v. Qed.

Lemma prop_not_nullish (v : jsval) (k : string) (s : string) :
  prop v k = JStr s → nullish v = false.
Proof. by destruct v. Qed.

Lemma createMutation_mutate_success {S} backend props data (s : S) response created :
  post_answer backend "/projects" (JObj (formattedData data)) = Ok response →
  nullish response = false →
  nullish (prop response "data") = false →
  onCreated props = Some created →
  createMutation_mutate backend props data s
  = (Ok tt, s,
     create_log data
     ++ [ toast_success_ev (JStr "Project created successfully");
          callback_ev created
            [js_or (prop (prop response "data") "_id") (prop (prop response "data") "id")] ]).
Proof.
  intros Hpost Hresp Hdata Hcb.
  unfold createMutation_mutate, mutate, try_catch.
  unfold mbind at 1, eff_bind, bind.
  rewrite createMutation_mutationFn_run, Hpost, Hresp.
  unfold createMutation_onSuccess. rewrite Hcb.
  unfold get_prop. rewrite Hdata.
  unfold js_or, toast_success, call, mbind, eff_bind, bind, emit, mret, eff_ret, ret.
  destruct (truthy (prop (prop response "data") "_id")); reflexivity.
Qed.

Lemma createMutation_mutate_failure {S} backend props data (s : S) error :
  post_answer backend "/projects" (JObj (formattedData data)) = Thrown error →
  createMutation_mutate backend props data s
  = (Ok tt, s,
     create_log data
     ++ [ console_error_ev "Error creating project:" error;
          toast_error_ev
            (js_or (prop (prop (prop error "response") "data") "message")
                   (JStr "Failed to create project")) ]).
Proof.
  intros Hpost.
  unfold createMutation_mutate, mutate, try_catch.
  unfold mbind at 1, eff_bind, bind.
  rewrite createMutation_mutationFn_run, Hpost.
  unfold createMutation_onError, toast_error, emit.
  rewrite !opt_prop_prop. reflexivity.
Qed.

Lemma updateMutation_mutate_success {S} backend props id data (s : S) response :
  patch_answer backend ("/projects/" +:+ id) (JObj (formattedData data)) = Ok response →
  nullish response = false →
  updateMutation_mutate backend props id data s
  = (Ok tt, s,
     update_log id data
     ++ toast_success_ev (JStr "Project updated successfully")
        :: match onUpdated props with
           | Some updated => [callback_ev updated []]
           | None => []
           end).
Proof.
  intros Hpatch Hresp.
  unfold updateMutation_mutate, mutate, try_catch.
  unfold mbind at 1, eff_bind, bind. cbn [fst snd].
  rewrite updateMutation_mutationFn_run, Hpatch, Hresp.
  unfold updateMutation_onSuccess, call_if_defined, toast_success, call.
  unfold mbind, eff_bind, bind, emit, mret, eff_ret, ret.
  destruct (onUpdated props); reflexivity.
Qed.

Lemma updateMutation_mutate_failure {S} backend props id data (s : S) error :
  patch_answer backend ("/projects/" +:+ id) (JObj (formattedData data)) = Thrown error →
  updateMutation_mutate backend props id data s
  = (Ok tt, s,
     update_log id data
     ++ [ console_error_ev "Error updating project:" error;
          toast_error_ev
            (js_or (prop (prop (prop error "response") "data") "message")
                   (JStr "Failed to update project")) ]).
Proof.
  intros Hpatch.
  unfold updateMutation_mutate, mutate, try_catch.
  unfold mbind at 1, eff_bind, bind. cbn [fst snd].
  rewrite updateMutation_mutationFn_run, Hpatch.
  unfold updateMutation_onError, toast_error, emit.
  rewrite !opt_prop_prop. reflexivity.
Qed.

(** C5.  After a successful creation whose response data carries the
    identifier [p] (under [_id], or under [id] when [_id] is missing or
    empty), the [onCreated] callback of the caller is invoked once, with [p]
    as its only argument; after a successful update the [onUpdated] callback
    is invoked once, without argument. *)
Theorem created_callback_receives_identifier
    {S} (s : S)
    (backend : Backend) (props : ProjectModalProps) (data : gmap string jsval)
    (response : jsval) (created : Callback) (p : string)
    (backend' : Backend) (props' : ProjectModalProps) (id : string)
    (data' : gmap string jsval) (response' : jsval) (updated : Callback) :
  onCreated props = Some created →
  post_answer backend "/projects" (JObj (formattedData data)) = Ok response →
  (prop (prop response "data") "_id" = JStr p ∧ p ≠ "")
  ∨ (truthy (prop (prop response "data") "_id") = false
     ∧ prop (prop response "data") "id" = JStr p) →
  onUpdated props' = Some updated →
  patch_answer backend' ("/projects/" +:+ id) (JObj (formattedData data')) = Ok response' →
  nullish response' = false →
  trace (createMutation_mutate backend props data s)
  = create_log data
    ++ [ toast_success_ev (JStr "Project created successfully");
         callback_ev created [JStr p] ]
  ∧ trace (updateMutation_mutate backend' props' id data' s)
    = update_log id data'
      ++ [ toast_success_ev (JStr "Project updated successfully");
           callback_ev updated [] ].
Proof.
  intros Hcreated Hpost Hid Hupdated Hpatch Hresp'. split.
  - assert (nullish (prop response "data") = false) as Hdata.
    { destruct Hid as [[H _]|[_ H]]; eauto using prop_not_nullish. }
    assert (nullish response = false) as Hresp.
    { destruct response; try done; by destruct Hid as [[H _]|[_ H]]. }
    rewrite (createMutation_mutate_success _ _ _ _ _ _ Hpost Hresp Hdata Hcreated).
    cbn [trace snd]. do 3 f_equal.
    destruct Hid as [[H Hp]|[Hf H]]; unfold js_or.
    + rewrite H. cbn. apply String.eqb_neq in Hp. by rewrite Hp.
    + by rewrite Hf, H.
  - rewrite (updateMutation_mutate_success _ _ _ _ _ _ Hpatch Hresp'), Hupdated.
    reflexivity.
Qed.

(** *** The properties above at concrete forms *)

Lemma selecting_two_team_members_witness :
  tick_all ["A"; "C"] (Some []) = Some ["A"; "C"]
  ∧ LegacyProjectModal.CreateProjectFormData.teamMemberIds
      (LegacyProjectModal.formData
         (LegacyProjectModal.ctrl_click_option "A"
            (LegacyProjectModal.ctrl_click_option "C" (legacy_modal "" "" false))))
    = ["A"; "C"].
Proof.
  assert (H : ∀ x y : string, String.eqb x y = false → x ≠ y)
    by (intros x y; apply String.eqb_neq).
  pose proof (selecting_two_team_members "A" "B" "C" (legacy_modal "" "" false)
                (H "A" "" eq_refl) (H "C" "" eq_refl) (H "A" "B" eq_refl)
                (H "A" "C" eq_refl) (H "B" "C" eq_refl) eq_refl eq_refl) as W.
  split; [exact (proj1 (proj1 W)) | exact (proj2 (proj2 W))].
Defined.

Lemma recurring_without_frequency_witness :
  let st :=
    LegacyProjectModal.handleRepeatingChange true
      (LegacyProjectModal.handleInputChange "clientId" "c1"
         (LegacyProjectModal.handleInputChange "name" "Website"
            (legacy_modal "" "" false))) in
  LegacyProjectModal.CreateProjectFormData.repeating (LegacyProjectModal.formData st) = true
  ∧ LegacyProjectModal.click_submit healthy_backend "onClose" st = (Ok tt, st, []).
Proof.
  split; [reflexivity|].
  exact (recurring_without_frequency_is_rejected healthy_backend "onClose"
           (LegacyProjectModal.handleRepeatingChange true
              (LegacyProjectModal.handleInputChange "clientId" "c1"
                 (LegacyProjectModal.handleInputChange "name" "Website"
                    (legacy_modal "" "" false))))
           eq_refl (or_introl eq_refl)).
Defined.

Lemma none_assignee_witness :
  field (values_object valid_values) "assigneeId" = JStr "none"
  ∧ ∃ body,
      List.filter is_network_call
        (trace (createMutation_mutationFn healthy_backend (values_object valid_values) tt))
      = [api_post_ev "/projects" (JObj body)]
      ∧ List.filter is_network_call
          (trace (updateMutation_mutationFn healthy_backend "p7"
                    (values_object valid_values) tt))
        = [api_patch_ev "/projects/p7" (JObj body)]
      ∧ body !! "assigneeId" = Some JNull
      ∧ body !! "teamMemberIds" = Some (JArr [JStr "A"; JStr "C"])
      ∧ body !! "name" = Some (JStr "Website").
Proof.
  split; [vm_compute; reflexivity|].
  destruct (none_assignee_is_sent_as_null healthy_backend (values_object valid_values)
              "p7" tt eq_refl) as (body & Hpost & Hpatch & Hassignee & Hteam & Hrest & _).
  exists body. split_and!; [exact Hpost | exact Hpatch | exact Hassignee | exact Hteam |].
  assert (H : ∀ x y : string, String.eqb x y = false → x ≠ y)
    by (intros x y; apply String.eqb_neq).
  rewrite (Hrest "name" (H "name" "assigneeId" eq_refl) (H "name" "teamMemberIds" eq_refl)).
  reflexivity.
Defined.

Lemma created_callback_witness :
  trace (createMutation_mutate healthy_backend create_props (values_object valid_values) tt)
  = create_log (values_object valid_values)
    ++ [ toast_success_ev (JStr "Project created successfully");
         callback_ev "onCreated" [JStr "p1"] ]
  ∧ trace (updateMutation_mutate healthy_backend create_props "p7"
             (values_object valid_values) tt)
    = update_log "p7" (values_object valid_values)
      ++ [ toast_success_ev (JStr "Project updated successfully");
           callback_ev "onUpdated" [] ].
Proof.
  apply (created_callback_receives_identifier tt
           healthy_backend create_props (values_object valid_values)
           created_response "onCreated" "p1"
           healthy_backend create_props "p7" (values_object valid_values)
           created_response "onUpdated").
  - reflexivity.
  - reflexivity.
  - left. split; [vm_compute; reflexivity|]. by apply String.eqb_neq.
  - reflexivity.
  - reflexivity.
  - reflexivity.
Defined.

(** *** Failed mutations *)

Lemma legacy_handleSubmit_run backend onClose st :
  trim (LegacyProjectModal.CreateProjectFormData.name (LegacyProjectModal.formData st)) ≠ "" →
  LegacyProjectModal.CreateProjectFormData.clientId (LegacyProjectModal.formData st) ≠ "" →
  LegacyProjectModal.handleSubmit backend onClose st
  = let body := JObj (LegacyProjectModal.newProject (LegacyProjectModal.formData st)) in
    let st' := LegacyProjectModal.setSubmitting false
                 (LegacyProjectModal.setSubmitting true st) in
    match createProject_answer backend body with
    | Ok _ =>
        (Ok tt, st',
         [ preventDefault_ev; createProject_ev body;
           toast_success_ev (JStr "Project created successfully");
           callback_ev onClose [] ])
    | Thrown error =>
        (Ok tt, st',
         [ preventDefault_ev; createProject_ev body;
           console_error_ev "Error creating project:" error;
           toast_error_ev (JStr "Failed to create project") ])
    end.
Proof.
  intros Hname Hclient. unfold LegacyProjectModal.handleSubmit.
  rewrite run_emit, run_get_state.
  apply String.eqb_neq in Hname, Hclient. unfold truthy_str. rewrite Hname, Hclient.
  cbn [negb]. cbv zeta.
  unfold try_finally, try_catch. rewrite run_modify.
  unfold createProject, toast_success, toast_error, console_error, call.
  unfold mbind, eff_bind, bind, emit, settle, modify.
  destruct (createProject_answer backend _); reflexivity.
Qed.

(** C6 (as amended).  A failed create or update request of the react-query
    modal shows one error notification: the [message] of the response
    carried by the error when there is a non-empty one, and the generic text
    when there is none (or an empty one).  A failed create request of the
    hand-validated modal shows the generic text.  In all three cases the
    form contents are as before and no callback of the caller runs, so the
    form stays open. *)
Theorem failed_mutation_shows_error_and_keeps_form
    (props : ProjectModalProps) (st : ProjectModal.ModalState)
    (backend : Backend) (data : gmap string jsval) (error : jsval)
    (backend' : Backend) (id : string) (data' : gmap string jsval) (error' : jsval)
    (backend'' : Backend) (onClose : Callback) (lst : LegacyProjectModal.ModalState)
    (error'' : jsval) :
  post_answer backend "/projects" (JObj (formattedData data)) = Thrown error →
  patch_answer backend' ("/projects/" +:+ id) (JObj (formattedData data')) = Thrown error' →
  trim (LegacyProjectModal.CreateProjectFormData.name (LegacyProjectModal.formData lst)) ≠ "" →
  LegacyProjectModal.CreateProjectFormData.clientId (LegacyProjectModal.formData lst) ≠ "" →
  createProject_answer backend''
    (JObj (LegacyProjectModal.newProject (LegacyProjectModal.formData lst))) = Thrown error'' →
  let message (e : jsval) := prop (prop (prop e "response") "data") "message" in
  (∃ text,
     List.filter is_toast_error (trace (createMutation_mutate backend props data st))
     = [toast_error_ev text]
     ∧ (∀ m, message error = JStr m → m ≠ "" → text = JStr m)
     ∧ (truthy (message error) = false → text = JStr "Failed to create project")
     ∧ List.filter is_callback (trace (createMutation_mutate backend props data st)) = []
     ∧ final_state (createMutation_mutate backend props data st) = st)
  ∧ (∃ text,
       List.filter is_toast_error (trace (updateMutation_mutate backend' props id data' st))
       = [toast_error_ev text]
       ∧ (∀ m, message error' = JStr m → m ≠ "" → text = JStr m)
       ∧ (truthy (message error') = false → text = JStr "Failed to update project")
       ∧ List.filter is_callback
           (trace (updateMutation_mutate backend' props id data' st)) = []
       ∧ final_state (updateMutation_mutate backend' props id data' st) = st)
  ∧ (List.filter is_toast_error
       (trace (LegacyProjectModal.handleSubmit backend'' onClose lst))
     = [toast_error_ev (JStr "Failed to create project")]
     ∧ List.filter is_callback
         (trace (LegacyProjectModal.handleSubmit backend'' onClose lst)) = []
     ∧ LegacyProjectModal.formData
         (final_state (LegacyProjectModal.handleSubmit backend'' onClose lst))
       = LegacyProjectModal.formData lst
     ∧ LegacyProjectModal.submitting
         (final_state (LegacyProjectModal.handleSubmit backend'' onClose lst)) = false).
Proof.
  intros Hpost Hpatch Hname Hclient Hcreate message.
  assert (∀ e generic m, message e = JStr m → m ≠ "" → js_or (message e) generic = JStr m)
    as Hsome.
  { intros e generic m -> Hm. unfold js_or. cbn. apply String.eqb_neq in Hm. by rewrite Hm. }
  assert (∀ e generic, truthy (message e) = false → js_or (message e) generic = generic)
    as Hnone.
  { intros e generic Hf. unfold js_or. by rewrite Hf. }
  split; [|split].
  - rewrite (createMutation_mutate_failure _ _ _ _ _ Hpost).
    eexists. split; [reflexivity|]. fold (message error). split_and!; eauto.
  - rewrite (updateMutation_mutate_failure _ _ _ _ _ _ Hpatch).
    eexists. split; [reflexivity|]. fold (message error'). split_and!; eauto.
  - rewrite (legacy_handleSubmit_run _ _ _ Hname Hclient). cbv zeta.
    rewrite Hcreate. done.
Qed.

Lemma failed_mutation_witness :
  List.filter is_toast_error
    (trace (createMutation_mutate (rejecting_backend conflict_error) create_props
              (values_object valid_values) blank_modal))
  = [toast_error_ev (JStr "Project name already exists")]
  ∧ List.filter is_toast_error
      (trace (updateMutation_mutate (rejecting_backend network_error) create_props "p7"
                (values_object valid_values) blank_modal))
    = [toast_error_ev (JStr "Failed to update project")]
  ∧ LegacyProjectModal.formData
      (final_state (LegacyProjectModal.handleSubmit (rejecting_backend conflict_error)
                      "onClose" (legacy_modal "Website" "c1" false)))
    = legacy_formData "Website" "c1" false.
Proof.
  assert (H : ∀ x y : string, String.eqb x y = false → x ≠ y)
    by (intros x y; apply String.eqb_neq).
  pose proof (failed_mutation_shows_error_and_keeps_form
                create_props blank_modal
                (rejecting_backend conflict_error) (values_object valid_values)
                conflict_error
                (rejecting_backend network_error) "p7" (values_object valid_values)
                network_error
                (rejecting_backend conflict_error) "onClose"
                (legacy_modal "Website" "c1" false) conflict_error
                eq_refl eq_refl (H (trim "Website") "" eq_refl) (H "c1" "" eq_refl) eq_refl)
    as [[text [Ht [Hm _]]] [[text' [Ht' [_ [Hg _]]]] [_ [_ [Hf _]]]]].
  split; [|split].
  - rewrite Ht. f_equal. f_equal.
    apply (Hm "Project name already exists"); [reflexivity | by apply H].
  - rewrite Ht'. f_equal. f_equal. apply Hg. reflexivity.
  - exact Hf.
Defined.

(** C6, the claim as written fails in the hand-validated modal: the backend
    rejects the creation with a message, and the notification shows the
    generic text instead. *)
Lemma legacy_failure_ignores_backend_message :
  prop (prop (prop conflict_error "response") "data") "message"
  = JStr "Project name already exists"
  ∧ List.filter is_toast_error
      (trace (LegacyProjectModal.handleSubmit (rejecting_backend conflict_error)
                "onClose" (legacy_modal "Website" "c1" false)))
    = [toast_error_ev (JStr "Failed to create project")]
  ∧ List.filter is_toast_error
      (trace (LegacyProjectModal.handleSubmit (rejecting_backend conflict_error)
                "onClose" (legacy_modal "Website" "c1" false)))
    ≠ [toast_error_ev (JStr "Project name already exists")].
Proof.
  split; [vm_compute; reflexivity|].
  assert (List.filter is_toast_error
            (trace (LegacyProjectModal.handleSubmit (rejecting_backend conflict_error)
                      "onClose" (legacy_modal "Website" "c1" false)))
          = [toast_error_ev (JStr "Failed to create project")]) as ->
    by (vm_compute; reflexivity).
  split; [reflexivity | discriminate].
Qed.

(** *** Read fetches *)

Lemma queryFn_returns {S} (q : ReadFetch) (backend : Backend) (s : S) :
  ∃ v, outcome (queryFn q backend s) = Ok v ∧ final_state (queryFn q backend s) = s.
Proof.
  destruct q; unfold queryFn, clients_queryFn, teamMembers_queryFn, templates_queryFn,
    try_catch, api_get, get_prop, console_error;
    unfold mbind, eff_bind, bind, emit, settle, throw, mret, eff_ret, ret;
    (destruct (get_answer backend _) as [response|e];
     [destruct (nullish response)|]); cbn; eauto.
Qed.

(** C7.  When the request of a read fetch (clients, team members or
    templates) fails, its query function catches the error, logs it and
    returns the empty array; it does not throw.  What it returns depends on
    the answer to its own request only, whatever happens to the other two. *)
Theorem failed_read_fetch_degrades_to_empty
    {S} (q : ReadFetch) (backend : Backend) (error : jsval) (s : S) :
  get_answer backend (endpoint q) = Thrown error →
  queryFn q backend s
  = (Ok (JArr []), s, [api_get_ev (endpoint q); console_error_ev (error_label q) error])
  ∧ ∀ backend' : Backend,
      get_answer backend' (endpoint q) = get_answer backend (endpoint q) →
      queryFn q backend' s = queryFn q backend s.
Proof.
  intros Hfail. split.
  - destruct q; cbn in Hfail;
      unfold queryFn, clients_queryFn, teamMembers_queryFn, templates_queryFn,
        try_catch, api_get, get_prop, console_error;
      unfold mbind, eff_bind, bind, emit, settle, throw, mret, eff_ret, ret;
      rewrite Hfail; reflexivity.
  - intros backend' Hsame.
    destruct q; cbn in Hsame;
      unfold queryFn, clients_queryFn, teamMembers_queryFn, templates_queryFn,
        try_catch, api_get, get_prop, console_error;
      unfold mbind, eff_bind, bind, emit, settle, throw, mret, eff_ret, ret;
      rewrite Hsame; reflexivity.
Qed.

Lemma failed_read_fetch_witness :
  queryFn TeamMembers team_members_down tt
  = (Ok (JArr []), tt,
     [api_get_ev "/team-members"; console_error_ev "Error fetching team members:" network_error]).
Proof.
  exact (proj1 (failed_read_fetch_degrades_to_empty TeamMembers team_members_down
                  network_error tt eq_refl)).
Defined.

(** With only the team-member endpoint down, the other two lists arrive. *)
Lemma team_members_down_leaves_the_rest :
  outcome (load_reference_data team_members_down tt)
  = Ok (prop (list_response ["A"; "B"; "C"]) "data", JArr [],
        prop (list_response ["A"; "B"; "C"]) "data").
Proof. vm_compute. reflexivity. Qed.

(** *** Default values in edit mode *)

Lemma str_or_empty (s : string) : str_or s "" = s.
Proof. unfold str_or, truthy_str. by destruct (String.eqb_spec s ""). Qed.

Lemma ostr_oor_empty (a : option string) :
  ostr_oor a (Some "") = Some (default "" a).
Proof.
  unfold ostr_oor, truthy_ostr, truthy_str.
  destruct a as [s|]; [|done]. cbn. by destruct (String.eqb_spec s "") as [->|].
Qed.

Lemma truthy_date_input_true (d : DateInput) :
  d ≠ DateString "" → truthy_date_input d = true.
Proof.
  destruct d as [s|t]; [|done]. intros Hd. cbn. unfold truthy_str.
  destruct (String.eqb_spec s ""); [congruence | done].
Qed.

(** C8 (as amended).  In edit mode every default form value comes from the
    record when the record has a non-empty value for it, and is the
    documented default otherwise: a missing status gives "Not Started", a
    missing or empty assignee the "none" sentinel, a missing team-member
    list the empty list, a recurrence flag set under neither [repeating] nor
    [isRecurring] gives false, and a missing or empty start date falls back
    to the due date and then to the current date. *)
Theorem edit_mode_default_values
    (props : ProjectModalProps) (p : Project.t) (Date_parse : string → Date) (now : Z) :
  project props = Some p →
  isEditing props = true →
  let dv := getDefaultValues props Date_parse now in
  let missing (d : option DateInput) := d = None ∨ d = Some (DateString "") in
  ProjectFormValues.name dv = Project.name p
  ∧ ProjectFormValues.clientId dv = Project.clientId p
  ∧ ProjectFormValues.description dv = Some (default "" (Project.description p))
  ∧ ProjectFormValues.templateId dv = Some (default "" (Project.templateId p))
  ∧ ProjectFormValues.status dv = default NotStarted (Project.status p)
  ∧ ProjectFormValues.teamMemberIds dv = default [] (Project.teamMemberIds p)
  ∧ ProjectFormValues.isRecurring dv
    = default false (Project.repeating p) || default false (Project.isRecurring p)
  ∧ (∀ a, Project.assigneeId p = Some a → a ≠ "" →
       ProjectFormValues.assigneeId dv = Some a)
  ∧ (Project.assigneeId p = None ∨ Project.assigneeId p = Some "" →
       ProjectFormValues.assigneeId dv = Some "none")
  ∧ (∀ sd, Project.startDate p = Some sd → sd ≠ DateString "" →
       ProjectFormValues.startDate dv = new_Date Date_parse sd)
  ∧ (∀ dd, missing (Project.startDate p) → Project.dueDate p = Some dd →
       dd ≠ DateString "" →
       ProjectFormValues.startDate dv = new_Date Date_parse dd)
  ∧ (missing (Project.startDate p) → missing (Project.dueDate p) →
       ProjectFormValues.startDate dv = Some now).
Proof.
  intros Hp He dv missing. subst dv. unfold getDefaultValues. rewrite Hp, He.
  cbn [ProjectFormValues.name ProjectFormValues.clientId ProjectFormValues.description
       ProjectFormValues.templateId ProjectFormValues.status
       ProjectFormValues.teamMemberIds ProjectFormValues.isRecurring
       ProjectFormValues.assigneeId ProjectFormValues.startDate].
  assert (∀ d other, missing d → date_or_else Date_parse d other = other) as Hmiss.
  { intros d other [-> | ->]; reflexivity. }
  assert (∀ d x other, d = Some x → x ≠ DateString "" →
            date_or_else Date_parse d other = new_Date Date_parse x) as Hpres.
  { intros d x other -> Hx. cbn. by rewrite truthy_date_input_true. }
  split_and!.
  - apply str_or_empty.
  - apply str_or_empty.
  - apply ostr_oor_empty.
  - apply ostr_oor_empty.
  - by destruct (Project.status p).
  - by destruct (Project.teamMemberIds p).
  - unfold truthy_obool.
    by destruct (default false (Project.repeating p)),
                (default false (Project.isRecurring p)).
  - intros a -> Ha. cbn. unfold truthy_str.
    apply String.eqb_neq in Ha. by rewrite Ha.
  - intros [-> | ->]; reflexivity.
  - intros sd Hsd Hne. by apply Hpres.
  - intros dd Hs Hdd Hne. rewrite (Hmiss _ _ Hs). by apply Hpres.
  - intros Hs Hd. by rewrite (Hmiss _ _ Hs), (Hmiss _ _ Hd).
Qed.

Lemma edit_mode_default_values_witness :
  ProjectFormValues.status (getDefaultValues (edit_props bare_project) no_date 5)
  = NotStarted
  ∧ ProjectFormValues.assigneeId (getDefaultValues (edit_props bare_project) no_date 5)
    = Some "none"
  ∧ ProjectFormValues.startDate (getDefaultValues (edit_props bare_project) no_date 5)
    = Some 5%Z.
Proof.
  pose proof (edit_mode_default_values (edit_props bare_project) bare_project no_date 5
                eq_refl eq_refl) as W.
  cbv zeta in W.
  destruct W as (_ & _ & _ & _ & Hst & _ & _ & _ & Has & _ & _ & Hsd).
  split; [exact Hst|]. split; [exact (Has (or_introl eq_refl))|].
  exact (Hsd (or_introl eq_refl) (or_introl eq_refl)).
Defined.

(** C8, the claim as written fails for a record whose assignee is present
    but empty: the form does not take it over, it shows the sentinel. *)
Lemma empty_assignee_is_not_taken_from_record :
  Project.assigneeId unassigned_project = Some ""
  ∧ ProjectFormValues.assigneeId
      (getDefaultValues (edit_props unassigned_project) no_date 5) = Some "none"
  ∧ ProjectFormValues.assigneeId
      (getDefaultValues (edit_props unassigned_project) no_date 5)
    ≠ Project.assigneeId unassigned_project.
Proof. cbn. split_and!; done. Qed.

(** *** The pagination link *)

Import Pagination.

(** The [onClick] of the rendered anchor: a handler of the caller, spread
    after the arrow function, takes its place. *)
Lemma PaginationLink_onClick (buttonVariants : string → string → string)
    (cn : list (option string) → string) (p : PaginationLinkProps) :
  PaginationLink buttonVariants cn p !! "onClick"
  = Some (match props p !! "onClick" with
          | Some v => Passed v
          | None => LinkOnClick (disabled p) AUndefined
          end).
Proof.
  unfold PaginationLink. cbv zeta.
  rewrite lookup_union, lookup_fmap.
  rewrite !lookup_insert_ne by done. rewrite lookup_insert_eq.
  by destruct (props p !! "onClick").
Qed.




(** *** Editing a record without identifier *)

(** C10.  In edit mode, when the record has neither [id] nor [_id], the
    submit handler sends nothing: it logs the values, shows the error
    notification about the missing project identifier and returns, the
    state of the form being as before. *)
Theorem edit_without_identifier_is_refused
    (backend : Backend) (props : ProjectModalProps) (p : Project.t)
    (values : ProjectFormValues.t) (st : ProjectModal.ModalState) :
  project props = Some p →
  isEditing props = true →
  Project.id p = None →
  Project._id p = None →
  onSubmit backend props values st
  = (Ok tt, st,
     [ console_log_ev "Submitting form with values:" (JObj (values_object values));
       toast_error_ev (JStr "Cannot update project: Missing project ID") ])
  ∧ List.filter is_network_call (trace (onSubmit backend props values st)) = [].
Proof.
  intros Hp He Hid H_id.
  assert (onSubmit backend props values st
          = (Ok tt, st,
             [ console_log_ev "Submitting form with values:" (JObj (values_object values));
               toast_error_ev (JStr "Cannot update project: Missing project ID") ])) as Hrun.
  { unfold onSubmit, console_log. rewrite run_emit, Hp, He, Hid, H_id. reflexivity. }
  split; [exact Hrun|]. rewrite Hrun. reflexivity.
Qed.

Lemma edit_without_identifier_witness :
  List.filter is_network_call
    (trace (onSubmit healthy_backend (edit_props bare_project) valid_values blank_modal))
  = []
  ∧ final_state (onSubmit healthy_backend (edit_props bare_project) valid_values blank_modal)
    = blank_modal.
Proof.
  pose proof (edit_without_identifier_is_refused healthy_backend (edit_props bare_project)
                bare_project valid_values blank_modal eq_refl eq_refl eq_refl eq_refl)
    as [Hrun Hnet].
  split; [exact Hnet|]. rewrite Hrun. reflexivity.
Defined.

(** *** The two modals on complete forms *)

Lemma values_object_assigneeId (v : ProjectFormValues.t) :
  field (values_object v) "assigneeId"
  = match ProjectFormValues.assigneeId v with
    | Some a => JStr a
    | None => JUndefined
    end.
Proof.
  unfold values_object, set_optional, field.
  destruct (ProjectFormValues.description v), (ProjectFormValues.assigneeId v),
    (ProjectFormValues.templateId v);
    repeat (rewrite lookup_insert_eq || (rewrite lookup_insert_ne by done));
    rewrite ?lookup_empty; reflexivity.
Qed.

(** A submission in creation mode sends that one request, built from the
    validated values. *)
Lemma onSubmit_creates backend props values st :
  project props = None →
  List.filter is_network_call (trace (onSubmit backend props values st))
  = [api_post_ev "/projects" (JObj (formattedData (values_object values)))].
Proof.
  intros Hp. unfold onSubmit, console_log. rewrite run_emit, Hp.
  cbn [trace snd List.filter is_network_call].
  apply createMutation_mutate_network.
Qed.

(** A fresh form, filled in and submitted, creates the project and reports
    its identifier to the caller. *)
Lemma submit_filled_form :
  let st := {| open := false; openTemplates := false;
               formValues := as_input valid_values; formErrors := [] |} in
  trace (form_handleSubmit healthy_backend create_props st)
  = [ preventDefault_ev;
      console_log_ev "Submitting form with values:" (JObj (values_object valid_values));
      console_log_ev "Sending project data:"
        (JObj (formattedData (values_object valid_values)));
      api_post_ev "/projects" (JObj (formattedData (values_object valid_values)));
      toast_success_ev (JStr "Project created successfully");
      callback_ev "onCreated" [JStr "p1"] ].
Proof. reflexivity. Qed.

Lemma legacy_submit_filled_form :
  trace (LegacyProjectModal.click_submit healthy_backend "onClose"
           (legacy_modal "Website" "c1" false))
  = [ preventDefault_ev;
      createProject_ev
        (JObj (LegacyProjectModal.newProject (legacy_formData "Website" "c1" false)));
      toast_success_ev (JStr "Project created successfully");
      callback_ev "onClose" [] ].
Proof. reflexivity. Qed.

Lemma trim_examples :
  trim "  Website redesign " = "Website redesign" ∧ trim "   " = "" ∧ trim "" = ""
  ∧ trim no_break_space = ""
  ∧ trim (no_break_space +:+ "Website" +:+ " " +:+ line_separator) = "Website".
Proof. split_and!; reflexivity. Qed.

(** A name of white space outside ASCII is blank to the handler as well. *)
Lemma no_break_space_name_is_refused :
  LegacyProjectModal.handleSubmit healthy_backend "onClose"
    (legacy_modal no_break_space "c1" false)
  = (Ok tt, legacy_modal no_break_space "c1" false,
     [preventDefault_ev; toast_error_ev (JStr "Project name is required")]).
Proof. reflexivity. Qed.

(* ===================================================================== *)
(** ** Further properties of the react-hook-form modal *)
(* ===================================================================== *)

(** *** The schema *)

Lemma z_array_z_string (l : list string) : z_array z_string l = inr l.
Proof. induction l as [|x l IH]; [done|]. cbn. by rewrite IH. Qed.

Lemma z_enum_every_status (s : Status) :
  z_enum [NotStarted; InProgress; Complete] s = inr s.
Proof. by destruct s. Qed.

Lemma z_min_1 (msg s : string) :
  z_min 1 msg z_string s = if String.eqb s "" then inl [msg] else inr s.
Proof. by destruct s. Qed.

Lemma z_optional_z_string (o : option string) : z_optional z_string o = inr o.
Proof. by destruct o. Qed.

(** The schema, case by case. *)
Lemma projectSchema_cases (input : ProjectFormInput.t) :
  projectSchema input
  = let name_issues :=
      if String.eqb (ProjectFormInput.name input) ""
      then [ {| path := "name"; message := "Project name is required" |} ] else [] in
    let client_issues :=
      if String.eqb (ProjectFormInput.clientId input) ""
      then [ {| path := "clientId"; message := "Client is required" |} ] else [] in
    match ProjectFormInput.startDate input with
    | Some (Some t) =>
        match name_issues ++ client_issues with
        | [] =>
            inr {| ProjectFormValues.name := ProjectFormInput.name input;
                   ProjectFormValues.description := ProjectFormInput.description input;
                   ProjectFormValues.clientId := ProjectFormInput.clientId input;
                   ProjectFormValues.assigneeId := ProjectFormInput.assigneeId input;
                   ProjectFormValues.teamMemberIds :=
                     default [] (ProjectFormInput.teamMemberIds input);
                   ProjectFormValues.isRecurring :=
                     default false (ProjectFormInput.isRecurring input);
                   ProjectFormValues.startDate := Some t;
                   ProjectFormValues.templateId := ProjectFormInput.templateId input;
                   ProjectFormValues.status :=
                     default NotStarted (ProjectFormInput.status input) |}
        | issues => inl issues
        end
    | Some None =>
        inl (name_issues ++ client_issues
             ++ [ {| path := "startDate"; message := "Invalid date" |} ])
    | None =>
        inl (name_issues ++ client_issues
             ++ [ {| path := "startDate"; message := "Start date is required" |} ])
    end.
Proof.
  destruct input as [n d c a tm r sd tp st]. unfold projectSchema, z_default.
  cbn [ProjectFormInput.name ProjectFormInput.description ProjectFormInput.clientId
       ProjectFormInput.assigneeId ProjectFormInput.teamMemberIds
       ProjectFormInput.isRecurring ProjectFormInput.startDate
       ProjectFormInput.templateId ProjectFormInput.status].
  rewrite !z_min_1, !z_optional_z_string, z_array_z_string, z_enum_every_status.
  unfold z_boolean.
  destruct (String.eqb n ""), (String.eqb c ""), sd as [[t|]|]; reflexivity.
Qed.

(** X1.  The schema reports every invalid key at once, and nothing else:
    its issues are the one for an empty name, the one for an empty client
    and the one for a missing or invalid start date, in this order; it
    accepts exactly when there is none of them.  No other key can fail. *)
Theorem projectSchema_reports_every_invalid_key (input : ProjectFormInput.t) :
  let name_issues :=
    if String.eqb (ProjectFormInput.name input) ""
    then [ {| path := "name"; message := "Project name is required" |} ] else [] in
  let client_issues :=
    if String.eqb (ProjectFormInput.clientId input) ""
    then [ {| path := "clientId"; message := "Client is required" |} ] else [] in
  let date_issues :=
    match ProjectFormInput.startDate input with
    | None => [ {| path := "startDate"; message := "Start date is required" |} ]
    | Some None => [ {| path := "startDate"; message := "Invalid date" |} ]
    | Some (Some _) => []
    end in
  match projectSchema input with
  | inl issues => issues = name_issues ++ client_issues ++ date_issues ∧ issues ≠ []
  | inr _ => name_issues ++ client_issues ++ date_issues = []
  end.
Proof.
  rewrite projectSchema_cases. cbv zeta.
  destruct (String.eqb (ProjectFormInput.name input) ""),
    (String.eqb (ProjectFormInput.clientId input) ""),
    (ProjectFormInput.startDate input) as [[t|]|]; cbn; done.
Qed.

(** X2.  Values with a non-empty name, a non-empty client and a valid start
    date are accepted, and the parsed values are the input with the three
    defaults filled in: no team member, not recurring, status "Not Started". *)
Theorem projectSchema_accepts_and_fills_defaults (input : ProjectFormInput.t) (t : Z) :
  ProjectFormInput.name input ≠ "" →
  ProjectFormInput.clientId input ≠ "" →
  ProjectFormInput.startDate input = Some (Some t) →
  projectSchema input
  = inr {| ProjectFormValues.name := ProjectFormInput.name input;
           ProjectFormValues.description := ProjectFormInput.description input;
           ProjectFormValues.clientId := ProjectFormInput.clientId input;
           ProjectFormValues.assigneeId := ProjectFormInput.assigneeId input;
           ProjectFormValues.teamMemberIds :=
             default [] (ProjectFormInput.teamMemberIds input);
           ProjectFormValues.isRecurring :=
             default false (ProjectFormInput.isRecurring input);
           ProjectFormValues.startDate := Some t;
           ProjectFormValues.templateId := ProjectFormInput.templateId input;
           ProjectFormValues.status :=
             default NotStarted (ProjectFormInput.status input) |}.
Proof.
  intros Hn Hc Hd. rewrite projectSchema_cases. cbv zeta.
  apply String.eqb_neq in Hn, Hc. rewrite Hn, Hc, Hd. reflexivity.
Qed.

(** X3.  Validation is idempotent: values that the schema has produced are
    accepted again, unchanged. *)
Theorem projectSchema_idempotent (input : ProjectFormInput.t) (v : ProjectFormValues.t) :
  projectSchema input = inr v →
  projectSchema (as_input v) = inr v.
Proof.
  rewrite projectSchema_cases. cbv zeta.
  destruct (String.eqb (ProjectFormInput.name input) "") eqn:Hn,
    (String.eqb (ProjectFormInput.clientId input) "") eqn:Hc,
    (ProjectFormInput.startDate input) as [[t|]|]; cbn; try done.
  intros [= <-]. rewrite projectSchema_cases. cbn. by rewrite Hn, Hc.
Qed.

(** *** The controls *)

Lemma handle_event_status (ev : FormEvent) (st : ProjectModal.ModalState) :
  ProjectFormInput.status (formValues (handle_event ev st))
  = ProjectFormInput.status (formValues st).
Proof. by destruct ev. Qed.

Lemma handle_events_status (evs : list FormEvent) (st : ProjectModal.ModalState) :
  ProjectFormInput.status (formValues (handle_events evs st))
  = ProjectFormInput.status (formValues st).
Proof.
  revert st. induction evs as [|ev evs IH]; intros st; [done|].
  cbn. unfold handle_events in IH. by rewrite IH, handle_event_status.
Qed.

(** X4.  The form has no control for the status: whatever the user does
    before submitting, the status of the validated values is the one of the
    default values, so a new project is created with "Not Started" and an
    edited one keeps the status of its record. *)
Theorem submitted_status_is_the_default_one
    (props : ProjectModalProps) (Date_parse : string → Date) (now : Z)
    (evs : list FormEvent) (v : ProjectFormValues.t) :
  projectSchema (formValues (handle_events evs (mount props Date_parse now))) = inr v →
  ProjectFormValues.status v
  = ProjectFormValues.status (getDefaultValues props Date_parse now)
  ∧ (project props = None ∨ isEditing props = false →
     ProjectFormValues.status v = NotStarted)
  ∧ (∀ p, project props = Some p → isEditing props = true →
     ProjectFormValues.status v = default NotStarted (Project.status p)).
Proof.
  rewrite projectSchema_cases. cbv zeta.
  destruct (String.eqb (ProjectFormInput.name _) ""),
    (String.eqb (ProjectFormInput.clientId _) ""),
    (ProjectFormInput.startDate _) as [[t|]|]; cbn; try done.
  intros [= <-]. cbn [ProjectFormValues.status].
  rewrite handle_events_status. cbn.
  split; [done|]. split.
  - unfold getDefaultValues. intros [-> | ->]; [done|]. by destruct (project props).
  - intros p Hp He. unfold getDefaultValues. rewrite Hp, He. cbn.
    by destruct (Project.status p).
Qed.

Lemma handle_event_startDate (ev : FormEvent) (st : ProjectModal.ModalState) :
  (∃ t, ProjectFormInput.startDate (formValues st) = Some (Some t)) →
  ∃ t, ProjectFormInput.startDate (formValues (handle_event ev st)) = Some (Some t).
Proof. intros [t Ht]. destruct ev; cbn; eauto. Qed.

Lemma handle_events_startDate (evs : list FormEvent) (st : ProjectModal.ModalState) :
  (∃ t, ProjectFormInput.startDate (formValues st) = Some (Some t)) →
  ∃ t, ProjectFormInput.startDate (formValues (handle_events evs st)) = Some (Some t).
Proof.
  revert st. induction evs as [|ev evs IH]; intros st Hst; [done|].
  cbn. apply IH. by apply handle_event_startDate.
Qed.

(** X5.  In creation mode the start date can never be the reason of a
    rejection: the form starts with the current date and the calendar never
    leaves it empty.  So, whatever the user does, the form is accepted
    exactly when the name and the client are filled in. *)
Theorem new_form_is_accepted_iff_name_and_client
    (props : ProjectModalProps) (Date_parse : string → Date) (now : Z)
    (evs : list FormEvent) :
  project props = None ∨ isEditing props = false →
  let input := formValues (handle_events evs (mount props Date_parse now)) in
  (∃ v, projectSchema input = inr v)
  ↔ ProjectFormInput.name input ≠ "" ∧ ProjectFormInput.clientId input ≠ "".
Proof.
  intros Hcreate input.
  assert (∃ t, ProjectFormInput.startDate input = Some (Some t)) as [t Ht].
  { apply handle_events_startDate. exists now. cbn. unfold getDefaultValues.
    destruct Hcreate as [-> | ->]; [done|]. by destruct (project props). }
  rewrite projectSchema_cases. cbv zeta. rewrite Ht.
  destruct (String.eqb_spec (ProjectFormInput.name input) ""),
    (String.eqb_spec (ProjectFormInput.clientId input) ""); cbn; split;
    try (by intros [v [=]]); try (by intros [? ?]); eauto.
Qed.

(** *** The template selector *)

Lemma template_matches_value (value : string) (template : Template.t) :
  value ≠ "" →
  template_matches value template = true ↔ template_value template = value.
Proof.
  intros Hv. unfold template_matches, template_value, ostr_oor, ostr_or, truthy_ostr,
    truthy_str.
  destruct (Template.id template) as [i|], (Template._id template) as [j|]; cbn;
    repeat match goal with
           | |- context [String.eqb ?x ?y] => destruct (String.eqb_spec x y); cbn
           end; split; intros; subst; congruence.
Qed.

Lemma find_template (templates : list Template.t) (template : Template.t) :
  In template templates →
  NoDup (template_value <$> templates) →
  template_value template ≠ "" →
  List.find (template_matches (template_value template)) templates = Some template.
Proof.
  intros Hin Hnd Hv. induction templates as [|x l IH]; [done|].
  cbn in Hnd |- *. apply NoDup_cons in Hnd as [Hx Hl].
  destruct (template_matches (template_value template) x) eqn:Hm.
  - apply template_matches_value in Hm; [|done].
    destruct Hin as [->|Hin]; [done|].
    exfalso. apply Hx. rewrite Hm. apply list_elem_of_fmap_2, list_elem_of_In. done.
  - destruct Hin as [->|Hin]; [|by apply IH].
    assert (template_matches (template_value template) template = true)
      by by apply template_matches_value.
    congruence.
Qed.

(** X6.  Choosing a template shows its name on the selector button and
    closes the list; choosing "Don't use a template" shows that text.  (The
    templates have distinct identifiers, the chosen one a non-empty
    identifier and a non-empty name.) *)
Theorem chosen_template_is_shown
    (templates : list Template.t) (template : Template.t) (st : ProjectModal.ModalState) :
  In template templates →
  NoDup (template_value <$> templates) →
  template_value template ≠ "" →
  Template.name template ≠ "" →
  (template_label templates
     (ProjectFormInput.templateId (formValues (handle_event (ChooseTemplate template) st)))
   = Template.name template
   ∧ openTemplates (handle_event (ChooseTemplate template) st) = false)
  ∧ (template_label templates
       (ProjectFormInput.templateId (formValues (handle_event ClearTemplate st)))
     = "Don't use a template"
     ∧ openTemplates (handle_event ClearTemplate st) = false).
Proof.
  intros Hin Hnd Hv Hname. split; [|done]. split; [|done].
  cbn. unfold template_label.
  apply String.eqb_neq in Hv as Hv'. unfold truthy_str at 1. rewrite Hv'. cbn.
  rewrite find_template by done.
  unfold str_or, truthy_str. apply String.eqb_neq in Hname. by rewrite Hname.
Qed.

(** *** The check boxes of the team members *)

Lemma includes_app (l1 l2 : list string) (id : string) :
  includes (l1 ++ l2) id = includes l1 id || includes l2 id.
Proof. unfold includes. apply existsb_app. Qed.

Lemma includes_filter_same (l : list string) (id : string) :
  includes (List.filter (λ v, negb (String.eqb v id)) l) id = false.
Proof.
  unfold includes. induction l as [|x l IH]; [done|]. cbn.
  destruct (String.eqb_spec x id) as [->|Hx]; cbn; [done|].
  rewrite IH. destruct (String.eqb_spec id x); [congruence | done].
Qed.

Lemma includes_filter_other (l : list string) (id other : string) :
  other ≠ id →
  includes (List.filter (λ v, negb (String.eqb v id)) l) other = includes l other.
Proof.
  intros Hne. unfold includes. induction l as [|x l IH]; [done|]. cbn.
  destruct (String.eqb_spec x id) as [->|Hx]; cbn.
  - rewrite IH. destruct (String.eqb_spec other id); [congruence | done].
  - by rewrite IH.
Qed.

Lemma includes_In (l : list string) (id : string) :
  includes l id = true ↔ In id l.
Proof.
  unfold includes. rewrite existsb_exists. split.
  - intros [x [Hx Heq]]. apply String.eqb_eq in Heq. by subst.
  - intros Hin. exists id. split; [done | apply String.eqb_refl].
Qed.

(** X7.  A change of the check box of one team member sets the selection
    state of that member to the state of the box and leaves the selection
    state of every other member as it was. *)
Theorem checkbox_changes_one_member
    (id other : string) (checked : bool) (value : option (list string)) :
  id ≠ "" →
  isSelected id (checkbox_onChange id checked value) = checked
  ∧ (other ≠ id →
     isSelected other (checkbox_onChange id checked value) = isSelected other value).
Proof.
  intros Hid. apply String.eqb_neq in Hid as Hid'.
  unfold checkbox_onChange, isSelected, truthy_str. rewrite Hid'.
  destruct checked; cbn [andb negb fieldValue].
  - split.
    + rewrite includes_app. cbn. rewrite String.eqb_refl. by rewrite orb_true_r.
    + intros Hne. destruct (negb (String.eqb other "")); [|done].
      rewrite includes_app. cbn.
      destruct (String.eqb_spec other id); [congruence|]. by rewrite !orb_false_r.
  - split.
    + apply includes_filter_same.
    + intros Hne. destruct (negb (String.eqb other "")); [|done].
      by apply includes_filter_other.
Qed.

(** X8.  A team member that has no identifier (neither [_id] nor [id], or
    empty ones) cannot be selected: its box is never checked and a change of
    it leaves the field as it is. *)
Theorem member_without_identifier_is_inert
    (member : TeamMember.t) (checked : bool) (value : option (list string)) :
  TeamMember._id member = None ∨ TeamMember._id member = Some "" →
  TeamMember.id member = None ∨ TeamMember.id member = Some "" →
  isSelected (member_id member) value = false
  ∧ checkbox_onChange (member_id member) checked value = value.
Proof.
  intros H_id Hid.
  assert (member_id member = "") as ->.
  { unfold member_id. by destruct H_id as [-> | ->], Hid as [-> | ->]. }
  unfold isSelected, checkbox_onChange. cbn. by rewrite andb_false_r.
Qed.

Lemma NoDup_filter_bool (f : string → bool) (l : list string) :
  NoDup l → NoDup (List.filter f l).
Proof.
  induction 1 as [|x l Hx Hl IH]; cbn; [constructor|].
  destruct (f x); [|done]. constructor; [|done].
  rewrite list_elem_of_In, filter_In. rewrite list_elem_of_In in Hx. tauto.
Qed.

Lemma handle_event_NoDup (ev : FormEvent) (st : ProjectModal.ModalState) :
  NoDup (fieldValue (ProjectFormInput.teamMemberIds (formValues st))) →
  NoDup (fieldValue (ProjectFormInput.teamMemberIds (formValues (handle_event ev st)))).
Proof.
  intros Hnd. destruct ev; try done. cbn.
  set (value := ProjectFormInput.teamMemberIds (formValues st)) in *.
  unfold checkbox_onChange, isSelected.
  destruct (truthy_str (member_id member)) eqn:Hid; cbn [andb negb]; [|done].
  destruct (includes (fieldValue value) (member_id member)) eqn:Hsel; cbn [andb negb fieldValue].
  - by apply NoDup_filter_bool.
  - apply NoDup_app. split; [done|]. split; [|apply NoDup_singleton].
    intros x Hx Hx'. apply list_elem_of_singleton in Hx'. subst x.
    apply list_elem_of_In, includes_In in Hx. congruence.
Qed.

(** X9.  Clicking check boxes never lists a team member twice: whatever the
    user does to the form, a selection without duplicates stays without
    duplicates, so the list sent from a new form names each member once. *)
Theorem team_selection_has_no_duplicates
    (evs : list FormEvent) (st : ProjectModal.ModalState) :
  NoDup (fieldValue (ProjectFormInput.teamMemberIds (formValues st))) →
  NoDup (fieldValue (ProjectFormInput.teamMemberIds (formValues (handle_events evs st)))).
Proof.
  revert st. induction evs as [|ev evs IH]; intros st Hst; [done|].
  cbn. apply IH. by apply handle_event_NoDup.
Qed.

(** *** Submission *)

Lemma createMutation_mutate_run {S} backend props data (s : S) :
  ∃ tail,
    createMutation_mutate backend props data s = (Ok tt, s, create_log data ++ tail)
    ∧ List.filter is_network_call tail = []
    ∧ ∀ f args, In (callback_ev f args) tail → onCreated props = Some f.
Proof.
  unfold createMutation_mutate, mutate, try_catch.
  unfold mbind at 1, eff_bind, bind.
  rewrite createMutation_mutationFn_run.
  destruct (post_answer _ _ _) as [response|e]; [destruct (nullish response)|].
  - eexists. split; [reflexivity|]. split; [done|]. intros f args [|[|[]]]; done.
  - unfold createMutation_onSuccess, toast_success, call, get_prop.
    unfold mbind, eff_bind, bind, emit, throw, mret, eff_ret, ret.
    destruct (onCreated props) as [cb|] eqn:Hcb.
    + destruct (nullish (prop response "data")).
      * eexists. split; [reflexivity|]. split; [done|].
        intros f args [|[|[]]]; done.
      * destruct (truthy (prop (prop response "data") "_id"));
          (eexists; split; [reflexivity|]; split; [done|]);
          intros f args [|[[= <- <-]|[]]]; done.
    + eexists. split; [reflexivity|]. split; [done|]. intros f args [|[]]; done.
  - eexists. split; [reflexivity|]. split; [done|]. intros f args [|[|[]]]; done.
Qed.

Lemma updateMutation_mutate_run {S} backend props id data (s : S) :
  ∃ tail,
    updateMutation_mutate backend props id data s = (Ok tt, s, update_log id data ++ tail)
    ∧ List.filter is_network_call tail = []
    ∧ ∀ f args, In (callback_ev f args) tail → onUpdated props = Some f.
Proof.
  unfold updateMutation_mutate, mutate, try_catch.
  unfold mbind at 1, eff_bind, bind. cbn [fst snd].
  rewrite updateMutation_mutationFn_run.
  destruct (patch_answer _ _ _) as [response|e]; [destruct (nullish response)|].
  - eexists. split; [reflexivity|]. split; [done|]. intros f args [|[|[]]]; done.
  - unfold updateMutation_onSuccess, call_if_defined, toast_success, call.
    unfold mbind, eff_bind, bind, emit, mret, eff_ret, ret.
    destruct (onUpdated props) as [cb|] eqn:Hcb.
    + eexists. split; [reflexivity|]. split; [done|].
      intros f args [|[[= <- <-]|[]]]; done.
    + eexists. split; [reflexivity|]. split; [done|]. intros f args [|[]]; done.
  - eexists. split; [reflexivity|]. split; [done|]. intros f args [|[|[]]]; done.
Qed.

Lemma filter_network_app_quiet (l tail : list Event) :
  List.filter is_network_call tail = [] →
  List.filter is_network_call (l ++ tail) = List.filter is_network_call l.
Proof. intros Ht. by rewrite List.filter_app, Ht, app_nil_r. Qed.

(** X10.  Submitting in edit mode, for a record that has an identifier,
    sends one request and no other: a PATCH to [/projects/<identifier>]
    carrying the formatted values, where the identifier is [id] when the
    record has a non-empty one and [_id] otherwise.  This holds however the
    backend answers. *)
Theorem edit_submission_patches_once
    (backend : Backend) (props : ProjectModalProps) (p : Project.t) (i : string)
    (values : ProjectFormValues.t) (st : ProjectModal.ModalState) :
  project props = Some p →
  isEditing props = true →
  i ≠ "" →
  Project.id p = Some i
  ∨ ((Project.id p = None ∨ Project.id p = Some "") ∧ Project._id p = Some i) →
  List.filter is_network_call (trace (onSubmit backend props values st))
  = [api_patch_ev ("/projects/" +:+ i) (JObj (formattedData (values_object values)))].
Proof.
  intros Hp He Hi Hid. apply String.eqb_neq in Hi as Hi'.
  assert (ostr_oor (Project.id p) (Project._id p) = Some i) as Hor.
  { unfold ostr_oor, truthy_ostr, truthy_str.
    destruct Hid as [-> | [[-> | ->] ->]]; [by rewrite Hi' | done | done]. }
  unfold onSubmit, console_log. rewrite run_emit, Hp, He, Hor.
  unfold truthy_str. rewrite Hi'. cbn [negb trace snd List.filter is_network_call].
  destruct (updateMutation_mutate_run backend props i (values_object values) st)
    as (tail & -> & Hq & _).
  cbn [trace snd]. by rewrite filter_network_app_quiet.
Qed.

(** X11.  Submitting when no record is being edited (no [project], or
    [isEditing] not set) sends one request and no other: a POST to
    [/projects] carrying the formatted values.  An [isEditing] flag without
    a record creates as well. *)
Theorem create_submission_posts_once
    (backend : Backend) (props : ProjectModalProps)
    (values : ProjectFormValues.t) (st : ProjectModal.ModalState) :
  project props = None ∨ isEditing props = false →
  List.filter is_network_call (trace (onSubmit backend props values st))
  = [api_post_ev "/projects" (JObj (formattedData (values_object values)))].
Proof.
  intros Hcreate. unfold onSubmit, console_log. rewrite run_emit.
  assert (match project props with
          | Some project =>
              if isEditing props
              then match ostr_oor (Project.id project) (Project._id project) with
                   | Some id =>
                       if truthy_str id
                       then updateMutation_mutate backend props id (values_object values)
                       else toast_error (JStr "Cannot update project: Missing project ID")
                   | None => toast_error (JStr "Cannot update project: Missing project ID")
                   end
              else createMutation_mutate backend props (values_object values)
          | None => createMutation_mutate backend props (values_object values)
          end = createMutation_mutate backend props (values_object values)) as ->.
  { destruct Hcreate as [-> | ->]; [done|]. by destruct (project props). }
  cbn [trace snd List.filter is_network_call].
  apply createMutation_mutate_network.
Qed.

Lemma onSubmit_run backend props values st :
  ∃ t,
    onSubmit backend props values st = (Ok tt, st, t)
    ∧ (length (List.filter is_network_call t) ≤ 1)%nat
    ∧ (∀ url, ¬ In (api_get_ev url) t)
    ∧ (∀ f args, In (callback_ev f args) t →
         onCreated props = Some f ∨ onUpdated props = Some f).
Proof.
  unfold onSubmit, console_log. setoid_rewrite run_emit.
  destruct (createMutation_mutate_run backend props (values_object values) st)
    as (ctail & Hc & Hcq & Hcc).
  assert (∃ t, createMutation_mutate backend props (values_object values) st = (Ok tt, st, t)
               ∧ (length (List.filter is_network_call t) ≤ 1)%nat
               ∧ (∀ url, ¬ In (api_get_ev url) t)
               ∧ (∀ f args, In (callback_ev f args) t → onCreated props = Some f))
    as (ct & Hct & Hclen & Hcget & Hccb).
  { eexists. split; [exact Hc|]. split; [by rewrite filter_network_app_quiet|].
    unfold create_log. cbn [app]. split.
    - intros url [|[|Hin]]; try done.
      assert (In (api_get_ev url) (List.filter is_network_call ctail)) as Hin'
        by by apply filter_In.
      by rewrite Hcq in Hin'.
    - intros f args [|[|Hin]]; try done. eauto. }
  destruct (project props) as [p|].
  2:{ rewrite Hct. eexists. split; [reflexivity|]. cbn. split; [done|]. split.
      - intros url [|Hin]; [done|]. by eapply Hcget.
      - intros f args [|Hin]; [done|]. left. by eapply Hccb. }
  destruct (isEditing props).
  2:{ rewrite Hct. eexists. split; [reflexivity|]. cbn. split; [done|]. split.
      - intros url [|Hin]; [done|]. by eapply Hcget.
      - intros f args [|Hin]; [done|]. left. by eapply Hccb. }
  destruct (ostr_oor (Project.id p) (Project._id p)) as [i|].
  2:{ eexists. split; [reflexivity|]. cbn. split; [lia|]. split.
      - intros url [|[|[]]]; done.
      - intros f args [|[|[]]]; done. }
  destruct (truthy_str i).
  2:{ eexists. split; [reflexivity|]. cbn. split; [lia|]. split.
      - intros url [|[|[]]]; done.
      - intros f args [|[|[]]]; done. }
  destruct (updateMutation_mutate_run backend props i (values_object values) st)
    as (utail & -> & Huq & Huc).
  eexists. split; [reflexivity|]. cbn. rewrite Huq.
  split; [done|]. split.
  - intros url [|[|[|Hin]]]; try done.
    assert (In (api_get_ev url) (List.filter is_network_call utail)) as Hin'
      by by apply filter_In.
    by rewrite Huq in Hin'.
  - intros f args [|[|[|Hin]]]; try done. right. by eapply Huc.
Qed.

Lemma form_handleSubmit_run backend props st :
  ∃ t,
    form_handleSubmit backend props st
    = (Ok tt,
       set_formErrors (match projectSchema (formValues st) with
                       | inl issues => issues
                       | inr _ => []
                       end) st,
       preventDefault_ev :: t)
    ∧ (length (List.filter is_network_call t) ≤ 1)%nat
    ∧ (∀ url, ¬ In (api_get_ev url) t)
    ∧ (∀ f args, In (callback_ev f args) t →
         onCreated props = Some f ∨ onUpdated props = Some f).
Proof.
  unfold form_handleSubmit. setoid_rewrite run_emit. setoid_rewrite run_get_state.
  destruct (projectSchema (formValues st)) as [issues|values].
  - exists []. split; [reflexivity|]. cbn. split; [lia|]. split; [by intros ? []|].
    by intros ? ? [].
  - setoid_rewrite run_modify.
    destruct (onSubmit_run backend props values (set_formErrors [] st))
      as (t & -> & Hlen & Hget & Hcb).
    exists t. done.
Qed.

(** X12.  A submission of the form sends at most one request to the
    backend, and never a read request, whatever the form holds and however
    the backend answers. *)
Theorem submission_sends_at_most_one_request
    (backend : Backend) (props : ProjectModalProps) (st : ProjectModal.ModalState) :
  (length (List.filter is_network_call (trace (form_handleSubmit backend props st))) ≤ 1)%nat
  ∧ ∀ url, ¬ In (api_get_ev url) (trace (form_handleSubmit backend props st)).
Proof.
  destruct (form_handleSubmit_run backend props st) as (t & -> & Hlen & Hget & _).
  cbn. split; [done|]. intros url [|Hin]; [done|]. by eapply Hget.
Qed.

(** X13.  The submit handler always returns, and it never alters what the
    form holds: after a submission, accepted or not, successful or not, the
    values are the ones the user left, and both toggles are as before; only
    the validation messages are replaced, by the issues of this submission. *)
Theorem submission_keeps_the_form
    (backend : Backend) (props : ProjectModalProps) (st : ProjectModal.ModalState) :
  let st' := final_state (form_handleSubmit backend props st) in
  outcome (form_handleSubmit backend props st) = Ok tt
  ∧ formValues st' = formValues st
  ∧ open st' = open st
  ∧ openTemplates st' = openTemplates st
  ∧ formErrors st' = match projectSchema (formValues st) with
                     | inl issues => issues
                     | inr _ => []
                     end.
Proof.
  destruct (form_handleSubmit_run backend props st) as (t & -> & _). done.
Qed.

(** X14.  The only functions of the caller that a submission invokes are
    [onCreated] and [onUpdated]; in particular the modal does not close
    itself by calling [onClose], not even after a success. *)
Theorem submission_invokes_only_result_callbacks
    (backend : Backend) (props : ProjectModalProps) (st : ProjectModal.ModalState)
    (f : Callback) (args : list jsval) :
  In (callback_ev f args) (trace (form_handleSubmit backend props st)) →
  onCreated props = Some f ∨ onUpdated props = Some f.
Proof.
  destruct (form_handleSubmit_run backend props st) as (t & -> & _ & _ & Hcb).
  cbn. intros [|Hin]; [done|]. by eapply Hcb.
Qed.

(** *** The request body *)

(** X15.  Formatting is idempotent: the body built from values that are
    already formatted is the same body. *)
Theorem formattedData_idempotent (data : gmap string jsval) :
  formattedData (formattedData data) = formattedData data.
Proof.
  apply map_eq. intros k.
  destruct (decide (k = "teamMemberIds")) as [->|Hk1];
    [|destruct (decide (k = "assigneeId")) as [->|Hk2]].
  - destruct (formattedData_teamMemberIds_array data) as [l Hl].
    unfold formattedData at 1. rewrite lookup_insert_eq, Hl. cbn.
    unfold field in Hl. destruct (formattedData data !! "teamMemberIds") eqn:Hlk.
    + cbn in Hl. by subst.
    + exfalso. revert Hlk. unfold formattedData. by rewrite lookup_insert_eq.
  - unfold formattedData at 1.
    rewrite lookup_insert_ne by done. rewrite lookup_insert_eq.
    assert (formattedData data !! "assigneeId"
            = Some (if strict_eq_str (field data "assigneeId") "none"
                    then JNull else field data "assigneeId")) as Hlk.
    { unfold formattedData. rewrite lookup_insert_ne by done. by rewrite lookup_insert_eq. }
    rewrite Hlk. unfold field at 1 2. rewrite Hlk. cbn.
    by destruct (strict_eq_str (field data "assigneeId") "none") eqn:Hs; [|rewrite Hs].
  - unfold formattedData at 1. by rewrite !lookup_insert_ne.
Qed.

Lemma values_object_teamMemberIds (v : ProjectFormValues.t) :
  field (values_object v) "teamMemberIds" = JArr (JStr <$> ProjectFormValues.teamMemberIds v).
Proof.
  unfold values_object, set_optional, field.
  destruct (ProjectFormValues.description v), (ProjectFormValues.assigneeId v),
    (ProjectFormValues.templateId v);
    repeat (rewrite lookup_insert_eq || (rewrite lookup_insert_ne by done));
    reflexivity.
Qed.

Lemma values_object_name_clientId (v : ProjectFormValues.t) :
  field (values_object v) "name" = JStr (ProjectFormValues.name v)
  ∧ field (values_object v) "clientId" = JStr (ProjectFormValues.clientId v).
Proof.
  unfold values_object, set_optional, field.
  destruct (ProjectFormValues.description v), (ProjectFormValues.assigneeId v),
    (ProjectFormValues.templateId v);
    split; repeat (rewrite lookup_insert_eq || (rewrite lookup_insert_ne by done));
    reflexivity.
Qed.

Lemma edit_mode_default_values_parts
    (props : ProjectModalProps) (p : Project.t) (Date_parse : string → Date) (now : Z) :
  project props = Some p →
  isEditing props = true →
  let dv := getDefaultValues props Date_parse now in
  ProjectFormValues.name dv = Project.name p
  ∧ ProjectFormValues.clientId dv = Project.clientId p
  ∧ ProjectFormValues.teamMemberIds dv = default [] (Project.teamMemberIds p)
  ∧ ProjectFormValues.assigneeId dv = Some (ostr_or (Project.assigneeId p) "none").
Proof.
  intros Hp He. cbv zeta. unfold getDefaultValues. rewrite Hp, He. cbn.
  rewrite !str_or_empty. by destruct (Project.teamMemberIds p).
Qed.

(** The body that the default values of a record give. *)
Lemma edit_defaults_body
    (props : ProjectModalProps) (p : Project.t) (Date_parse : string → Date) (now : Z) :
  project props = Some p →
  isEditing props = true →
  let body := formattedData (values_object (getDefaultValues props Date_parse now)) in
  field body "name" = JStr (Project.name p)
  ∧ field body "clientId" = JStr (Project.clientId p)
  ∧ field body "teamMemberIds" = JArr (JStr <$> default [] (Project.teamMemberIds p))
  ∧ field body "assigneeId"
    = match Project.assigneeId p with
      | Some a => if String.eqb a "" || String.eqb a "none" then JNull else JStr a
      | None => JNull
      end.
Proof.
  intros Hp He body. subst body.
  pose proof (edit_mode_default_values_parts props p Date_parse now Hp He)
    as (Hn & Hc & Htm & Has).
  split_and!.
  - rewrite formattedData_other_key by done.
    rewrite (proj1 (values_object_name_clientId _)). by rewrite Hn.
  - rewrite formattedData_other_key by done.
    rewrite (proj2 (values_object_name_clientId _)). by rewrite Hc.
  - unfold formattedData, field at 1. rewrite lookup_insert_eq.
    rewrite values_object_teamMemberIds, Htm. reflexivity.
  - unfold formattedData, field at 1.
    rewrite lookup_insert_ne by done. rewrite lookup_insert_eq.
    rewrite values_object_assigneeId, Has.
    destruct (Project.assigneeId p) as [a|]; cbn; [|done].
    unfold truthy_str. destruct (String.eqb_spec a ""); cbn; [done|].
    by destruct (String.eqb a "none").
Qed.

(** The request of a submission in edit mode, for a record with an
    identifier. *)
Lemma onSubmit_patches backend props p i values st :
  project props = Some p →
  isEditing props = true →
  ostr_oor (Project.id p) (Project._id p) = Some i →
  i ≠ "" →
  List.filter is_network_call (trace (onSubmit backend props values st))
  = [api_patch_ev ("/projects/" +:+ i) (JObj (formattedData (values_object values)))].
Proof.
  intros Hp He Hor Hi. apply String.eqb_neq in Hi.
  unfold onSubmit, console_log. rewrite run_emit, Hp, He, Hor.
  unfold truthy_str. rewrite Hi. cbn [negb trace snd List.filter is_network_call].
  destruct (updateMutation_mutate_run backend props i (values_object values) st)
    as (tail & -> & Hq & _).
  cbn [trace snd]. by rewrite filter_network_app_quiet.
Qed.

(** X16.  Opening a record for editing and submitting the form untouched
    sends the record's own data back.  For a record that has a name, a
    client, an identifier and a start date the form can show, the form as
    mounted passes validation, and its submission sends one request, a PATCH
    to [/projects/<identifier>], whose body carries the name, the client and
    the team members of the record, and its assignee, with [null] when the
    record has no assignee (none, an empty one, or the text "none"). *)
Theorem untouched_edit_sends_the_record_back
    (backend : Backend) (props : ProjectModalProps) (p : Project.t)
    (Date_parse : string → Date) (now : Z) (i : string) (t : Z) :
  project props = Some p →
  isEditing props = true →
  Project.name p ≠ "" →
  Project.clientId p ≠ "" →
  date_or_else Date_parse (Project.startDate p)
    (date_or_else Date_parse (Project.dueDate p) (Some now)) = Some t →
  i ≠ "" →
  Project.id p = Some i
  ∨ ((Project.id p = None ∨ Project.id p = Some "") ∧ Project._id p = Some i) →
  ∃ body,
    List.filter is_network_call
      (trace (form_handleSubmit backend props (mount props Date_parse now)))
    = [api_patch_ev ("/projects/" +:+ i) (JObj body)]
    ∧ field body "name" = JStr (Project.name p)
    ∧ field body "clientId" = JStr (Project.clientId p)
    ∧ field body "teamMemberIds" = JArr (JStr <$> default [] (Project.teamMemberIds p))
    ∧ field body "assigneeId"
      = match Project.assigneeId p with
        | Some a => if String.eqb a "" || String.eqb a "none" then JNull else JStr a
        | None => JNull
        end.
Proof.
  intros Hp He Hname Hclient Hdate Hi Hid.
  pose proof (edit_mode_default_values_parts props p Date_parse now Hp He)
    as (Hn & Hc & _ & _).
  assert (ProjectFormValues.startDate (getDefaultValues props Date_parse now) = Some t)
    as Hsd.
  { unfold getDefaultValues. rewrite Hp, He. exact Hdate. }
  assert (ostr_oor (Project.id p) (Project._id p) = Some i) as Hor.
  { apply String.eqb_neq in Hi. unfold ostr_oor, truthy_ostr, truthy_str.
    destruct Hid as [-> | [[-> | ->] ->]]; [by rewrite Hi | done | done]. }
  assert (projectSchema (as_input (getDefaultValues props Date_parse now))
          = inr (getDefaultValues props Date_parse now)) as Hschema.
  { rewrite projectSchema_cases. cbv zeta.
    destruct (getDefaultValues props Date_parse now) as [n d c a tm r sd tp status].
    cbn in Hn, Hc, Hsd |- *. subst n c sd.
    apply String.eqb_neq in Hname, Hclient. by rewrite Hname, Hclient. }
  exists (formattedData (values_object (getDefaultValues props Date_parse now))).
  split; [|by apply edit_defaults_body].
  unfold form_handleSubmit, mount. rewrite run_emit, run_get_state.
  cbn [formValues]. rewrite Hschema, run_modify.
  cbn [trace snd List.filter is_network_call].
  by apply (onSubmit_patches _ _ p).
Qed.

(** *** Reference data and selector options *)

Lemma queryFn_run {S} (q : ReadFetch) (backend : Backend) (s : S) :
  queryFn q backend s
  = match get_answer backend (endpoint q) with
    | Ok response =>
        if nullish response
        then (Ok (JArr []), s,
              [api_get_ev (endpoint q); console_error_ev (error_label q) TypeError])
        else (Ok (js_or (prop response "data") (JArr [])), s, [api_get_ev (endpoint q)])
    | Thrown e =>
        (Ok (JArr []), s, [api_get_ev (endpoint q); console_error_ev (error_label q) e])
    end.
Proof.
  destruct q; unfold queryFn, clients_queryFn, teamMembers_queryFn, templates_queryFn,
    try_catch, api_get, get_prop, console_error;
    unfold mbind, eff_bind, bind, emit, settle, throw, mret, eff_ret, ret; cbn [endpoint];
    (destruct (get_answer backend _) as [response|e];
     [destruct (nullish response)|]); reflexivity.
Qed.

(** A query function is its request followed by the handling of the
    answer. *)
Lemma queryFn_resume_run {S} (q : ReadFetch) (backend : Backend) (s : S) :
  queryFn q backend s
  = (emit (api_get_ev (endpoint q));;
     queryFn_resume q (get_answer backend (endpoint q))) s.
Proof.
  destruct q; unfold queryFn, clients_queryFn, teamMembers_queryFn, templates_queryFn,
    queryFn_resume, try_catch, api_get, get_prop, console_error;
    unfold mbind, eff_bind, bind, emit, settle, throw, mret, eff_ret, ret; cbn [endpoint];
    (destruct (get_answer backend _) as [response|e];
     [destruct (nullish response)|]); reflexivity.
Qed.

Lemma queryFn_resume_outcome {S} (q : ReadFetch) (backend : Backend) (s : S) :
  ∃ v t,
    queryFn_resume q (get_answer backend (endpoint q)) s = (Ok v, s, t)
    ∧ outcome (queryFn q backend s) = Ok v.
Proof.
  rewrite queryFn_resume_run.
  unfold queryFn_resume, try_catch, get_prop, console_error.
  unfold mbind, eff_bind, bind, emit, settle, throw, mret, eff_ret, ret.
  destruct (get_answer backend (endpoint q)) as [response|e];
    [destruct (nullish response)|]; eauto.
Qed.

(** The data after the answers in [arrival] have been handled: the result of
    its query function for a query that has settled, whatever the order. *)
Lemma settle_queries_run {S} (backend : Backend) (arrival : list ReadFetch)
    (data : QueryData) (s : S) :
  ∃ data' t,
    settle_queries backend arrival data s = (Ok data', s, t)
    ∧ ∀ q, Ok (data' q)
           = if bool_decide (q ∈ arrival) then outcome (queryFn q backend s)
             else Ok (data q).
Proof.
  revert data. induction arrival as [|q0 rest IH]; intros data.
  - exists data, []. split; [reflexivity|]. intros q. by rewrite bool_decide_eq_false_2
      by apply not_elem_of_nil.
  - destruct (queryFn_resume_outcome q0 backend s) as (v & t0 & Hres & Hout).
    destruct (IH (set_data q0 v data)) as (data' & t & Hrun & Hdata).
    exists data', (t0 ++ t). split.
    + cbn [settle_queries]. unfold mbind, eff_bind, bind. by rewrite Hres, Hrun.
    + intros q. rewrite Hdata.
      destruct (decide (q ∈ rest)) as [Hin|Hnin].
      * rewrite !bool_decide_eq_true_2; [done | by right | done].
      * rewrite (bool_decide_eq_false_2 _ Hnin). unfold set_data.
        destruct (decide (q = q0)) as [->|Hne].
        -- rewrite !bool_decide_eq_true_2; [by rewrite Hout | by left | done].
        -- rewrite !bool_decide_eq_false_2; [done | | done].
           intros [?|?]%elem_of_cons; done.
Qed.

Lemma load_reference_data_in_run {S} (arrival : list ReadFetch) (backend : Backend) (s : S) :
  Clients ∈ arrival → TeamMembers ∈ arrival → Templates ∈ arrival →
  ∃ t c m p,
    load_reference_data_in arrival backend s
    = (Ok (ensure_array c, ensure_array m, ensure_array p), s, t)
    ∧ outcome (queryFn Clients backend s) = Ok c
    ∧ outcome (queryFn TeamMembers backend s) = Ok m
    ∧ outcome (queryFn Templates backend s) = Ok p.
Proof.
  intros Hc Hm Hp.
  destruct (settle_queries_run backend arrival (λ _, JUndefined) s)
    as (data & t & Hrun & Hdata).
  unfold load_reference_data_in.
  unfold mbind, eff_bind, bind, emit, mret, eff_ret, ret. rewrite Hrun.
  eexists _, (data Clients), (data TeamMembers), (data Templates).
  split; [reflexivity|].
  pose proof (Hdata Clients) as H1. pose proof (Hdata TeamMembers) as H2.
  pose proof (Hdata Templates) as H3.
  rewrite bool_decide_eq_true_2 in H1, H2, H3 by done. done.
Qed.

Lemma load_reference_data_run {S} (backend : Backend) (s : S) :
  ∃ t c m p,
    load_reference_data backend s = (Ok (ensure_array c, ensure_array m, ensure_array p), s, t)
    ∧ outcome (queryFn Clients backend s) = Ok c
    ∧ outcome (queryFn TeamMembers backend s) = Ok m
    ∧ outcome (queryFn Templates backend s) = Ok p.
Proof.
  apply load_reference_data_in_run; set_solver.
Qed.

(** The order in which the answers arrive does not matter to what the
    component renders with. *)
Lemma arrival_order_is_immaterial {S} (arrival : list ReadFetch) (backend : Backend) (s : S) :
  Clients ∈ arrival → TeamMembers ∈ arrival → Templates ∈ arrival →
  outcome (load_reference_data_in arrival backend s)
  = outcome (load_reference_data backend s).
Proof.
  intros Hc Hm Hp.
  destruct (load_reference_data_in_run arrival backend s Hc Hm Hp)
    as (t & c & m & p & -> & Hc1 & Hm1 & Hp1).
  destruct (load_reference_data_run backend s) as (t' & c' & m' & p' & -> & Hc2 & Hm2 & Hp2).
  cbn. congruence.
Qed.

(** Also while answers are outstanding, the component renders with three
    arrays. *)
Lemma reference_data_are_arrays_while_loading {S} (arrival : list ReadFetch)
    (backend : Backend) (s : S) :
  ∃ clients teamMembers templates,
    outcome (load_reference_data_in arrival backend s)
    = Ok (JArr clients, JArr teamMembers, JArr templates).
Proof.
  destruct (settle_queries_run backend arrival (λ _, JUndefined) s)
    as (data & t & Hrun & _).
  unfold load_reference_data_in.
  unfold mbind, eff_bind, bind, emit, mret, eff_ret, ret. rewrite Hrun. cbn.
  unfold ensure_array.
  destruct (data Clients), (data TeamMembers), (data Templates); cbn; eauto.
Qed.

(** The requests of the three queries are out before anything else
    happens. *)
Lemma load_reference_data_requests_first {S} (arrival : list ReadFetch)
    (backend : Backend) (s : S) :
  ∃ rest,
    trace (load_reference_data_in arrival backend s)
    = api_get_ev "/clients" :: api_get_ev "/team-members" :: api_get_ev "/templates" :: rest
    ∧ List.filter is_network_call rest = [].
Proof.
  unfold load_reference_data_in.
  assert (∀ data, List.filter is_network_call
                    (trace (settle_queries backend arrival data s)) = []) as Hquiet.
  { induction arrival as [|q0 rest IH]; intros data; [done|].
    destruct (queryFn_resume_outcome q0 backend s) as (v & t0 & Hres & _).
    cbn [settle_queries]. unfold mbind, eff_bind, bind. rewrite Hres.
    specialize (IH (set_data q0 v data)).
    destruct (settle_queries backend rest (set_data q0 v data) s) as [[r s1] t1].
    cbn in IH |- *. rewrite List.filter_app, IH, app_nil_r.
    revert Hres. unfold queryFn_resume, try_catch, get_prop, console_error.
    unfold mbind, eff_bind, bind, emit, settle, throw, mret, eff_ret, ret.
    destruct (get_answer backend (endpoint q0)) as [response|e];
      [destruct (nullish response)|]; intros [= _ <-]; reflexivity. }
  unfold mbind, eff_bind, bind, emit, mret, eff_ret, ret.
  specialize (Hquiet (λ _, JUndefined)).
  destruct (settle_queries backend arrival (λ _, JUndefined) s) as [[[d|e] s1] t1];
    cbn in Hquiet |- *; eexists; (split; [reflexivity|]); by rewrite ?app_nil_r.
Qed.

Lemma ensure_array_is_array (v : jsval) : ∃ l, ensure_array v = JArr l.
Proof. unfold ensure_array. destruct v; cbn; eauto. Qed.

(** X17.  Whatever the three endpoints answer (a failure, a response without
    data, data that is not a list), loading the reference data never throws
    and hands three arrays to the selectors. *)
Theorem reference_data_are_always_arrays {S} (backend : Backend) (s : S) :
  ∃ clients teamMembers templates,
    outcome (load_reference_data backend s)
    = Ok (JArr clients, JArr teamMembers, JArr templates).
Proof.
  destruct (load_reference_data_run backend s) as (t & c & m & p & -> & _).
  destruct (ensure_array_is_array c) as [lc ->].
  destruct (ensure_array_is_array m) as [lm ->].
  destruct (ensure_array_is_array p) as [lp ->].
  by exists lc, lm, lp.
Qed.

(** X18.  When the team-member request fails, whatever the other two do, the
    assignee selector offers the value "none" and no other. *)
Theorem failed_team_member_fetch_leaves_only_none
    {S} (backend : Backend) (error : jsval) (s : S)
    (clients teamMembers templates : jsval) :
  get_answer backend "/team-members" = Thrown error →
  outcome (load_reference_data backend s) = Ok (clients, teamMembers, templates) →
  assignee_options (array_items teamMembers) = Ok [JStr "none"].
Proof.
  intros Hfail Hload.
  destruct (load_reference_data_run backend s) as (t & c & m & p & Hrun & _ & Hm & _).
  rewrite Hrun in Hload. injection Hload as _ <- _.
  rewrite (queryFn_run TeamMembers) in Hm. cbn [endpoint] in Hm. rewrite Hfail in Hm.
  injection Hm as <-. reflexivity.
Qed.

(** X19.  When the client request fails, the client selector offers the
    single value "no-clients".  That value is not empty: a form that holds
    it, with a name and a valid start date, passes validation with
    "no-clients" as its client reference. *)
Theorem failed_client_fetch_offers_a_placeholder_that_validates
    {S} (backend : Backend) (error : jsval) (s : S)
    (clients teamMembers templates : jsval) (input : ProjectFormInput.t) (t : Z) :
  get_answer backend "/clients" = Thrown error →
  outcome (load_reference_data backend s) = Ok (clients, teamMembers, templates) →
  ProjectFormInput.name input ≠ "" →
  ProjectFormInput.startDate input = Some (Some t) →
  ProjectFormInput.clientId input = "no-clients" →
  client_options (array_items clients) = Ok [JStr "no-clients"]
  ∧ ∃ v, projectSchema input = inr v ∧ ProjectFormValues.clientId v = "no-clients".
Proof.
  intros Hfail Hload Hn Hd Hc. split.
  - destruct (load_reference_data_run backend s) as (tr & c & m & p & Hrun & Hcl & _).
    rewrite Hrun in Hload. injection Hload as <- _ _.
    rewrite (queryFn_run Clients) in Hcl. cbn [endpoint] in Hcl. rewrite Hfail in Hcl.
    injection Hcl as <-. reflexivity.
  - rewrite projectSchema_cases. cbv zeta.
    apply String.eqb_neq in Hn. rewrite Hn, Hd, Hc. cbn. eauto.
Qed.

(* ===================================================================== *)
(** ** Further properties of the hand-validated modal *)
(* ===================================================================== *)

Module LegacyFacts.
Import LegacyProjectModal LegacyProjectModal.CreateProjectFormData.

(** *** Loading the reference data *)

(** X20.  The two lists are loaded together or not at all: when either
    request fails, neither list is set, also not the one whose request
    succeeded; the error is logged once, the loading indicator is switched
    off and the form data are untouched. *)
Theorem failed_load_sets_neither_list
    (fetchClients fetchTeamMembers : Outcome (list Named)) (teamMembers_first : bool)
    (st : ModalState) :
  (∃ e, fetchClients = Thrown e) ∨ (∃ e, fetchTeamMembers = Thrown e) →
  let r := loadData fetchClients fetchTeamMembers teamMembers_first st in
  outcome r = Ok tt
  ∧ clients (final_state r) = clients st
  ∧ teamMembers (final_state r) = teamMembers st
  ∧ loading (final_state r) = false
  ∧ formData (final_state r) = formData st
  ∧ ∃ e, trace r = [console_error_ev "Failed to load data:" e].
Proof.
  intros Hfail r. subst r. unfold loadData, try_finally, try_catch, console_error.
  rewrite run_modify. unfold mbind, eff_bind, bind, settle, modify, emit.
  destruct fetchClients as [cs|e1], fetchTeamMembers as [ms|e2]; cbn.
  - destruct Hfail as [[e H]|[e H]]; done.
  - split_and!; eauto.
  - split_and!; eauto.
  - split_and!; eauto.
Qed.

(** When both requests succeed, the two lists are the ones received and the
    loading indicator is switched off; nothing is logged. *)
Lemma successful_load_sets_both_lists
    (cs ms : list Named) (teamMembers_first : bool) (st : ModalState) :
  let r := loadData (Ok cs) (Ok ms) teamMembers_first st in
  outcome r = Ok tt
  ∧ clients (final_state r) = cs
  ∧ teamMembers (final_state r) = ms
  ∧ loading (final_state r) = false
  ∧ formData (final_state r) = formData st
  ∧ trace r = [].
Proof. done. Qed.

(** *** Submission *)

(** X21.  A name made of white space only passes the [required] check of
    the browser but not the handler: the click on the submit button reaches
    [handleSubmit], which shows "Project name is required" and sends
    nothing. *)
Theorem blank_name_is_rejected_by_the_handler
    (backend : Backend) (onClose : Callback) (st : ModalState) :
  loading st = false →
  submitting st = false →
  name (formData st) ≠ "" →
  trim (name (formData st)) = "" →
  clientId (formData st) ≠ "" →
  In (clientId (formData st)) (id <$> clients st) →
  repeating (formData st) = false →
  click_submit backend onClose st
  = (Ok tt, st, [preventDefault_ev; toast_error_ev (JStr "Project name is required")]).
Proof.
  intros Hl Hs Hn Ht Hc Hin Hr.
  unfold click_submit. rewrite run_get_state, Hl, Hs.
  assert (forallb control_valid (render_controls st) = true) as ->.
  { unfold render_controls. rewrite Hr. cbn.
    unfold truthy_str. apply String.eqb_neq in Hn, Hc. rewrite Hn. cbn.
    unfold select_value. cbn.
    assert (existsb (String.eqb (clientId (formData st))) (id <$> clients st) = true) as ->.
    { apply existsb_exists. exists (clientId (formData st)).
      split; [done | apply String.eqb_refl]. }
    rewrite orb_true_r. by rewrite Hc. }
  by apply legacy_handleSubmit_blank_name.
Qed.

(** X22.  The modal closes exactly when the creation succeeded: [onClose] is
    invoked, once and without argument, when the form passes the checks of
    the handler and the backend accepts the project, and in no other case.
    The form data are never altered, and no request is in flight at the
    end. *)
Theorem legacy_modal_closes_exactly_on_success
    (backend : Backend) (onClose : Callback) (st : ModalState) :
  let r := handleSubmit backend onClose st in
  let accepted :=
    trim (name (formData st)) ≠ "" ∧ clientId (formData st) ≠ ""
    ∧ ∃ v, createProject_answer backend (JObj (newProject (formData st))) = Ok v in
  outcome r = Ok tt
  ∧ formData (final_state r) = formData st
  ∧ (accepted → List.filter is_callback (trace r) = [callback_ev onClose []]
                ∧ submitting (final_state r) = false)
  ∧ (¬ accepted → List.filter is_callback (trace r) = []).
Proof.
  cbv zeta.
  destruct (decide (trim (name (formData st)) = "")) as [Hn|Hn].
  { rewrite legacy_handleSubmit_blank_name by done. split_and!; try done.
    intros (? & _); done. }
  destruct (decide (clientId (formData st) = "")) as [Hc|Hc].
  { rewrite legacy_handleSubmit_no_client by done. split_and!; try done.
    intros (_ & ? & _); done. }
  rewrite legacy_handleSubmit_run by done. cbv zeta.
  destruct (createProject_answer backend _) as [v|e] eqn:Ha.
  - split_and!; try done. intros Hna. exfalso. apply Hna. eauto.
  - split_and!; try done. by intros (_ & _ & v & ?).
Qed.

Lemma newProject_fields (fd : CreateProjectFormData.t) :
  field (newProject fd) "name" = JStr (name fd)
  ∧ field (newProject fd) "clientId" = JStr (clientId fd)
  ∧ field (newProject fd) "repeating" = JBool (repeating fd)
  ∧ field (newProject fd) "dueDate" = JStr (dueDate fd)
  ∧ field (newProject fd) "status" = JStr "Not Started"
  ∧ field (newProject fd) "frequency"
    = match frequency fd with Some f => JStr f | None => JUndefined end.
Proof.
  unfold newProject, formData_object, field.
  destruct (frequency fd); split_and!;
    repeat (rewrite lookup_insert_eq || (rewrite lookup_insert_ne by done));
    reflexivity.
Qed.

(** X23.  A repeating project switched back to a one-off keeps the frequency
    chosen before: the select is no longer rendered, so nothing stops the
    submission, and the project is sent as not repeating, with that
    frequency. *)
Theorem one_off_project_keeps_the_chosen_frequency
    (backend : Backend) (onClose : Callback) (st : ModalState) (f : string) :
  frequency (formData st) = Some f →
  trim (name (formData st)) ≠ "" →
  clientId (formData st) ≠ "" →
  let st' := handleRepeatingChange false st in
  ∃ body,
    List.filter is_network_call (trace (handleSubmit backend onClose st'))
    = [createProject_ev (JObj body)]
    ∧ field body "repeating" = JBool false
    ∧ field body "frequency" = JStr f
    ∧ ¬ In "frequency" (control_name <$> render_controls st').
Proof.
  intros Hf Hn Hc st'.
  exists (newProject (formData st')). split_and!.
  - rewrite legacy_handleSubmit_run by done. cbv zeta.
    by destruct (createProject_answer backend _).
  - by rewrite (proj1 (proj2 (proj2 (newProject_fields _)))).
  - rewrite (proj2 (proj2 (proj2 (proj2 (proj2 (newProject_fields _)))))).
    subst st'. cbn. by rewrite Hf.
  - subst st'. cbn. intros [|[|[|[|[|[]]]]]]; done.
Qed.

(** *** The multiple select *)

Lemma includes_filter (f : string → bool) (l : list string) (o : string) :
  includes (List.filter f l) o = includes l o && f o.
Proof.
  unfold includes. induction l as [|x l IH]; [done|]. cbn.
  destruct (f x) eqn:Hfx; cbn; rewrite IH.
  - destruct (String.eqb_spec o x) as [->|]; cbn; [by rewrite Hfx | done].
  - destruct (String.eqb_spec o x) as [->|]; cbn; [by rewrite Hfx, andb_false_r | done].
Qed.

(** The selection after a ctrl-click on [member]: the options, in their
    order, that were selected before, [member] being toggled. *)
Lemma ctrl_click_selection (member : string) (st : ModalState) :
  teamMemberIds (formData (ctrl_click_option member st))
  = List.filter
      (λ o, if String.eqb o member
            then negb (includes (teamMemberIds (formData st)) member)
            else includes (teamMemberIds (formData st)) o)
      (id <$> teamMembers st).
Proof.
  unfold ctrl_click_option, selectedOptions. cbn.
  apply filter_ext. intros o.
  fold (includes (teamMemberIds (formData st)) member).
  destruct (includes (teamMemberIds (formData st)) member) eqn:Hsel.
  - fold (includes (List.filter (λ v, negb (String.eqb v member))
                      (teamMemberIds (formData st))) o).
    rewrite includes_filter. destruct (String.eqb o member); cbn; [apply andb_false_r|].
    apply andb_true_r.
  - fold (includes (teamMemberIds (formData st) ++ [member]) o).
    rewrite includes_app. cbn. destruct (String.eqb_spec o member) as [->|]; cbn.
    + apply orb_true_r.
    + by rewrite !orb_false_r.
Qed.

(** X24.  The selection made in the multiple select does not depend on the
    order of the clicks: ctrl-clicking two options in one order or the other
    leaves the same list. *)
Theorem ctrl_clicks_commute (a b : string) (st : ModalState) :
  In a (id <$> teamMembers st) →
  In b (id <$> teamMembers st) →
  teamMemberIds (formData (ctrl_click_option b (ctrl_click_option a st)))
  = teamMemberIds (formData (ctrl_click_option a (ctrl_click_option b st))).
Proof.
  intros Ha Hb.
  rewrite (ctrl_click_selection b), (ctrl_click_selection a (ctrl_click_option b st)).
  change (teamMembers (ctrl_click_option a st)) with (teamMembers st).
  change (teamMembers (ctrl_click_option b st)) with (teamMembers st).
  rewrite !ctrl_click_selection.
  apply filter_ext_in. intros o Ho.
  rewrite !includes_filter.
  apply includes_In in Ha, Hb, Ho. rewrite Ha, Hb, Ho. cbn [andb].
  destruct (String.eqb_spec a b) as [->|Hab].
  - rewrite String.eqb_refl. by destruct (String.eqb o b).
  - destruct (String.eqb_spec b a) as [|_]; [congruence|].
    destruct (String.eqb_spec o b) as [?|?], (String.eqb_spec o a) as [?|?];
      congruence.
Qed.

(** The list kept by the multiple select is always a sub-list of the
    options, in the order of the options. *)
Lemma selection_follows_option_order (member : string) (st : ModalState) :
  sublist (teamMemberIds (formData (ctrl_click_option member st)))
          (id <$> teamMembers st).
Proof.
  rewrite ctrl_click_selection.
  induction (id <$> teamMembers st) as [|x l IH]; cbn; [done|].
  match goal with |- context [if ?c then _ else _] => destruct c end.
  - by apply sublist_skip.
  - by apply sublist_cons.
Qed.

(** *** The day picker and the request *)

Lemma handle_event_frame (format : Z → string → string) (ev : FormEvent) (st : ModalState) :
  clients (handle_event format ev st) = clients st
  ∧ loading (handle_event format ev st) = loading st
  ∧ submitting (handle_event format ev st) = submitting st.
Proof. destruct ev as [n v|b|m|[d|]]; done. Qed.

Lemma handle_events_frame (format : Z → string → string) (evs : list FormEvent)
    (st : ModalState) :
  clients (handle_events format evs st) = clients st
  ∧ loading (handle_events format evs st) = loading st
  ∧ submitting (handle_events format evs st) = submitting st.
Proof.
  revert st. induction evs as [|ev evs IH]; intros st; [done|].
  change (handle_events format (ev :: evs) st)
    with (handle_events format evs (handle_event format ev st)).
  destruct (IH (handle_event format ev st)) as (-> & -> & ->).
  apply handle_event_frame.
Qed.

Lemma handle_events_date (format : Z → string → string) (evs : list FormEvent)
    (st : ModalState) (d : Z) :
  date st = Some d →
  dueDate (formData st) = format d "yyyy-MM-dd" →
  date (handle_events format evs st) = Some (last_picked d evs)
  ∧ dueDate (formData (handle_events format evs st))
    = format (last_picked d evs) "yyyy-MM-dd".
Proof.
  revert st d. induction evs as [|ev evs IH]; intros st d Hd Hdue; [done|].
  change (handle_events format (ev :: evs) st)
    with (handle_events format evs (handle_event format ev st)).
  change (last_picked d (ev :: evs))
    with (last_picked (match ev with DateChange (Some x) => x | _ => d end) evs).
  destruct ev as [n v|b|m|[x|]]; apply IH; done.
Qed.

(** X25.  The due date of the request follows the day picker: whatever the
    user does after the modal is mounted, the [dueDate] that a submission
    sends is the formatted last day picked (the day of mounting when none
    was picked; clearing the picked day changes nothing). *)
Theorem due_date_is_the_last_day_picked
    (format : Z → string → string) (now : Z) (evs : list FormEvent) :
  let st := handle_events format evs (mount format now) in
  date st = Some (last_picked now evs)
  ∧ field (newProject (formData st)) "dueDate"
    = JStr (format (last_picked now evs) "yyyy-MM-dd").
Proof.
  cbv zeta.
  destruct (handle_events_date format evs (mount format now) now eq_refl eq_refl)
    as [Hd Hdue].
  split; [done|].
  rewrite (proj1 (proj2 (proj2 (proj2 (newProject_fields _))))). by rewrite Hdue.
Qed.

Lemma no_client_no_valid_form (st : ModalState) :
  clients st = [] → forallb control_valid (render_controls st) = false.
Proof.
  intros Hcl. unfold render_controls. rewrite Hcl. cbn.
  unfold select_value at 1. cbn.
  destruct (String.eqb_spec (clientId (formData st)) "") as [->|]; cbn;
    by rewrite andb_false_r.
Qed.

(** X26.  When the reference data fail to load, no project can be created
    from this modal: the client select then has its placeholder as only
    option, so, whatever the user enters afterwards, a click on the submit
    button is stopped by the [required] check and sets off nothing. *)
Theorem failed_load_blocks_submission
    (backend : Backend) (onClose : Callback)
    (fetchClients fetchTeamMembers : Outcome (list Named)) (teamMembers_first : bool)
    (format : Z → string → string) (now : Z) (evs : list FormEvent) :
  (∃ e, fetchClients = Thrown e) ∨ (∃ e, fetchTeamMembers = Thrown e) →
  let st :=
    handle_events format evs
      (final_state (loadData fetchClients fetchTeamMembers teamMembers_first
                      (mount format now))) in
  click_submit backend onClose st = (Ok tt, st, []).
Proof.
  intros Hfail st.
  assert (clients st = [] ∧ loading st = false ∧ submitting st = false)
    as (Hcl & Hl & Hs).
  { subst st.
    destruct (handle_events_frame format evs
                (final_state (loadData fetchClients fetchTeamMembers teamMembers_first
                                (mount format now)))) as (-> & -> & ->).
    destruct fetchClients as [cs|e1], fetchTeamMembers as [ms|e2]; try done.
    destruct Hfail as [[e H]|[e H]]; done. }
  unfold click_submit. rewrite run_get_state, Hl, Hs.
  by rewrite no_client_no_valid_form.
Qed.

(** What a submission of this modal sends: the name exactly as typed (the
    white space around it is looked at, not removed), and always the status
    "Not Started". *)
Lemma legacy_request_carries_the_typed_name
    (backend : Backend) (onClose : Callback) (st : ModalState) :
  trim (name (formData st)) ≠ "" →
  clientId (formData st) ≠ "" →
  ∃ body,
    List.filter is_network_call (trace (handleSubmit backend onClose st))
    = [createProject_ev (JObj body)]
    ∧ field body "name" = JStr (name (formData st))
    ∧ field body "clientId" = JStr (clientId (formData st))
    ∧ field body "status" = JStr "Not Started".
Proof.
  intros Hn Hc. exists (newProject (formData st)).
  destruct (newProject_fields (formData st)) as (Hname & Hclient & _ & _ & Hstatus & _).
  split_and!; try done.
  rewrite legacy_handleSubmit_run by done. cbv zeta.
  by destruct (createProject_answer backend _).
Qed.

End LegacyFacts.

(* ===================================================================== *)
(** ** Further properties of the pagination links *)
(* ===================================================================== *)

Lemma previous_next_props_onClick (p : PaginationLinkProps) (label text : string) :
  (<["children" := AStr text]> (props p ∪ {[ "aria-label" := AStr label ]}))
    !! "onClick"
  = props p !! "onClick".
Proof.
  rewrite lookup_insert_ne by done. rewrite lookup_union.
  rewrite lookup_singleton_ne by done. by destruct (props p !! "onClick").
Qed.

(** X28.  The previous and the next link react to a click as a plain link
    with the same props does: [disabled] and the click handler of the caller
    are handed on.  Their [aria-label] is the one of the caller when there
    is one, and "Go to previous page" or "Go to next page" otherwise. *)
Theorem previous_and_next_behave_like_links
    (buttonVariants : string → string → string) (cn : list (option string) → string)
    (p : PaginationLinkProps) :
  click (PaginationPrevious buttonVariants cn p) = click (PaginationLink buttonVariants cn p)
  ∧ click (PaginationNext buttonVariants cn p) = click (PaginationLink buttonVariants cn p)
  ∧ PaginationPrevious buttonVariants cn p !! "aria-label"
    = Some (Passed (default (AStr "Go to previous page") (props p !! "aria-label")))
  ∧ PaginationNext buttonVariants cn p !! "aria-label"
    = Some (Passed (default (AStr "Go to next page") (props p !! "aria-label"))).
Proof.
  split_and!.
  - unfold click, PaginationPrevious. rewrite !PaginationLink_onClick. cbn [props disabled].
    by rewrite previous_next_props_onClick.
  - unfold click, PaginationNext. rewrite !PaginationLink_onClick. cbn [props disabled].
    by rewrite previous_next_props_onClick.
  - unfold PaginationPrevious, PaginationLink. cbv zeta. cbn [props].
    rewrite lookup_union, lookup_fmap. rewrite lookup_insert_ne by done.
    rewrite lookup_union, lookup_singleton_eq.
    rewrite !lookup_insert_ne by done. rewrite lookup_empty.
    by destruct (props p !! "aria-label").
  - unfold PaginationNext, PaginationLink. cbv zeta. cbn [props].
    rewrite lookup_union, lookup_fmap. rewrite lookup_insert_ne by done.
    rewrite lookup_union, lookup_singleton_eq.
    rewrite !lookup_insert_ne by done. rewrite lookup_empty.
    by destruct (props p !! "aria-label").
Qed.

(* ===================================================================== *)
(** ** The request interceptor *)
(* ===================================================================== *)

(** X29.  The interceptor touches the [Authorization] header only: with a
    non-empty stored token the request carries [Bearer <token>] there, and
    every other header and setting is as configured; without a token (none
    stored, or an empty one) the request is left as it is. *)
Theorem interceptor_sets_only_the_authorization_header
    (token : option string) (config : RequestConfig) (k : string) :
  k ≠ "Authorization" →
  headers (request_interceptor token config) !! k = headers config !! k
  ∧ baseURL (request_interceptor token config) = baseURL config
  ∧ timeout (request_interceptor token config) = timeout config
  ∧ withCredentials (request_interceptor token config) = withCredentials config
  ∧ headers (request_interceptor token config) !! "Authorization"
    = match token with
      | Some t => if String.eqb t "" then headers config !! "Authorization"
                  else Some ("Bearer " +:+ t)
      | None => headers config !! "Authorization"
      end.
Proof.
  intros Hk. unfold request_interceptor, truthy_str.
  destruct token as [t|]; [|done].
  destruct (String.eqb t ""); cbn; [done|].
  rewrite lookup_insert_ne by done. by rewrite lookup_insert_eq.
Qed.

(* ===================================================================== *)
(** ** The further properties at concrete inputs *)
(* ===================================================================== *)

Lemma neq_by_eqb (x y : string) : String.eqb x y = false → x ≠ y.
Proof. apply String.eqb_neq. Qed.

Lemma projectSchema_accepts_witness :
  projectSchema (as_input valid_values) = inr valid_values.
Proof.
  exact (projectSchema_accepts_and_fills_defaults (as_input valid_values) 0
           (neq_by_eqb "Website" "" eq_refl) (neq_by_eqb "c1" "" eq_refl) eq_refl).
Defined.

Lemma projectSchema_idempotent_witness :
  projectSchema (formValues (handle_events filling_in blank_modal)) = inr filled_in_values
  ∧ projectSchema (as_input filled_in_values) = inr filled_in_values.
Proof.
  split; [reflexivity|].
  exact (projectSchema_idempotent (formValues (handle_events filling_in blank_modal))
           filled_in_values eq_refl).
Defined.

Lemma submitted_status_witness :
  projectSchema (formValues (handle_events filling_in (mount create_props no_date 0)))
  = inr filled_in_values
  ∧ ProjectFormValues.status filled_in_values = NotStarted.
Proof.
  split; [reflexivity|].
  exact (proj1 (proj2 (submitted_status_is_the_default_one create_props no_date 0
                         filling_in filled_in_values eq_refl)) (or_introl eq_refl)).
Defined.

Lemma new_form_witness :
  (∃ v, projectSchema (formValues (handle_events filling_in (mount create_props no_date 0)))
        = inr v)
  ∧ ¬ ∃ v, projectSchema (formValues (handle_events [TypeName "Website"]
                                        (mount create_props no_date 0))) = inr v.
Proof.
  split.
  - apply (new_form_is_accepted_iff_name_and_client create_props no_date 0 filling_in
             (or_introl eq_refl)).
    split; by apply neq_by_eqb.
  - intros H.
    apply (new_form_is_accepted_iff_name_and_client create_props no_date 0
             [TypeName "Website"] (or_introl eq_refl)) in H.
    by destruct H as [_ H].
Defined.

Lemma chosen_template_witness :
  template_label [onboarding_template; audit_template]
    (ProjectFormInput.templateId
       (formValues (handle_event (ChooseTemplate audit_template) blank_modal)))
  = "Audit".
Proof.
  refine (proj1 (proj1 (chosen_template_is_shown [onboarding_template; audit_template]
                          audit_template blank_modal _ _ _ _))).
  - right. by left.
  - repeat constructor; cbn; rewrite ?list_elem_of_In; cbn; intuition discriminate.
  - by apply neq_by_eqb.
  - by apply neq_by_eqb.
Defined.

Lemma checkbox_changes_one_member_witness :
  isSelected "B" (checkbox_onChange "B" false (Some ["A"; "B"; "C"])) = false
  ∧ isSelected "C" (checkbox_onChange "B" false (Some ["A"; "B"; "C"]))
    = isSelected "C" (Some ["A"; "B"; "C"]).
Proof.
  pose proof (checkbox_changes_one_member "B" "C" false (Some ["A"; "B"; "C"])
                (neq_by_eqb "B" "" eq_refl)) as [H1 H2].
  split; [exact H1 | exact (H2 (neq_by_eqb "C" "B" eq_refl))].
Defined.

Lemma member_without_identifier_witness :
  isSelected (member_id nameless_member) (Some ["A"]) = false
  ∧ checkbox_onChange (member_id nameless_member) true (Some ["A"]) = Some ["A"].
Proof.
  exact (member_without_identifier_is_inert nameless_member true (Some ["A"])
           (or_introl eq_refl) (or_intror eq_refl)).
Defined.

Lemma team_selection_witness :
  NoDup (fieldValue (ProjectFormInput.teamMemberIds
                       (formValues (handle_events filling_in blank_modal)))).
Proof.
  apply (team_selection_has_no_duplicates filling_in blank_modal). constructor.
Defined.

Lemma edit_submission_witness :
  List.filter is_network_call
    (trace (onSubmit healthy_backend (edit_props unassigned_project) valid_values
              filled_modal))
  = [api_patch_ev "/projects/p7" (JObj (formattedData (values_object valid_values)))].
Proof.
  exact (edit_submission_patches_once healthy_backend (edit_props unassigned_project)
           unassigned_project "p7" valid_values filled_modal eq_refl eq_refl
           (neq_by_eqb "p7" "" eq_refl) (or_introl eq_refl)).
Defined.

Lemma create_submission_witness :
  List.filter is_network_call
    (trace (onSubmit (rejecting_backend network_error) create_props valid_values
              filled_modal))
  = [api_post_ev "/projects" (JObj (formattedData (values_object valid_values)))].
Proof.
  exact (create_submission_posts_once (rejecting_backend network_error) create_props
           valid_values filled_modal (or_introl eq_refl)).
Defined.

Lemma submission_callbacks_witness :
  onCreated create_props = Some "onCreated" ∨ onUpdated create_props = Some "onCreated".
Proof.
  apply (submission_invokes_only_result_callbacks healthy_backend create_props
           filled_modal "onCreated" [JStr "p1"]).
  vm_compute. do 5 right. left. reflexivity.
Defined.

Lemma untouched_edit_witness :
  ∃ body,
    List.filter is_network_call
      (trace (form_handleSubmit healthy_backend (edit_props unassigned_project)
                (mount (edit_props unassigned_project) no_date 5)))
    = [api_patch_ev "/projects/p7" (JObj body)]
    ∧ field body "name" = JStr "Website"
    ∧ field body "assigneeId" = JNull
    ∧ field body "teamMemberIds" = JArr [JStr "A"].
Proof.
  destruct (untouched_edit_sends_the_record_back healthy_backend
              (edit_props unassigned_project) unassigned_project no_date 5 "p7" 5
              eq_refl eq_refl (neq_by_eqb "Website" "" eq_refl)
              (neq_by_eqb "c1" "" eq_refl) eq_refl (neq_by_eqb "p7" "" eq_refl)
              (or_introl eq_refl))
    as (body & Hreq & Hname & _ & Htm & Has).
  exists body. split_and!; [exact Hreq | exact Hname | exact Has | exact Htm].
Defined.

Lemma failed_team_member_fetch_witness :
  assignee_options
    (array_items (match outcome (load_reference_data team_members_down tt) with
                  | Ok data => data.1.2
                  | Thrown _ => JUndefined
                  end))
  = Ok [JStr "none"].
Proof.
  exact (failed_team_member_fetch_leaves_only_none team_members_down network_error tt
           _ _ _ eq_refl eq_refl).
Defined.

Lemma failed_client_fetch_witness :
  client_options
    (array_items (match outcome (load_reference_data clients_down tt) with
                  | Ok data => data.1.1
                  | Thrown _ => JUndefined
                  end))
  = Ok [JStr "no-clients"]
  ∧ ∃ v, projectSchema (formValues (handle_events [TypeName "Website"; ChooseClient "no-clients"]
                                      blank_modal)) = inr v
         ∧ ProjectFormValues.clientId v = "no-clients".
Proof.
  exact (failed_client_fetch_offers_a_placeholder_that_validates clients_down network_error
           tt _ _ _
           (formValues (handle_events [TypeName "Website"; ChooseClient "no-clients"]
                          blank_modal)) 0
           eq_refl eq_refl (neq_by_eqb "Website" "" eq_refl) eq_refl eq_refl).
Defined.

Lemma failed_load_witness :
  let r := LegacyProjectModal.loadData (Ok [acme]) (Thrown network_error) false
             (LegacyProjectModal.mount sample_format 0) in
  LegacyProjectModal.clients (final_state r) = []
  ∧ LegacyProjectModal.loading (final_state r) = false.
Proof.
  pose proof (LegacyFacts.failed_load_sets_neither_list (Ok [acme]) (Thrown network_error)
                false (LegacyProjectModal.mount sample_format 0)
                (or_intror (ex_intro _ network_error eq_refl))) as W.
  cbv zeta in W |- *. destruct W as (_ & Hc & _ & Hl & _).
  split; [exact Hc | exact Hl].
Defined.

Lemma blank_name_witness :
  LegacyProjectModal.click_submit healthy_backend "onClose" (legacy_modal "   " "c1" false)
  = (Ok tt, legacy_modal "   " "c1" false,
     [preventDefault_ev; toast_error_ev (JStr "Project name is required")]).
Proof.
  refine (LegacyFacts.blank_name_is_rejected_by_the_handler healthy_backend "onClose"
            (legacy_modal "   " "c1" false) eq_refl eq_refl
            (neq_by_eqb "   " "" eq_refl) eq_refl (neq_by_eqb "c1" "" eq_refl) _ eq_refl).
  by left.
Defined.

Lemma legacy_modal_closes_witness :
  List.filter is_callback
    (trace (LegacyProjectModal.handleSubmit healthy_backend "onClose"
              (legacy_modal "Website" "c1" false)))
  = [callback_ev "onClose" []]
  ∧ List.filter is_callback
      (trace (LegacyProjectModal.handleSubmit (rejecting_backend network_error) "onClose"
                (legacy_modal "Website" "c1" false)))
    = [].
Proof.
  pose proof (LegacyFacts.legacy_modal_closes_exactly_on_success healthy_backend "onClose"
                (legacy_modal "Website" "c1" false)) as W.
  pose proof (LegacyFacts.legacy_modal_closes_exactly_on_success
                (rejecting_backend network_error) "onClose"
                (legacy_modal "Website" "c1" false)) as W'.
  cbv zeta in W, W'.
  destruct W as (_ & _ & Hyes & _). destruct W' as (_ & _ & _ & Hno).
  split.
  - apply Hyes. split; [by apply neq_by_eqb|]. split; [by apply neq_by_eqb|].
    by exists created_response.
  - apply Hno. intros (_ & _ & v & Hv). discriminate Hv.
Defined.

Lemma one_off_project_witness :
  ∃ body,
    List.filter is_network_call
      (trace (LegacyProjectModal.handleSubmit healthy_backend "onClose"
                (LegacyProjectModal.handleRepeatingChange false
                   (LegacyProjectModal.handleInputChange "frequency" "Weekly"
                      (legacy_modal "Website" "c1" true)))))
    = [createProject_ev (JObj body)]
    ∧ field body "repeating" = JBool false
    ∧ field body "frequency" = JStr "Weekly".
Proof.
  destruct (LegacyFacts.one_off_project_keeps_the_chosen_frequency healthy_backend "onClose"
              (LegacyProjectModal.handleInputChange "frequency" "Weekly"
                 (legacy_modal "Website" "c1" true)) "Weekly"
              eq_refl (neq_by_eqb (trim "Website") "" eq_refl)
              (neq_by_eqb "c1" "" eq_refl)) as (body & Hnet & Hrep & Hfreq & _).
  exists body. split; [exact Hnet|]. split; [exact Hrep | exact Hfreq].
Defined.

Lemma ctrl_clicks_commute_witness :
  LegacyProjectModal.CreateProjectFormData.teamMemberIds
    (LegacyProjectModal.formData
       (LegacyProjectModal.ctrl_click_option "C"
          (LegacyProjectModal.ctrl_click_option "B" (legacy_modal "" "" false))))
  = LegacyProjectModal.CreateProjectFormData.teamMemberIds
      (LegacyProjectModal.formData
         (LegacyProjectModal.ctrl_click_option "B"
            (LegacyProjectModal.ctrl_click_option "C" (legacy_modal "" "" false)))).
Proof.
  apply (LegacyFacts.ctrl_clicks_commute "B" "C" (legacy_modal "" "" false)).
  - right. by left.
  - right. right. by left.
Defined.

Lemma failed_load_blocks_witness :
  let st :=
    LegacyProjectModal.handle_events sample_format
      [ LegacyProjectModal.InputChange "name" "Website";
        LegacyProjectModal.InputChange "clientId" "c1" ]
      (final_state (LegacyProjectModal.loadData (Thrown network_error) (Ok []) false
                      (LegacyProjectModal.mount sample_format 0))) in
  LegacyProjectModal.click_submit healthy_backend "onClose" st = (Ok tt, st, []).
Proof.
  exact (LegacyFacts.failed_load_blocks_submission healthy_backend "onClose"
           (Thrown network_error) (Ok []) false sample_format 0
           [ LegacyProjectModal.InputChange "name" "Website";
             LegacyProjectModal.InputChange "clientId" "c1" ]
           (or_introl (ex_intro _ network_error eq_refl))).
Defined.

Lemma interceptor_witness :
  headers (request_interceptor (Some "abc") api_defaults) !! "Content-Type"
  = Some "application/json"
  ∧ headers (request_interceptor (Some "abc") api_defaults) !! "Authorization"
    = Some "Bearer abc"
  ∧ headers (request_interceptor None api_defaults) !! "Authorization" = None.
Proof.
  pose proof (interceptor_sets_only_the_authorization_header (Some "abc") api_defaults
                "Content-Type" (neq_by_eqb "Content-Type" "Authorization" eq_refl))
    as (Hct & _ & _ & _ & Hau).
  pose proof (interceptor_sets_only_the_authorization_header None api_defaults
                "Content-Type" (neq_by_eqb "Content-Type" "Authorization" eq_refl))
    as (_ & _ & _ & _ & Hno).
  split; [exact Hct|]. split; [exact Hau | exact Hno].
Defined.
